(** * Cognito side panel: the message-send hook [useSendMessage]

    A shallow embedding of [useSendMessage] (the [updateAssistantTurn]
    reconciler, [onSend] and [onStop]) and of the helpers it relies on,
    followed by the properties established about them.

    Conventions of the embedding.
    - A JavaScript string is a [string]; one [ascii] stands for one code
      unit, so [String.length] is the JavaScript [length].
    - A JavaScript number that the hook only uses as an integer (time stamps,
      the character limits) is a [Z].
    - React state and the two refs of the hook live in one record, [World];
      a state setter writes its field at once, a functional updater is
      applied to the current field.
    - An [async] function is a [Task]: it runs until its next [await], where
      it exposes the world and a continuation that receives how the awaited
      promise settled together with the world found on resumption. *)

From Stdlib Require Import String Ascii List ZArith Bool Lia Arith.
Import ListNotations.
Local Open Scope string_scope.

Set Implicit Arguments.

(* ------------------------------------------------------------------ *)
(** ** JavaScript string primitives used by the hook *)

Module JS.

(** White space as [String.prototype.trim] and the [\s] class see it, on
    the code units an [ascii] can hold. *)
Definition isWhiteSpace (c : ascii) : bool :=
  let n := nat_of_ascii c in
  (((9 <=? n) && (n <=? 13)) || (n =? 32) || (n =? 160))%nat.

Fixpoint trimStart (s : string) : string :=
  match s with
  | EmptyString => EmptyString
  | String c s' => if isWhiteSpace c then trimStart s' else s
  end.

Fixpoint trimEnd (s : string) : string :=
  match s with
  | EmptyString => EmptyString
  | String c s' =>
      match trimEnd s' with
      | EmptyString => if isWhiteSpace c then EmptyString else String c EmptyString
      | r => String c r
      end
  end.

Definition trim (s : string) : string := trimEnd (trimStart s).

Definition lowerChar (c : ascii) : ascii :=
  let n := nat_of_ascii c in
  if ((65 <=? n) && (n <=? 90))%nat then ascii_of_nat (n + 32) else c.

Fixpoint toLowerCase (s : string) : string :=
  match s with
  | EmptyString => EmptyString
  | String c s' => String (lowerChar c) (toLowerCase s')
  end.

Fixpoint startsWith (s p : string) : bool :=
  match p, s with
  | EmptyString, _ => true
  | String _ _, EmptyString => false
  | String a p', String b s' => Ascii.eqb a b && startsWith s' p'
  end.

(** [s.includes(p)] *)
Fixpoint includes (s p : string) : bool :=
  startsWith s p ||
  match s with
  | EmptyString => false
  | String _ s' => includes s' p
  end.

(** A string in a boolean position: the empty string is falsy. *)
Definition truthy (s : string) : bool :=
  match s with EmptyString => false | _ => true end.

(** [s || d] on strings. *)
Definition orElse (s d : string) : string := if truthy s then s else d.

(** [parts.join(sep)] *)
Fixpoint join (sep : string) (parts : list string) : string :=
  match parts with
  | [] => ""
  | [p] => p
  | p :: rest => p ++ sep ++ join sep rest
  end.

(** [s.substring(0, n)]: a negative end counts as 0, an end past the
    string as its length. *)
Definition substring0 (n : Z) (s : string) : string :=
  String.substring 0 (Z.to_nat n) s.

Definition newline : string := String (ascii_of_nat 10) EmptyString.

End JS.

(* ------------------------------------------------------------------ *)
(** ** Data model *)

Inductive TurnRole := RoleUser | RoleAssistant.

Inductive TurnStatus := StComplete | StStreaming | StError | StCancelled.

(** [MessageTurn] of the chat history. *)
Record MessageTurn := mkTurn {
  role : TurnRole;
  rawContent : string;
  status : TurnStatus;
  timestamp : Z;
  webDisplayContent : option string
}.

Inductive ApiRole := ApiUser | ApiAssistant | ApiSystem.

Record ApiMessage := mkApiMessage {
  api_role : ApiRole;
  api_content : string
}.

Inductive ChatStatus := Idle | Done_ | Searching | Reading | Thinking.

Inductive ChatMode := ModeWeb | ModePage | ModeChat.

Inductive ComputeLevel := LevelLow | LevelMedium | LevelHigh.

Record Model := mkModel {
  model_id : string;
  model_host : option string
}.

(** The fields of [Config] that the hook reads.  An optional field that may
    be [undefined] is an [option]. *)
Record Config := mkConfig {
  chatMode : option ChatMode;
  computeLevel : ComputeLevel;
  models : option (list Model);
  selectedModel : option string;
  webLimit : option Z;
  contextLimit : option Z;
  personas : list (string * string);
  persona : string;
  useNote : bool;
  noteContent : string;
  userName : option string;
  userProfile : option string;
  groqApiKey : string;
  geminiApiKey : string;
  openAiApiKey : string;
  openRouterApiKey : string;
  customApiKey : string;
  customEndpoint : string;
  ollamaUrl : string;
  lmStudioUrl : string
}.

(** An [AbortController] is an object shared between the ref, the closures of
    the send that created it and the operations it was handed to: the world
    keeps one [aborted] flag per controller ever created and a controller is
    the index of its flag. *)
Definition Controller := nat.

Record World := mkWorld {
  turns : list MessageTurn;
  message : string;
  webContent : string;
  pageContent : string;
  loading : bool;
  chatStatus : ChatStatus;
  completionGuard : option Z;
  abortControllerRef : option Controller;
  controllers : list bool;
  clock : Z
}.

Definition setTurns (f : list MessageTurn -> list MessageTurn) (w : World) : World :=
  mkWorld (f (turns w)) (message w) (webContent w) (pageContent w) (loading w)
          (chatStatus w) (completionGuard w) (abortControllerRef w) (controllers w) (clock w).

Definition setMessage (m : string) (w : World) : World :=
  mkWorld (turns w) m (webContent w) (pageContent w) (loading w)
          (chatStatus w) (completionGuard w) (abortControllerRef w) (controllers w) (clock w).

Definition setWebContent (c : string) (w : World) : World :=
  mkWorld (turns w) (message w) c (pageContent w) (loading w)
          (chatStatus w) (completionGuard w) (abortControllerRef w) (controllers w) (clock w).

Definition setPageContent (c : string) (w : World) : World :=
  mkWorld (turns w) (message w) (webContent w) c (loading w)
          (chatStatus w) (completionGuard w) (abortControllerRef w) (controllers w) (clock w).

Definition setLoading (b : bool) (w : World) : World :=
  mkWorld (turns w) (message w) (webContent w) (pageContent w) b
          (chatStatus w) (completionGuard w) (abortControllerRef w) (controllers w) (clock w).

Definition setChatStatus (c : ChatStatus) (w : World) : World :=
  mkWorld (turns w) (message w) (webContent w) (pageContent w) (loading w)
          c (completionGuard w) (abortControllerRef w) (controllers w) (clock w).

Definition setGuard (g : option Z) (w : World) : World :=
  mkWorld (turns w) (message w) (webContent w) (pageContent w) (loading w)
          (chatStatus w) g (abortControllerRef w) (controllers w) (clock w).

Definition setAbortRef (r : option Controller) (w : World) : World :=
  mkWorld (turns w) (message w) (webContent w) (pageContent w) (loading w)
          (chatStatus w) (completionGuard w) r (controllers w) (clock w).

Definition setControllers (cs : list bool) (w : World) : World :=
  mkWorld (turns w) (message w) (webContent w) (pageContent w) (loading w)
          (chatStatus w) (completionGuard w) (abortControllerRef w) cs (clock w).

(** The environment moves the clock; the hook only reads it ([Date.now()]). *)
Definition setClock (t : Z) (w : World) : World :=
  mkWorld (turns w) (message w) (webContent w) (pageContent w) (loading w)
          (chatStatus w) (completionGuard w) (abortControllerRef w) (controllers w) t.

(** [new AbortController()] *)
Definition newController (w : World) : Controller * World :=
  (List.length (controllers w), setControllers (controllers w ++ [false])%list w).

(** [controller.signal.aborted] *)
Definition signalAborted (c : Controller) (w : World) : bool :=
  nth c (controllers w) false.

Fixpoint raiseFlag (c : nat) (cs : list bool) : list bool :=
  match cs, c with
  | [], _ => []
  | _ :: cs', O => true :: cs'
  | b :: cs', S c' => b :: raiseFlag c' cs'
  end.

(** [controller.abort()] *)
Definition abort (c : Controller) (w : World) : World :=
  setControllers (raiseFlag c (controllers w)) w.

(* ------------------------------------------------------------------ *)
(** ** The reconciler: [updateAssistantTurn] *)

Definition optZ_eqb (a b : option Z) : bool :=
  match a, b with
  | None, None => true
  | Some x, Some y => Z.eqb x y
  | _, _ => false
  end.

Definition isNull {A} (o : option A) : bool :=
  match o with None => true | Some _ => false end.

Definition lastTurnOf (ts : list MessageTurn) : option MessageTurn :=
  match ts with
  | [] => None
  | t :: ts' => Some (last ts' t)
  end.

Definition roleIsAssistant (r : TurnRole) : bool :=
  match r with RoleAssistant => true | RoleUser => false end.

(** The status an update gives the trailing assistant turn. *)
Definition updatedStatus (isFinished isError isCancelled : bool) : TurnStatus :=
  if isError then StError
  else if isCancelled then StCancelled
  else if isFinished then StComplete else StStreaming.

(** The content an update gives the trailing assistant turn. *)
Definition finalContentForTurn (lastTurn : MessageTurn) (update : string)
           (isError isCancelled : bool) : string :=
  if isCancelled then
    let existingContent := JS.orElse (rawContent lastTurn) "" in
    existingContent ++ (if JS.truthy existingContent then " " else "") ++ update
  else if isError then
    "Error: " ++ JS.orElse update "Unknown stream/handler error"
  else update.

(** The functional updater that [updateAssistantTurn] hands to [setTurns];
    [now] is [Date.now()]. *)
Definition turnsUpdater (now : Z) (update : string)
           (isFinished isError isCancelled : bool)
           (prevTurns : list MessageTurn) : list MessageTurn :=
  let noAssistantTurn :=
    if isError then
      (prevTurns ++ [mkTurn RoleAssistant
                            ("Error: " ++ JS.orElse update "Unknown operation error")
                            StError now None])%list
    else prevTurns in
  match lastTurnOf prevTurns with
  | None => noAssistantTurn
  | Some lastTurn =>
      if negb (roleIsAssistant (role lastTurn)) then noAssistantTurn
      else
        (removelast prevTurns ++
         [mkTurn (role lastTurn)
                 (finalContentForTurn lastTurn update isError isCancelled)
                 (updatedStatus isFinished isError isCancelled)
                 now
                 (webDisplayContent lastTurn)])%list
  end.

(** The late signals that are dropped once the guard slot is empty. *)
Definition alreadyFinalizedSignal (update : string)
           (isFinished isError isCancelled : bool) : bool :=
  (String.eqb update "" && isFinished && negb isError && negb isCancelled)
  || (isError && (JS.includes update "Operation cancelled by user"
                  || JS.includes update "Streaming operation cancelled")).

Definition updateAssistantTurn (callId : option Z) (update : string)
           (isFinished isError isCancelled : bool) (w : World) : World :=
  if negb (optZ_eqb (completionGuard w) callId)
     && negb isFinished && negb isError && negb isCancelled
  then w
  else if isNull (completionGuard w) && negb (isNull callId)
          && alreadyFinalizedSignal update isFinished isError isCancelled
  then setChatStatus Idle (setLoading false w)
  else
    let w := setTurns (turnsUpdater (clock w) update isFinished isError isCancelled) w in
    if isFinished || isError || isCancelled then
      let w := setLoading false w in
      let w := setChatStatus (if isError then Idle
                              else if isCancelled then Idle else Done_) w in
      if optZ_eqb (completionGuard w) callId then
        let w := setGuard None w in
        match abortControllerRef w with
        | Some _ => setAbortRef None w
        | None => w
        end
      else w
    else w.

(* ------------------------------------------------------------------ *)
(** ** Helpers of [onSend] *)

Definition hostIs (m : Model) (h : string) : bool :=
  match model_host m with
  | Some h' => String.eqb h' h
  | None => false
  end.

(** [getAuthHeader]: the value of the [Authorization] header, if any. *)
Definition getAuthHeader (config : Config) (currentModel : Model) : option string :=
  if hostIs currentModel "groq" && JS.truthy (groqApiKey config)
  then Some ("Bearer " ++ groqApiKey config)
  else if hostIs currentModel "gemini" && JS.truthy (geminiApiKey config)
  then Some ("Bearer " ++ geminiApiKey config)
  else if hostIs currentModel "openai" && JS.truthy (openAiApiKey config)
  then Some ("Bearer " ++ openAiApiKey config)
  else if hostIs currentModel "openrouter" && JS.truthy (openRouterApiKey config)
  then Some ("Bearer " ++ openRouterApiKey config)
  else if hostIs currentModel "custom" && JS.truthy (customApiKey config)
  then Some ("Bearer " ++ customApiKey config)
  else None.

Module Url.

Fixpoint drop (n : nat) (s : string) : string :=
  match n, s with
  | O, _ => s
  | S _, EmptyString => EmptyString
  | S n', String _ s' => drop n' s'
  end.

(** The longest prefix without white space: what [[^\s]+] consumes. *)
Fixpoint takeNonSpace (s : string) : string :=
  match s with
  | EmptyString => EmptyString
  | String c s' =>
      if JS.isWhiteSpace c then EmptyString else String c (takeNonSpace s')
  end.

(** A match of [https?:\/\/[^\s]+] that starts at the head of [s]. *)
Definition urlAt (s : string) : option string :=
  let scheme :=
    if JS.startsWith s "https://" then Some "https://"
    else if JS.startsWith s "http://" then Some "http://"
    else None in
  match scheme with
  | None => None
  | Some p =>
      match takeNonSpace (drop (String.length p) s) with
      | EmptyString => None
      | body => Some (p ++ body)
      end
  end.

(** Left-to-right scan of the global regex; [skip] code units of the last
    match are still to be passed over. *)
Fixpoint scan (s : string) (skip : nat) : list string :=
  match s with
  | EmptyString => []
  | String _ s' =>
      match skip with
      | S k => scan s' k
      | O =>
          match urlAt s with
          | Some u => u :: scan s' (String.length u - 1)
          | None => scan s' 0
          end
      end
  end.

(** [message.match(urlRegex)]; [[]] stands for [null], a match is never
    an empty array. *)
Definition matchUrls (message : string) : list string := scan message 0.

End Url.

Fixpoint endsWith (s p : string) : bool :=
  String.eqb s p ||
  match s with
  | EmptyString => false
  | String _ s' => endsWith s' p
  end.

Fixpoint mapIndexed {A B} (f : A -> nat -> B) (i : nat) (l : list A) : list B :=
  match l with
  | [] => []
  | x :: l' => f x i :: mapIndexed f (S i) l'
  end.

Definition dquote : string := String (ascii_of_nat 34) EmptyString.

Definition blankLine : string := JS.newline ++ JS.newline.

(** What a [catch] clause receives: an [Error] object, or any other value
    (with its [name] property, if it has one, and its [String(...)]). *)
Inductive Thrown :=
| ThrownError (name msg : string)
| ThrownValue (name : option string) (asString : string).

Definition thrownName (e : Thrown) : option string :=
  match e with
  | ThrownError n _ => Some n
  | ThrownValue n _ => n
  end.

(** [e instanceof Error ? e.message : String(e)] *)
Definition messageOrString (e : Thrown) : string :=
  match e with
  | ThrownError _ m => m
  | ThrownValue _ s => s
  end.

(** [e instanceof Error ? e.message : fallback] *)
Definition messageOr (fallback : string) (e : Thrown) : string :=
  match e with
  | ThrownError _ m => m
  | ThrownValue _ _ => fallback
  end.

Inductive Settled (A : Type) :=
| Fulfilled (a : A)
| Rejected (e : Thrown).
Arguments Fulfilled {A} a.
Arguments Rejected {A} e.

Record Tab := mkTab {
  tab_url : option string;
  tab_mimeType : option string
}.

(** [Boolean(x)] on an optional boolean argument. *)
Definition jsBoolean (b : option bool) : bool :=
  match b with Some true => true | _ => false end.

(** The operations [onSend] awaits, with the arguments it passes.  The
    callbacks are the closures over [updateAssistantTurn] that the strategy
    may call while the send is suspended. *)
Inductive AsyncOp :=
| ScrapeUrls (urls : list string) (signal : Controller)
| ProcessQueryWithAI (query : string) (config : Config) (currentModel : Model)
                     (authHeader : option string) (signal : Controller)
                     (history : list ApiMessage)
| WebSearch (query : string) (config : Config) (signal : Controller)
| TabsQuery
| ExtractTextFromPdf (pdfUrl : string) (callId : Z)
| StorageGetItem (key : string)
| HandleHighCompute (messageToUse : string) (history : list MessageTurn)
                    (config : Config) (currentModel : Model)
                    (authHeader : option string)
                    (onUpdate : string -> option bool -> World -> World)
                    (signal : Controller)
| HandleMediumCompute (messageToUse : string) (history : list MessageTurn)
                      (config : Config) (currentModel : Model)
                      (authHeader : option string)
                      (onUpdate : string -> option bool -> World -> World)
                      (signal : Controller)
| FetchDataAsStream (url : string) (modelName : string)
                    (messages : list ApiMessage)
                    (onChunk : string -> option bool -> option bool -> World -> World)
                    (authHeader : option string) (host : string)
                    (signal : Controller).

Definition Result (op : AsyncOp) : Type :=
  match op with
  | ScrapeUrls _ _ => list string
  | ProcessQueryWithAI _ _ _ _ _ _ => string
  | WebSearch _ _ _ => string
  | TabsQuery => option Tab
  | ExtractTextFromPdf _ _ => string
  | StorageGetItem _ => option string
  | HandleHighCompute _ _ _ _ _ _ _ => unit
  | HandleMediumCompute _ _ _ _ _ _ _ => unit
  | FetchDataAsStream _ _ _ _ _ _ _ => unit
  end.

Definition Resp (op : AsyncOp) : Type := Settled (Result op).

(** An [async] function body between two suspension points. *)
Inductive Task :=
| Return (w : World)
| Await (w : World) (op : AsyncOp) (k : Resp op -> World -> Task).
Arguments Await : clear implicits.

(* ------------------------------------------------------------------ *)
(** ** Context fragments and the system prompt *)

(** [limit || 1] *)
Definition limitOrOne (limit : option Z) : Z :=
  match limit with
  | Some 0%Z | None => 1%Z
  | Some n => n
  end.

(** [webContentForLlm]: the search result as it goes into the prompt. *)
Definition webContentForLlm (config : Config) (searchRes : string) : string :=
  let webLimitChars := (1000 * limitOrOne (webLimit config))%Z in
  let limitedWebResult :=
    if negb (webLimitChars =? 0)%Z then JS.substring0 webLimitChars searchRes
    else searchRes in
  if optZ_eqb (webLimit config) (Some 128%Z) then searchRes else limitedWebResult.

(** [pageContentForLlm]: the page text as it goes into the prompt. *)
Definition pageContentForLlm (config : Config) (currentPageContent : string) : string :=
  let charLimit := (1000 * limitOrOne (contextLimit config))%Z in
  let limitedContent :=
    if negb (charLimit =? 0)%Z && JS.truthy currentPageContent
    then JS.substring0 charLimit currentPageContent
    else currentPageContent in
  if optZ_eqb (contextLimit config) (Some 128%Z) then currentPageContent
  else limitedContent.

Fixpoint lookupPersona (ps : list (string * string)) (key : string) : option string :=
  match ps with
  | [] => None
  | (k, v) :: ps' => if String.eqb k key then Some v else lookupPersona ps' key
  end.

Definition modeIs (config : Config) (m : ChatMode) : bool :=
  match chatMode config, m with
  | Some ModeWeb, ModeWeb | Some ModePage, ModePage | Some ModeChat, ModeChat => true
  | _, _ => false
  end.

Definition personaText (config : Config) : string :=
  match lookupPersona (personas config) (persona config) with
  | Some p => JS.orElse p ""
  | None => ""
  end.

Definition pageContextString (config : Config) (pageText : string) : string :=
  if modeIs config ModePage && JS.truthy pageText
  then "Use the following page content for context: " ++ pageText
  else "".

Definition webContextString (config : Config) (webText : string) : string :=
  if modeIs config ModeWeb && JS.truthy webText
  then "Refer to this web search summary: " ++ webText
  else "".

Definition noteContextString (config : Config) : string :=
  if useNote config && JS.truthy (noteContent config)
  then "Refer to this note for context: " ++ noteContent config
  else "".

Definition truthyOpt (o : option string) : bool :=
  match o with Some s => JS.truthy s | None => false end.

Definition textOf (o : option string) : string :=
  match o with Some s => s | None => "" end.

Definition userContextStatement (config : Config) : string :=
  let userName := option_map JS.trim (userName config) in
  let userProfile := option_map JS.trim (userProfile config) in
  if truthyOpt userName
     && negb (String.eqb (JS.toLowerCase (textOf userName)) "user")
     && negb (String.eqb (textOf userName) "")
  then
    let statement :=
      "You are interacting with a user named " ++ dquote ++ textOf userName
        ++ dquote ++ "." in
    if truthyOpt userProfile
    then statement ++ " Their provided profile information is: " ++ dquote
           ++ textOf userProfile ++ dquote ++ "."
    else statement
  else if truthyOpt userProfile
  then "You are interacting with a user. Their provided profile information is: "
         ++ dquote ++ textOf userProfile ++ dquote ++ "."
  else "".

Definition scrapedContextString (scrapedContent : string) : string :=
  "Use the following scraped content from URLs in the user's message:"
    ++ JS.newline ++ scrapedContent.

(** [parts.push(x)] under [if (cond)] *)
Definition pushIf (cond : bool) (x : string) (parts : list string) : list string :=
  if cond then (parts ++ [x])%list else parts.

Definition systemPromptParts (personaTxt userCtx noteCtx pageCtx webCtx scrapedContent : string)
  : list string :=
  let parts := [] in
  let parts := pushIf (JS.truthy personaTxt) personaTxt parts in
  let parts := pushIf (JS.truthy userCtx) userCtx parts in
  let parts := pushIf (JS.truthy noteCtx) noteCtx parts in
  let parts := pushIf (JS.truthy pageCtx) pageCtx parts in
  let parts := pushIf (JS.truthy webCtx) webCtx parts in
  pushIf (JS.truthy scrapedContent) (scrapedContextString scrapedContent) parts.

Definition systemContent (personaTxt userCtx noteCtx pageCtx webCtx scrapedContent : string)
  : string :=
  JS.trim (JS.join blankLine
             (systemPromptParts personaTxt userCtx noteCtx pageCtx webCtx scrapedContent)).

(** The system prompt of a send, from the config and what the stages found. *)
Definition systemContentOf (config : Config) (pageText webText scrapedContent : string)
  : string :=
  systemContent (personaText config) (userContextStatement config)
                (noteContextString config) (pageContextString config pageText)
                (webContextString config webText) scrapedContent.

(* ------------------------------------------------------------------ *)
(** ** The hook *)

Section UseSendMessage.

(** What the hook closes over from the render it was created in. *)
Variable isLoading : bool.
Variable currentTurns : list MessageTurn.
Variable config : option Config.

(** [normalizeApiEndpoint] of [src/background/util]. *)
Variable normalizeApiEndpoint : string -> string.

Definition turnRoleToApi (r : TurnRole) : ApiRole :=
  match r with RoleUser => ApiUser | RoleAssistant => ApiAssistant end.

(** The endpoint table; [""] stands for a missing entry, which is all the
    caller tests. *)
Definition urlMap (cfg : Config) (host : string) : string :=
  if String.eqb host "groq" then "https://api.groq.com/openai/v1/chat/completions"
  else if String.eqb host "ollama" then ollamaUrl cfg ++ "/api/chat"
  else if String.eqb host "gemini"
  then "https://generativelanguage.googleapis.com/v1beta/openai/chat/completions"
  else if String.eqb host "lmStudio" then lmStudioUrl cfg ++ "/v1/chat/completions"
  else if String.eqb host "openai" then "https://api.openai.com/v1/chat/completions"
  else if String.eqb host "openrouter"
  then "https://openrouter.ai/api/v1/chat/completions"
  else if String.eqb host "custom"
  then if JS.truthy (customEndpoint cfg)
       then normalizeApiEndpoint (customEndpoint cfg) ++ "/v1/chat/completions"
       else ""
  else "".

(** The [catch] around the dispatch. *)
Definition dispatchCatch (callId : Z) (controller : Controller)
           (error : Thrown) (w : World) : World :=
  if signalAborted controller w then
    let w := if isLoading then setLoading false w else w in
    let w := setChatStatus Idle w in
    let w := if optZ_eqb (completionGuard w) (Some callId)
             then setGuard None w else w in
    match abortControllerRef w with
    | Some c => if Nat.eqb c controller then setAbortRef None w else w
    | None => w
    end
  else updateAssistantTurn (Some callId) (messageOrString error) true true false w.

Definition afterDispatch (callId : Z) (controller : Controller)
           (r : Settled unit) (w : World) : Task :=
  match r with
  | Fulfilled _ => Return w
  | Rejected error => Return (dispatchCatch callId controller error w)
  end.

(** Step 4: execute by compute level. *)
Definition dispatchStage (cfg : Config) (callId : Z) (controller : Controller)
           (msg messageToUse : string) (currentModel : Model)
           (authHeader : option string) (systemPrompt : string)
           (w : World) : Task :=
  let w := setChatStatus Thinking w in
  let onUpdate := fun (update : string) (isFinished : option bool) =>
    updateAssistantTurn (Some callId) update (jsBoolean isFinished) false false in
  match computeLevel cfg with
  | LevelHigh =>
      Await w (HandleHighCompute messageToUse currentTurns cfg currentModel
                                 authHeader onUpdate controller)
            (afterDispatch callId controller)
  | LevelMedium =>
      Await w (HandleMediumCompute messageToUse currentTurns cfg currentModel
                                   authHeader onUpdate controller)
            (afterDispatch callId controller)
  | LevelLow =>
      let host := textOf (model_host currentModel) in
      let url := urlMap cfg host in
      if negb (JS.truthy url) then
        Return (updateAssistantTurn (Some callId)
                  ("Configuration error: Could not determine API URL for host '"
                     ++ host ++ "'.")
                  true true false w)
      else
        let messageForApi :=
          (map (fun turn => mkApiMessage (turnRoleToApi (role turn))
                                         (JS.orElse (rawContent turn) ""))
               currentTurns ++ [mkApiMessage ApiUser msg])%list in
        let messagesForApiPayload :=
          ((if negb (String.eqb (JS.trim systemPrompt) "")
            then [mkApiMessage ApiSystem systemPrompt] else [])
             ++ messageForApi)%list in
        let onChunk := fun (part : string) (isFinished isError : option bool) =>
          updateAssistantTurn (Some callId) part (jsBoolean isFinished)
                              (jsBoolean isError) false in
        Await w (FetchDataAsStream url (textOf (selectedModel cfg))
                                   messagesForApiPayload onChunk authHeader
                                   host controller)
              (afterDispatch callId controller)
  end.

(** The end of the page branch, then the prompt and the dispatch. *)
Definition finishPage (cfg : Config) (callId : Z) (controller : Controller)
           (msg messageToUse : string) (currentModel : Model)
           (authHeader : option string) (scrapedContent searchRes : string)
           (currentPageContent : string) (w : World) : Task :=
  let pageText := pageContentForLlm cfg currentPageContent in
  let w := setPageContent (JS.orElse pageText "") w in
  let w := setChatStatus Thinking w in
  dispatchStage cfg callId controller msg messageToUse currentModel authHeader
    (systemContentOf cfg pageText (webContentForLlm cfg searchRes) scrapedContent) w.

Definition isPdfUrl (tabUrl : string) (tabMimeType : option string) : bool :=
  endsWith (JS.toLowerCase tabUrl) ".pdf"
  || match tabMimeType with
     | Some m => JS.truthy m && String.eqb m "application/pdf"
     | None => false
     end.

(** Page content acquisition (only in page mode), then the rest. *)
Definition contextStage (cfg : Config) (callId : Z) (controller : Controller)
           (msg messageToUse : string) (currentModel : Model)
           (authHeader : option string) (scrapedContent searchRes : string)
           (w : World) : Task :=
  let finish := finishPage cfg callId controller msg messageToUse currentModel
                           authHeader scrapedContent searchRes in
  let pageError := fun e =>
    "Error accessing page content: " ++ messageOr "Unknown error" e in
  if modeIs cfg ModePage then
    let w := setChatStatus Reading w in
    Await w TabsQuery (fun r w =>
      match r with
      | Rejected e => finish (pageError e) w
      | Fulfilled tab =>
          let tabUrl := textOf (match tab with Some t => tab_url t | None => None end) in
          if JS.truthy tabUrl && negb (JS.startsWith tabUrl "chrome://") then
            if isPdfUrl tabUrl (match tab with Some t => tab_mimeType t | None => None end)
            then
              Await w (ExtractTextFromPdf tabUrl callId) (fun r w =>
                match r with
                | Fulfilled text => finish text w
                | Rejected pdfError =>
                    finish ("Error extracting PDF content: "
                              ++ messageOr "Unknown PDF error" pdfError
                              ++ ". Falling back.") w
                end)
            else
              Await w (StorageGetItem "pagestring") (fun r w =>
                match r with
                | Fulfilled storedPageString => finish (textOf storedPageString) w
                | Rejected e => finish (pageError e) w
                end)
          else finish "" w
      end)
  else
    let w := setPageContent "" w in
    dispatchStage cfg callId controller msg messageToUse currentModel authHeader
      (systemContentOf cfg "" (webContentForLlm cfg searchRes) scrapedContent) w.

Definition statusIsOpen (s : TurnStatus) : bool :=
  match s with StStreaming => true | _ => false end.

(** The updater that records the query shown above the answer: of the
    turns only the trailing one can be the very object [prevTurns[length-1]]. *)
Definition markWebDisplay (processedQueryDisplay : string)
           (prevTurns : list MessageTurn) : list MessageTurn :=
  match lastTurnOf prevTurns with
  | None => prevTurns
  | Some t =>
      if roleIsAssistant (role t) && statusIsOpen (status t)
      then (removelast prevTurns ++
            [mkTurn (role t) (rawContent t) (status t) (timestamp t)
                    (Some processedQueryDisplay)])%list
      else prevTurns
  end.

(** What follows [await webSearch(...)], both the [try] and the [catch]. *)
Definition afterWebSearch (cfg : Config) (callId : Z) (controller : Controller)
           (msg : string) (currentModel : Model) (authHeader : option string)
           (scrapedContent queryForProcessing processedQueryDisplay : string)
           (r : Settled string) (w : World) : Task :=
  match r with
  | Fulfilled searchRes =>
      let w := setChatStatus Thinking w in
      if signalAborted controller w then Return w
      else
        let w := if JS.truthy processedQueryDisplay
                 then setTurns (markWebDisplay processedQueryDisplay) w else w in
        contextStage cfg callId controller msg queryForProcessing currentModel
                     authHeader scrapedContent searchRes w
  | Rejected searchError =>
      if match thrownName searchError with
         | Some n => String.eqb n "AbortError"
         | None => false
         end || signalAborted controller w
      then Return w
      else
        let errorMessage := "Web Search Failed: " ++ messageOrString searchError in
        let w := setChatStatus Idle w in
        Return (updateAssistantTurn (Some callId) errorMessage true true false w)
  end.

Definition searchStage (cfg : Config) (callId : Z) (controller : Controller)
           (msg : string) (currentModel : Model) (authHeader : option string)
           (scrapedContent queryForProcessing processedQueryDisplay : string)
           (w : World) : Task :=
  let w := setChatStatus Searching w in
  Await w (WebSearch queryForProcessing cfg controller)
        (afterWebSearch cfg callId controller msg currentModel authHeader
                        scrapedContent queryForProcessing processedQueryDisplay).

(** Query optimisation (only in web mode). *)
Definition optimizeStage (cfg : Config) (callId : Z) (controller : Controller)
           (msg : string) (currentModel : Model) (authHeader : option string)
           (scrapedContent : string) (w : World) : Task :=
  let w := setChatStatus Thinking w in
  let historyForQueryOptimization :=
    map (fun turn => mkApiMessage (turnRoleToApi (role turn)) (rawContent turn))
        currentTurns in
  Await w (ProcessQueryWithAI msg cfg currentModel authHeader controller
                              historyForQueryOptimization)
        (fun r w =>
           match r with
           | Fulfilled optimizedQuery =>
               if JS.truthy optimizedQuery && JS.truthy (JS.trim optimizedQuery)
                  && negb (String.eqb optimizedQuery msg)
               then searchStage cfg callId controller msg currentModel authHeader
                      scrapedContent optimizedQuery
                      ("**Optimized query:** " ++ dquote ++ "*" ++ optimizedQuery
                         ++ "*" ++ dquote ++ blankLine) w
               else searchStage cfg callId controller msg currentModel authHeader
                      scrapedContent msg
                      ("**Original query:** " ++ dquote ++ msg ++ dquote ++ blankLine) w
           | Rejected _ =>
               searchStage cfg callId controller msg currentModel authHeader
                 scrapedContent msg
                 ("**Fallback query:** " ++ dquote ++ msg ++ dquote ++ blankLine) w
           end).

Definition userTurnOf (msg : string) (now : Z) : MessageTurn :=
  mkTurn RoleUser msg StComplete now None.

Definition assistantTurnPlaceholder (now : Z) : MessageTurn :=
  mkTurn RoleAssistant "" StStreaming (now + 1)%Z None.

Definition findModel (cfg : Config) : option Model :=
  match models cfg, selectedModel cfg with
  | Some ms, Some sel => find (fun m => String.eqb (model_id m) sel) ms
  | _, _ => None
  end.

(** From the two [setTurns] that add the turn pair to the choice of the
    model. *)
Definition turnsStage (cfg : Config) (callId : Z) (controller : Controller)
           (msg scrapedContent : string) (w : World) : Task :=
  let w := setTurns (fun prevTurns => prevTurns ++ [userTurnOf msg (clock w)])%list w in
  let w := setMessage "" w in
  let w := setTurns (fun prevTurns =>
                       prevTurns ++ [assistantTurnPlaceholder (clock w)])%list w in
  match findModel cfg with
  | None =>
      Return (updateAssistantTurn (Some callId)
                "Configuration error: No model selected." true true false w)
  | Some currentModel =>
      let authHeader := getAuthHeader cfg currentModel in
      if modeIs cfg ModeWeb
      then optimizeStage cfg callId controller msg currentModel authHeader
                         scrapedContent w
      else contextStage cfg callId controller msg msg currentModel authHeader
                        scrapedContent "" w
  end.

Definition scrapedSection (urls : list string) (content : string) (idx : nat) : string :=
  "Content from [" ++ nth idx urls "undefined" ++ "]:" ++ JS.newline ++ content.

Definition onSend (overridedMessage : option string) (w : World) : Task :=
  let callId := clock w in
  let msg := JS.orElse (textOf overridedMessage) "" in
  match config with
  | None => Return (setLoading false w)
  | Some cfg =>
      if negb (JS.truthy msg) then Return w
      else
        let w :=
          if negb (isNull (completionGuard w)) then
            match abortControllerRef w with
            | Some previous => abort previous w
            | None => w
            end
          else w in
        let (controller, w) := newController w in
        let w := setAbortRef (Some controller) w in
        let w := setLoading true w in
        let w := setWebContent "" w in
        let w := setPageContent "" w in
        let w := setChatStatus
                   (match chatMode cfg with
                    | Some ModeWeb => Searching
                    | Some ModePage => Reading
                    | _ => Thinking
                    end) w in
        let w := setGuard (Some callId) w in
        match Url.matchUrls msg with
        | [] => turnsStage cfg callId controller msg "" w
        | urls =>
            let w := setChatStatus Searching w in
            Await w (ScrapeUrls urls controller) (fun r w =>
              let scrapedContent :=
                match r with
                | Fulfilled scrapedResults =>
                    JS.join blankLine (mapIndexed (scrapedSection urls) 0 scrapedResults)
                | Rejected _ => "[Error scraping one or more URLs]"
                end in
              let w := setChatStatus Thinking w in
              turnsStage cfg callId controller msg scrapedContent w)
        end
  end.

Definition onStop (w : World) : World :=
  match completionGuard w with
  | Some currentCallId =>
      let w :=
        match abortControllerRef w with
        | Some c => setAbortRef None (abort c w)
        | None => w
        end in
      updateAssistantTurn (Some currentCallId) "[Operation cancelled by user]"
                          true false true w
  | None => setChatStatus Idle (setLoading false w)
  end.

End UseSendMessage.

(* ------------------------------------------------------------------ *)
(** ** Running a send *)

(** The world a task shows when it stops, for good or at an [await]. *)
Definition exposedWorld (t : Task) : World :=
  match t with
  | Return w => w
  | Await w _ _ => w
  end.

(** A send that nothing interleaves with: every awaited operation settles
    as [respond] says, and the send resumes in the world it left. *)
Fixpoint runUndisturbed (respond : forall op, Resp op) (t : Task) : World :=
  match t with
  | Return w => w
  | Await w op k => runUndisturbed respond (k (respond op) w)
  end.

(* ------------------------------------------------------------------ *)
(** ** Definitions used in the statements *)

(** The content rule with the priority the status has: error first, then
    cancelled, then plain replacement. *)
Definition contentByStatusPriority (lastTurn : MessageTurn) (update : string)
           (isError isCancelled : bool) : string :=
  if isError then "Error: " ++ JS.orElse update "Unknown stream/handler error"
  else if isCancelled then
    rawContent lastTurn ++ (if JS.truthy (rawContent lastTurn) then " " else "") ++ update
  else update.

(** A small configuration for the concrete runs: one OpenAI model,
    selected, both limits at 5, no persona, no note, no user profile. *)
Definition sampleModel : Model := mkModel "m1" (Some "openai").

Definition sampleConfig (mode : ChatMode) : Config :=
  mkConfig (Some mode) LevelLow (Some [sampleModel]) (Some "m1")
           (Some 5%Z) (Some 5%Z) [] "" false "" None None
           "" "" "" "" "" "" "" "".

(** The hook before its first send. *)
Definition emptyWorld : World :=
  mkWorld [] "" "" "" false Idle None None [] 0.

(** The [onChunk] closure a send handed to the streaming transport. *)
Definition streamCallbackOf (t : Task)
  : string -> option bool -> option bool -> World -> World :=
  match t with
  | Await _ (FetchDataAsStream _ _ _ onChunk _ _ _) _ => onChunk
  | _ => fun _ _ _ w => w
  end.

(** Two sends in chat mode, the second issued while the first is suspended
    in its streaming call. *)
Definition firstSend : Task :=
  onSend false [] (Some (sampleConfig ModeChat)) (fun s => s)
         (Some "first question") (setClock 100 emptyWorld).

Definition secondSend : Task :=
  onSend true [] (Some (sampleConfig ModeChat)) (fun s => s)
         (Some "second question") (setClock 200 (exposedWorld firstSend)).

(** A turn without its time stamp. *)
Definition turnView (t : MessageTurn)
  : TurnRole * string * TurnStatus * option string :=
  (role t, rawContent t, status t, webDisplayContent t).

(** The store ends on an assistant turn. *)
Definition endsWithAssistant (ts : list MessageTurn) : bool :=
  match lastTurnOf ts with
  | Some t => roleIsAssistant (role t)
  | None => false
  end.

(** The character budget a limit stands for; [None] is no truncation. *)
Definition charBudget (limit : option Z) : option Z :=
  match limit with
  | None => Some 1000%Z
  | Some n =>
      if (n =? 128)%Z then None
      else if (n =? 0)%Z then Some 1000%Z else Some (1000 * n)%Z
  end.

(** A text cut to a budget. *)
Definition truncateTo (budget : option Z) (s : string) : string :=
  match budget with
  | None => s
  | Some b => JS.substring0 b s
  end.

(** A config with other limits. *)
Definition withLimits (web page : option Z) (c : Config) : Config :=
  mkConfig (chatMode c) (computeLevel c) (models c) (selectedModel c)
           web page (personas c) (persona c) (useNote c) (noteContent c)
           (userName c) (userProfile c) (groqApiKey c) (geminiApiKey c)
           (openAiApiKey c) (openRouterApiKey c) (customApiKey c)
           (customEndpoint c) (ollamaUrl c) (lmStudioUrl c).

(** [c.repeat(n)] *)
Fixpoint repeatChar (c : ascii) (n : nat) : string :=
  match n with
  | O => EmptyString
  | S n' => String c (repeatChar c n')
  end.

(** The scraped-URL fragment, empty when nothing was scraped. *)
Definition scrapedFragment (scrapedContent : string) : string :=
  if JS.truthy scrapedContent then scrapedContextString scrapedContent else "".

(** A config whose selected persona has the given text. *)
Definition withPersona (text : string) (c : Config) : Config :=
  mkConfig (chatMode c) (computeLevel c) (models c) (selectedModel c)
           (webLimit c) (contextLimit c) [("default", text)] "default"
           (useNote c) (noteContent c)
           (userName c) (userProfile c) (groqApiKey c) (geminiApiKey c)
           (openAiApiKey c) (openRouterApiKey c) (customApiKey c)
           (customEndpoint c) (ollamaUrl c) (lmStudioUrl c).

(** The turn pair of a send is in the store a task shows: as appended when
    the task is suspended, with the placeholder possibly closed by an error
    when the task is over. *)
Definition pairInPlace (msg : string) (before : World) (t : Task) : Prop :=
  match t with
  | Await w _ _ =>
      turns w = (turns before ++ [userTurnOf msg (clock before);
                                  assistantTurnPlaceholder (clock before)])%list
  | Return w =>
      exists a, role a = RoleAssistant
                /\ turns w = (turns before ++ [userTurnOf msg (clock before); a])%list
  end.

(** The test of the [catch] after the search: an [AbortError], or the
    controller of the send aborted. *)
Definition abortLike (controller : Controller) (e : Thrown) (w : World) : bool :=
  match thrownName e with
  | Some n => String.eqb n "AbortError"
  | None => false
  end || signalAborted controller w.

(** The assistant turn that reports the failure. *)
Definition searchErrorTurn (searchError : Thrown) (now : Z)
           (placeholder : MessageTurn) : MessageTurn :=
  mkTurn RoleAssistant
         ("Error: Web Search Failed: " ++ messageOrString searchError)
         StError now (webDisplayContent placeholder).

(** An environment in which every operation succeeds with little to say,
    except the web search, which is rejected with [e]. *)
Definition searchRejects (e : Thrown) (op : AsyncOp) : Resp op :=
  match op return Resp op with
  | ScrapeUrls _ _ => Fulfilled []
  | ProcessQueryWithAI q _ _ _ _ _ => Fulfilled q
  | WebSearch _ _ _ => Rejected e
  | TabsQuery => Fulfilled None
  | ExtractTextFromPdf _ _ => Fulfilled ""
  | StorageGetItem _ => Fulfilled None
  | HandleHighCompute _ _ _ _ _ _ _ => Fulfilled tt
  | HandleMediumCompute _ _ _ _ _ _ _ => Fulfilled tt
  | FetchDataAsStream _ _ _ _ _ _ _ => Fulfilled tt
  end.

(* ------------------------------------------------------------------ *)
(** ** What a send awaits *)

(** Every operation the task can come to await, whatever the awaited
    operations yield and whatever the world is on resumption, satisfies
    [P]. *)
Fixpoint everyAwait (P : AsyncOp -> Prop) (t : Task) : Prop :=
  match t with
  | Return _ => True
  | Await _ op k => P op /\ forall r w, everyAwait P (k r w)
  end.

(** Query optimisation and web search. *)
Definition isSearchOp (op : AsyncOp) : bool :=
  match op with
  | ProcessQueryWithAI _ _ _ _ _ _ | WebSearch _ _ _ => true
  | _ => false
  end.

(** The reads of the page stage. *)
Definition isPageOp (op : AsyncOp) : bool :=
  match op with
  | TabsQuery | ExtractTextFromPdf _ _ | StorageGetItem _ => true
  | _ => false
  end.

(** The three execution strategies. *)
Definition isDispatchOp (op : AsyncOp) : bool :=
  match op with
  | HandleHighCompute _ _ _ _ _ _ _
  | HandleMediumCompute _ _ _ _ _ _ _
  | FetchDataAsStream _ _ _ _ _ _ _ => true
  | _ => false
  end.

Definition isScrapeOp (op : AsyncOp) : bool :=
  match op with
  | ScrapeUrls _ _ => true
  | _ => false
  end.

(** Once a strategy has settled the task is over, and no strategy is
    awaited before another. *)
Fixpoint dispatchIsLast (t : Task) : Prop :=
  match t with
  | Return _ => True
  | Await _ op k =>
      forall r w,
        (isDispatchOp op = true -> exists w', k r w = Return w')
        /\ dispatchIsLast (k r w)
  end.

(** A transport that reports the chunks of [chunks], each at its time, as
    unfinished parts through [onChunk]. *)
Definition deliverParts
           (onChunk : string -> option bool -> option bool -> World -> World)
           (chunks : list (Z * string)) (w : World) : World :=
  fold_left (fun w chunk => onChunk (snd chunk) (Some false) None
                                    (setClock (fst chunk) w))
            chunks w.

(** The hosts with an entry of their own in the endpoint table. *)
Definition fixedHosts : list string :=
  ["groq"; "ollama"; "gemini"; "lmStudio"; "openai"; "openrouter"].

(** The API key the config holds for each host that takes one. *)
Definition hostKeys (config : Config) : list (string * string) :=
  [("groq", groqApiKey config); ("gemini", geminiApiKey config);
   ("openai", openAiApiKey config); ("openrouter", openRouterApiKey config);
   ("custom", customApiKey config)].

(** Two worlds that differ at most in what a stage shows the user: the
    turns, the input box, the chat status and the page content. *)
Definition sameControl (w w' : World) : Prop :=
  completionGuard w' = completionGuard w
  /\ abortControllerRef w' = abortControllerRef w
  /\ controllers w' = controllers w
  /\ loading w' = loading w
  /\ clock w' = clock w.

(** The [onChunk] closure that a send of token [callId] hands to the
    streaming transport. *)
Definition streamOnChunk (callId : Z)
  : string -> option bool -> option bool -> World -> World :=
  fun part isFinished isError =>
    updateAssistantTurn (Some callId) part (jsBoolean isFinished)
                        (jsBoolean isError) false.

(** The system prompt of a send in chat mode: persona, user statement and
    note. *)
Definition chatPrompt (cfg : Config) : string :=
  systemContent (personaText cfg) (userContextStatement cfg)
                (noteContextString cfg) "" "" "".

(** The messages a chat-mode send puts in its request. *)
Definition chatMessages (cfg : Config) (currentTurns : list MessageTurn)
           (msg : string) : list ApiMessage :=
  ((if String.eqb (JS.trim (chatPrompt cfg)) "" then []
    else [mkApiMessage ApiSystem (chatPrompt cfg)])
     ++ map (fun turn => mkApiMessage
                           (match role turn with
                            | RoleUser => ApiUser
                            | RoleAssistant => ApiAssistant
                            end)
                           (rawContent turn))
            currentTurns
     ++ [mkApiMessage ApiUser msg])%list.

(** The host has an endpoint: an entry of its own, or the custom endpoint
    of the config when there is one. *)
Definition hostResolves (cfg : Config) (host : string) : Prop :=
  In host fixedHosts \/ (host = "custom" /\ customEndpoint cfg <> "").

(** The last element of a list of chunks, if any. *)
Definition lastChunk (chunks : list (Z * string)) : option (Z * string) :=
  last (map Some chunks) None.

(** An environment in which every operation is fulfilled, with nothing to
    report. *)
Definition allFulfilled (op : AsyncOp) : Resp op :=
  match op return Resp op with
  | ScrapeUrls _ _ => Fulfilled []
  | ProcessQueryWithAI q _ _ _ _ _ => Fulfilled q
  | WebSearch _ _ _ => Fulfilled ""
  | TabsQuery => Fulfilled None
  | ExtractTextFromPdf _ _ => Fulfilled ""
  | StorageGetItem _ => Fulfilled None
  | HandleHighCompute _ _ _ _ _ _ _ => Fulfilled tt
  | HandleMediumCompute _ _ _ _ _ _ _ => Fulfilled tt
  | FetchDataAsStream _ _ _ _ _ _ _ => Fulfilled tt
  end.

(** A suspended task resumed in the world [w] with the answer of
    [respond]. *)
Definition resumeWith (respond : forall op, Resp op) (t : Task) (w : World) : Task :=
  match t with
  | Return w0 => Return w0
  | Await _ op k => k (respond op) w
  end.

(** Every code unit of [s] passes [p]. *)
Fixpoint allChars (p : ascii -> bool) (s : string) : bool :=
  match s with
  | EmptyString => true
  | String c s' => p c && allChars p s'
  end.

(** No white space anywhere in [s]. *)
Definition noWhiteSpace (s : string) : bool :=
  allChars (fun c => negb (JS.isWhiteSpace c)) s.

(** What a match of the regex looks like. *)
Definition wellFormedUrl (u : string) : Prop :=
  (exists body, body <> "" /\ (u = "http://" ++ body \/ u = "https://" ++ body))
  /\ noWhiteSpace u = true.

(** A config with another user name and profile. *)
Definition withUser (name profile : option string) (c : Config) : Config :=
  mkConfig (chatMode c) (computeLevel c) (models c) (selectedModel c)
           (webLimit c) (contextLimit c) (personas c) (persona c)
           (useNote c) (noteContent c)
           name profile (groqApiKey c) (geminiApiKey c)
           (openAiApiKey c) (openRouterApiKey c) (customApiKey c)
           (customEndpoint c) (ollamaUrl c) (lmStudioUrl c).

(** The user name says nothing: it is missing, blank, or the word [user]
    in any letter case. *)
Definition anonymousName (name : option string) : bool :=
  let n := JS.trim (textOf name) in
  String.eqb n "" || String.eqb (JS.toLowerCase n) "user".


(** The query a web-mode send searches for, given how the optimizer
    settled. *)
Definition searchedQuery (msg : string) (r : Settled string) : string :=
  match r with
  | Fulfilled optimizedQuery =>
      if String.eqb (JS.trim optimizedQuery) "" then msg else optimizedQuery
  | Rejected _ => msg
  end.


(** On every path the task comes to await an execution strategy. *)
Fixpoint reachesStrategy (t : Task) : Prop :=
  match t with
  | Return _ => False
  | Await _ op k =>
      if isDispatchOp op then True else forall r w, reachesStrategy (k r w)
  end.

Definition computeLevelIsLow (cfg : Config) : bool :=
  match computeLevel cfg with LevelLow => true | _ => false end.

(** The send has a strategy to run: a multi-step one, or the streaming
    transport with an endpoint for the host of the model. *)
Definition canDispatch (cfg : Config) (m : Model) : Prop :=
  computeLevelIsLow cfg = false \/ hostResolves cfg (textOf (model_host m)).

(* ------------------------------------------------------------------ *)
(** ** The input box: [Input] *)

Module InputBox.

(** What a handler of the input box does, in order. *)
Inductive Effect :=
| PreventDefault
| StopPropagation
| CallOnSend
| CallOnStopRequest.

(** The fields of a keyboard event that the handler reads. *)
Record KeyboardEvent := mkKeyboardEvent {
  key : string;
  altKey : bool;
  metaKey : bool;
  shiftKey : bool
}.

Definition handleSendClick (isLoading : bool) (message : string) : list Effect :=
  if isLoading then [CallOnStopRequest]
  else if JS.truthy (JS.trim message) then [CallOnSend]
  else [].

Definition handleTextareaKeyDown (isLoading : bool) (message : string)
           (event : KeyboardEvent) : list Effect :=
  if isLoading then []
  else if String.eqb (key event) "Enter" && JS.truthy (JS.trim message)
          && negb (altKey event) && negb (metaKey event) && negb (shiftKey event)
  then [PreventDefault; StopPropagation; CallOnSend]
  else [].

(** The [onClick] of the send button. *)
Definition sendButtonClick (isLoading : bool) (message : string) : list Effect :=
  StopPropagation :: handleSendClick isLoading message.

(** The [disabled] attribute of the send button. *)
Definition sendButtonDisabled (isLoading : bool) (message : string) : bool :=
  negb isLoading && negb (JS.truthy (JS.trim message)).

(** The placeholder of the text area. *)
Definition placeholderText (mode : option ChatMode) : string :=
  match mode with
  | Some ModeWeb => "Enter your query..."
  | Some ModePage => "Ask about this page..."
  | _ => "Type a message..."
  end.

End InputBox.

(* ------------------------------------------------------------------ *)
(** ** Connecting to Ollama: [ConnectOllama] *)

Module Ollama.

Section Models.

(** The entries of [config.models], whatever fields they have, with their
    [id]; [generic] is the entry [onConnect] adds,
    [{ id: 'ollama_generic', host: 'ollama', active: true, name: 'Ollama Model' }]. *)
Variable Entry : Type.
Variable idOf : Entry -> string.
Variable generic : Entry.

(** The [models] of the config update after a successful connection. *)
Definition connectedModels (models : option (list Entry)) : list Entry :=
  (filter (fun m => negb (String.eqb (idOf m) "ollama_generic"))
          (match models with Some ms => ms | None => [] end)
     ++ [generic])%list.

End Models.

(** The generic entry, with the fields the send hook reads. *)
Definition genericModel : Model := mkModel "ollama_generic" (Some "ollama").

(** What [res.json()] yields, as far as [onConnect] looks at it: [null], or
    a value with or without an array under [models] and with an [error]
    that is missing (or falsy and no string), a string, or another truthy
    value. *)
Inductive ErrorField :=
| ErrorMissing
| ErrorString (text : string)
| ErrorOther.

Inductive JsonData :=
| JsonNull
| JsonValue (modelsIsArray : bool) (error : ErrorField).

(** How [fetch] settles: rejected, or fulfilled with a response whose
    [status] is given as the template prints it and whose [json()] settles
    as [body]. *)
Inductive FetchOutcome :=
| FetchRejected (err : Thrown)
| FetchResponse (ok : bool) (status statusText : string) (body : Settled JsonData).

Inductive Toast :=
| ToastDismiss
| ToastLoading (text : string)
| ToastSuccess (text : string)
| ToastError (text : string).

(** The argument of [updateConfig]: the connected update (with the url, the
    models of [connectedModels] and the generic model selected), or the
    failed update with its [ollamaError], which may be [undefined], a text,
    or the [error] value of the answer when that is no string. *)
Inductive OllamaError :=
| NoError
| ErrorText (text : string)
| ErrorValue.

Inductive ConfigUpdate :=
| UpdateConnected (ollamaUrl : string)
| UpdateFailed (ollamaError : OllamaError).

(** [err.message] of a caught value ([undefined] when it has none).  The
    values that [fetch] and [json()] reject with are objects, so reading
    [message] of them does not throw. *)
Definition messageOf (e : Thrown) : option string :=
  match e with
  | ThrownError _ m => Some m
  | ThrownValue _ _ => None
  end.

(** The [.catch] at the end of the chain. *)
Definition onConnectCatch (err : Thrown) : list Toast * ConfigUpdate :=
  ([ToastDismiss; ToastError (JS.orElse (textOf (messageOf err))
                                        "Failed to connect to Ollama")],
   UpdateFailed (match messageOf err with
                 | Some m => ErrorText m
                 | None => NoError
                 end)).

Definition errorIsTruthy (e : ErrorField) : bool :=
  match e with
  | ErrorMissing => false
  | ErrorString text => JS.truthy text
  | ErrorOther => true
  end.

(** What [onConnect] shows once the fetch has settled, and the config
    update it makes.  [nullDereference] is the [TypeError] that reading
    [models] of [null] throws. *)
Definition onConnectSettled (nullDereference : Thrown) (url : string)
           (outcome : FetchOutcome) : list Toast * ConfigUpdate :=
  match outcome with
  | FetchRejected err => onConnectCatch err
  | FetchResponse false status statusText _ =>
      onConnectCatch (ThrownError "Error"
                        ("Connection failed: " ++ status ++ " " ++ statusText))
  | FetchResponse true _ _ (Rejected err) => onConnectCatch err
  | FetchResponse true _ _ (Fulfilled JsonNull) => onConnectCatch nullDereference
  | FetchResponse true _ _ (Fulfilled (JsonValue true _)) =>
      ([ToastDismiss; ToastSuccess "Connected to ollama"], UpdateConnected url)
  | FetchResponse true _ _ (Fulfilled (JsonValue false error)) =>
      if errorIsTruthy error then
        match error with
        | ErrorString text => ([ToastDismiss; ToastError text],
                               UpdateFailed (ErrorText text))
        | _ => ([ToastDismiss; ToastError "Ollama connection error"],
                UpdateFailed ErrorValue)
        end
      else
        ([ToastDismiss; ToastError "Unexpected response from Ollama"],
         UpdateFailed (ErrorText "Unexpected response from Ollama"))
  end.

End Ollama.

(* ------------------------------------------------------------------ *)
(** ** Speech output: [speakMessage], [stopSpeech], [pauseSpeech],
       [resumeSpeech]

    The module keeps its state in module variables and drives
    [window.speechSynthesis].  What it reads from the synthesizer
    ([speaking], [pending], [paused], the voices) comes in as [Synth]; what
    it asks of it (also when the request then throws), and the callbacks it
    calls, go to a log, oldest first.  The callbacks are the caller's
    functions: they are taken to return without calling back into the
    module. *)

Module Speech.

Section WithRate.

(** The type of speech rates, which the module only stores and copies. *)
Variable Rate : Type.

Record Voice := mkVoice {
  voice_name : string;
  voice_lang : string
}.

(** An utterance object: its identity and the fields the module reads. *)
Record UtteranceObject := mkObject {
  uid : nat;
  utteranceText : string;
  utteranceVoice : option Voice;
  utteranceRate : Rate
}.

(** An utterance with its five handlers.  The handlers are closures over
    the utterance of the [speakMessage] call that made them: [handlers] is
    [None] when that is the utterance itself, and the other utterance when
    the handlers were copied from it. *)
Record Utterance := mkUtterance {
  object : UtteranceObject;
  handlers : option UtteranceObject
}.

(** The utterance that the handlers of [u] close over. *)
Definition handlerOwner (u : Utterance) : Utterance :=
  match handlers u with
  | Some o => mkUtterance o None
  | None => u
  end.

Definition Callback := nat.

Record Callbacks := mkCallbacks {
  onStart : option Callback;
  onEnd : option Callback;
  onPause : option Callback;
  onResume : option Callback
}.

Definition noCallbacks : Callbacks := mkCallbacks None None None None.

Inductive Command :=
| Cancel
| Speak (u : Utterance)
| Pause
| Resume
| Call (cb : Callback)
| Warn (text : string).

Record Synth := mkSynth {
  speaking : bool;
  pending : bool;
  paused : bool;
  voices : list Voice
}.

Record State := mkState {
  currentUtterance : option Utterance;
  callbacks : Callbacks;
  isSpeechPaused : bool;
  currentText : string;
  currentVoice : option Voice;
  currentRate : Rate;
  created : nat;
  log : list Command
}.

Definition call (cb : option Callback) (s : State) : State :=
  match cb with
  | Some c => mkState (currentUtterance s) (callbacks s) (isSpeechPaused s)
                      (currentText s) (currentVoice s) (currentRate s)
                      (created s) (log s ++ [Call c])
  | None => s
  end.

Definition command (c : Command) (s : State) : State :=
  mkState (currentUtterance s) (callbacks s) (isSpeechPaused s)
          (currentText s) (currentVoice s) (currentRate s)
          (created s) (log s ++ [c]).

Definition isCurrentlySpeaking (synth : Synth) : bool := speaking synth.

Definition isCurrentlyPaused (s : State) (synth : Synth) : bool :=
  isSpeechPaused s || paused synth.

Definition isCurrent (u : Utterance) (s : State) : bool :=
  match currentUtterance s with
  | Some c => Nat.eqb (uid (object c)) (uid (object u))
  | None => false
  end.

Definition stopSpeech (synth : Synth) (s : State) : State :=
  if isNull (currentUtterance s) && negb (speaking synth) && negb (pending synth)
  then s
  else
    let callback := onEnd (callbacks s) in
    let s := mkState None noCallbacks false "" None (currentRate s)
                     (created s) (log s) in
    let s := command Cancel s in
    call callback s.

Definition speakMessage (text : string) (voiceName : option string) (rate : Rate)
           (cbs : Callbacks) (synth : Synth) (s : State) : State :=
  let s := if isCurrentlySpeaking synth || pending synth
           then stopSpeech synth s else s in
  let selected :=
    if truthyOpt voiceName
    then find (fun v => String.eqb (voice_name v) (textOf voiceName)) (voices synth)
    else None in
  let utterance := mkUtterance (mkObject (created s) text selected rate) None in
  let s := if truthyOpt voiceName && isNull selected
           then command (Warn ("Voice " ++ dquote ++ textOf voiceName ++ dquote
                                 ++ " not found. Using default.")) s
           else s in
  let s := mkState (currentUtterance s) cbs (isSpeechPaused s)
                   (currentText s) (currentVoice s) (currentRate s)
                   (S (created s)) (log s) in
  command (Speak utterance) s.

(** The handlers of an utterance, as the synthesizer calls them. *)
Definition utteranceOnStart (u : Utterance) (s : State) : State :=
  let owner := handlerOwner u in
  let s := mkState (Some owner) (callbacks s) (isSpeechPaused s)
                   (currentText s) (currentVoice s) (currentRate s)
                   (created s) (log s) in
  call (onStart (callbacks s)) s.

Definition utteranceOnEnd (u : Utterance) (s : State) : State :=
  if isCurrent (handlerOwner u) s then
    let s := mkState None (callbacks s) (isSpeechPaused s)
                     (currentText s) (currentVoice s) (currentRate s)
                     (created s) (log s) in
    let s := call (onEnd (callbacks s)) s in
    mkState (currentUtterance s) noCallbacks (isSpeechPaused s)
            (currentText s) (currentVoice s) (currentRate s)
            (created s) (log s)
  else s.

Definition utteranceOnPause (u : Utterance) (s : State) : State :=
  if isCurrent (handlerOwner u) s then call (onPause (callbacks s)) s else s.

Definition utteranceOnResume (u : Utterance) (s : State) : State :=
  if isCurrent (handlerOwner u) s then call (onResume (callbacks s)) s else s.

(** [onerror] does what [onend] does. *)
Definition utteranceOnError (u : Utterance) (s : State) : State :=
  utteranceOnEnd u s.

Definition setPaused (b : bool) (s : State) : State :=
  mkState (currentUtterance s) (callbacks s) b
          (currentText s) (currentVoice s) (currentRate s)
          (created s) (log s).

(** [pauseThrows]: the call of [speechSynthesis.pause()] throws. *)
Definition pauseSpeech (pauseThrows : bool) (synth : Synth) (s : State) : State :=
  if negb (isNull (currentUtterance s)) && isCurrentlySpeaking synth
     && negb (isSpeechPaused s)
  then
    let s := setPaused true s in
    let s := command Pause s in
    if pauseThrows then
      match currentUtterance s with
      | Some u => mkState (currentUtterance s) (callbacks s) (isSpeechPaused s)
                          (utteranceText (object u)) (utteranceVoice (object u))
                          (utteranceRate (object u))
                          (created s) (log s)
      | None => s
      end
    else call (onPause (callbacks s)) s
  else s.

(** [resumeThrows]: the call of [speechSynthesis.resume()] throws. *)
Definition resumeSpeech (resumeThrows : bool) (s : State) : State :=
  if negb (isSpeechPaused s) then s
  else
  let s := command Resume s in
  if resumeThrows then
    match currentUtterance s with
    | Some u =>
        if JS.truthy (currentText s) then
          let s := command Cancel s in
          let newUtterance :=
            mkUtterance (mkObject (created s) (currentText s) (currentVoice s)
                                  (currentRate s))
                        (Some (object (handlerOwner u))) in
          let s := mkState (Some newUtterance) (callbacks s) (isSpeechPaused s)
                           (currentText s) (currentVoice s) (currentRate s)
                           (S (created s)) (log s) in
          let s := command (Speak newUtterance) s in
          let s := setPaused false s in
          call (onResume (callbacks s)) s
        else s
    | None => s
    end
  else
    let s := setPaused false s in
    call (onResume (callbacks s)) s.

(** The events the synthesizer can raise on an utterance. *)
Inductive Event :=
| Started (u : Utterance)
| Ended (u : Utterance)
| PausedEvent (u : Utterance)
| Resumed (u : Utterance)
| Failed (u : Utterance).

Definition handle (e : Event) (s : State) : State :=
  match e with
  | Started u => utteranceOnStart u s
  | Ended u => utteranceOnEnd u s
  | PausedEvent u => utteranceOnPause u s
  | Resumed u => utteranceOnResume u s
  | Failed u => utteranceOnError u s
  end.

Definition handleAll (events : list Event) (s : State) : State :=
  fold_left (fun s e => handle e s) events s.

(** The callbacks called so far, oldest first. *)
Definition calls (s : State) : list Callback :=
  flat_map (fun c => match c with Call cb => [cb] | _ => [] end) (log s).

End WithRate.

Arguments Cancel {Rate}.
Arguments Speak {Rate} u.
Arguments Pause {Rate}.
Arguments Resume {Rate}.
Arguments Call {Rate} cb.
Arguments Warn {Rate} text.

End Speech.

(* ------------------------------------------------------------------ *)
(** ** Basic facts *)

Lemma lastTurnOf_snoc (init : list MessageTurn) (t : MessageTurn) :
  lastTurnOf (init ++ [t]) = Some t.
Proof.
  destruct init as [|a init]; simpl; [reflexivity|].
  f_equal. apply last_last.
Qed.

Lemma lastTurnOf_split (ts : list MessageTurn) (t : MessageTurn) :
  lastTurnOf ts = Some t -> ts = (removelast ts ++ [t])%list.
Proof.
  destruct ts as [|a ts]; simpl; [discriminate|].
  intros H. injection H as <-.
  change (a :: ts = removelast (a :: ts) ++ [last ts a])%list.
  rewrite (app_removelast_last a) at 1 by discriminate.
  f_equal. destruct ts; reflexivity.
Qed.

Lemma turnsUpdater_trailing_assistant
      (now : Z) (u : string) (f e c : bool)
      (init : list MessageTurn) (t : MessageTurn) :
  role t = RoleAssistant ->
  turnsUpdater now u f e c (init ++ [t]) =
  (init ++ [mkTurn RoleAssistant (finalContentForTurn t u e c)
                   (updatedStatus f e c) now (webDisplayContent t)])%list.
Proof.
  intros Hr. unfold turnsUpdater.
  rewrite lastTurnOf_snoc, Hr. simpl.
  now rewrite removelast_last.
Qed.

Lemma turnsUpdater_no_assistant_no_error
      (now : Z) (u : string) (f c : bool) (ts : list MessageTurn) :
  match lastTurnOf ts with
  | Some t => role t = RoleUser
  | None => True
  end ->
  turnsUpdater now u f false c ts = ts.
Proof.
  unfold turnsUpdater. destruct (lastTurnOf ts) as [t|]; [|reflexivity].
  intros ->. reflexivity.
Qed.

Lemma startsWith_refl_app (s r : string) : JS.startsWith (s ++ r) s = true.
Proof.
  induction s as [|a s IH]; simpl.
  - destruct r; reflexivity.
  - now rewrite Ascii.eqb_refl.
Qed.

Lemma optZ_eqb_spec (a b : option Z) : reflect (a = b) (optZ_eqb a b).
Proof.
  destruct a as [x|], b as [y|]; simpl; try (constructor; congruence).
  destruct (Z.eqb_spec x y); constructor; congruence.
Qed.

Lemma optZ_eqb_refl (a : option Z) : optZ_eqb a a = true.
Proof. destruct (optZ_eqb_spec a a); congruence. Qed.

(** When an update gets past both guards, its updater is applied to the
    turns found in the store. *)
Lemma updateAssistantTurn_turns_terminal
      (callId : option Z) (u : string) (f e c : bool) (w : World) :
  f || e || c = true ->
  isNull (completionGuard w) && negb (isNull callId)
    && alreadyFinalizedSignal u f e c = false ->
  turns (updateAssistantTurn callId u f e c w)
  = turnsUpdater (clock w) u f e c (turns w).
Proof.
  intros Ht Hg. unfold updateAssistantTurn.
  replace (negb (optZ_eqb (completionGuard w) callId) && negb f && negb e && negb c)
    with false by (destruct f, e, c; try discriminate; now rewrite ?andb_false_r).
  rewrite Hg, Ht. cbn [setTurns setLoading setChatStatus completionGuard abortControllerRef].
  destruct (optZ_eqb (completionGuard w) callId); [|reflexivity].
  cbn. destruct (abortControllerRef w); reflexivity.
Qed.

(* ------------------------------------------------------------------ *)
(** ** The reconciler: content and status of an update *)

(** C3.  A cancellation update (cancelled flag set, error flag not set) that
    meets a trailing assistant turn of content [c0] leaves the earlier turns
    alone and gives that turn the content [c0], one space, the incoming text
    (the incoming text alone when [c0] is empty) and the status cancelled;
    what had been streamed stays at the head of the new content.  This holds
    for every token and every state of the guard. *)
Theorem cancellation_appends_to_partial_output
        (callId : option Z) (u : string) (isFinished : bool) (w : World)
        (init : list MessageTurn) (lastTurn : MessageTurn) :
  turns w = (init ++ [lastTurn])%list ->
  role lastTurn = RoleAssistant ->
  let c0 := rawContent lastTurn in
  exists t',
    turns (updateAssistantTurn callId u isFinished false true w)
      = (init ++ [t'])%list
    /\ role t' = RoleAssistant
    /\ status t' = StCancelled
    /\ (c0 = "" -> rawContent t' = u)
    /\ (c0 <> "" -> rawContent t' = c0 ++ " " ++ u)
    /\ JS.startsWith (rawContent t') c0 = true.
Proof.
  intros Hturns Hrole c0.
  rewrite updateAssistantTurn_turns_terminal;
    [| now rewrite orb_true_r
     | unfold alreadyFinalizedSignal; cbn; now rewrite !andb_false_r ].
  rewrite Hturns, turnsUpdater_trailing_assistant by assumption.
  eexists; split; [reflexivity|]. cbn.
  unfold JS.orElse. fold c0.
  destruct c0 as [|a r] eqn:E; cbn.
  - repeat split; try reflexivity; try congruence. now destruct u.
  - repeat split; try congruence.
    rewrite Ascii.eqb_refl. apply startsWith_refl_app.
Qed.

Lemma cancellation_appends_to_partial_output_witness :
  exists t',
    turns (updateAssistantTurn (Some 7%Z) "[Operation cancelled by user]" true false true
             (mkWorld [mkTurn RoleUser "hi" StComplete 1 None;
                       mkTurn RoleAssistant "Hello, I" StStreaming 2 None]
                      "" "" "" true Thinking (Some 7%Z) (Some 0) [false] 9))
      = ([mkTurn RoleUser "hi" StComplete 1 None] ++ [t'])%list
    /\ role t' = RoleAssistant
    /\ status t' = StCancelled
    /\ ("Hello, I" = "" -> rawContent t' = "[Operation cancelled by user]")
    /\ ("Hello, I" <> "" ->
        rawContent t' = "Hello, I" ++ " " ++ "[Operation cancelled by user]")
    /\ JS.startsWith (rawContent t') "Hello, I" = true.
Proof.
  apply (@cancellation_appends_to_partial_output
           (Some 7%Z) "[Operation cancelled by user]" true
           (mkWorld [mkTurn RoleUser "hi" StComplete 1 None;
                     mkTurn RoleAssistant "Hello, I" StStreaming 2 None]
                    "" "" "" true Thinking (Some 7%Z) (Some 0) [false] 9)
           [mkTurn RoleUser "hi" StComplete 1 None]
           (mkTurn RoleAssistant "Hello, I" StStreaming 2 None));
    reflexivity.
Defined.

(** C9 as stated fails: with the error and the cancelled flag both set the
    status is error, yet the content is the cancellation append and carries
    no error prefix. *)
Lemma content_rule_ignores_status_priority :
  let lastTurn := mkTurn RoleAssistant "partial" StStreaming 2 None in
  let after := turnsUpdater 5 "boom" true true true [lastTurn] in
  map status after = [StError]
  /\ map rawContent after = ["partial boom"]
  /\ map rawContent after <> [contentByStatusPriority lastTurn "boom" true true].
Proof.
  cbn. repeat split. discriminate.
Qed.

(** C9, amended.  An update that is applied to a trailing assistant turn
    gives it the status error if the error flag is set, else cancelled if the
    cancelled flag is set, else complete if the finished flag is set, else
    streaming.  Its content is the cancellation append whenever the cancelled
    flag is set, else the error text behind its prefix whenever the error
    flag is set, else the incoming payload; so the content rule has the
    priority of the status unless both the error and the cancelled flag are
    set. *)
Theorem status_and_content_priority
        (now : Z) (u : string) (isFinished isError isCancelled : bool)
        (init : list MessageTurn) (lastTurn : MessageTurn) :
  role lastTurn = RoleAssistant ->
  exists t',
    turnsUpdater now u isFinished isError isCancelled (init ++ [lastTurn])
      = (init ++ [t'])%list
    /\ status t' =
       (if isError then StError
        else if isCancelled then StCancelled
        else if isFinished then StComplete else StStreaming)
    /\ rawContent t' =
       (if isCancelled then
          rawContent lastTurn
            ++ (if JS.truthy (rawContent lastTurn) then " " else "") ++ u
        else if isError then
          "Error: " ++ (if JS.truthy u then u else "Unknown stream/handler error")
        else u)
    /\ (isError && isCancelled = false ->
        rawContent t' = contentByStatusPriority lastTurn u isError isCancelled).
Proof.
  intros Hrole.
  rewrite turnsUpdater_trailing_assistant by assumption.
  eexists; split; [reflexivity|]. cbn.
  unfold updatedStatus, finalContentForTurn, contentByStatusPriority, JS.orElse.
  repeat split.
  - destruct (rawContent lastTurn); reflexivity.
  - destruct isError, isCancelled; try discriminate; intros _;
      destruct (rawContent lastTurn); reflexivity.
Qed.

Lemma status_and_content_priority_witness :
  exists t',
    turnsUpdater 5 "boom" true true false
                 ([] ++ [mkTurn RoleAssistant "partial" StStreaming 2 None])
      = ([] ++ [t'])%list
    /\ status t' = StError
    /\ rawContent t' = "Error: boom"
    /\ (true && false = false ->
        rawContent t' =
        contentByStatusPriority (mkTurn RoleAssistant "partial" StStreaming 2 None)
                                "boom" true false).
Proof.
  apply (@status_and_content_priority 5 "boom" true true false []
           (mkTurn RoleAssistant "partial" StStreaming 2 None)).
  reflexivity.
Defined.

(* ------------------------------------------------------------------ *)
(** ** The reconciler: guard slot, abort controller and flags *)

Lemma not_skipped_when_terminal (g callId : option Z) (f e c : bool) :
  f || e || c = true ->
  negb (optZ_eqb g callId) && negb f && negb e && negb c = false.
Proof.
  destruct f, e, c; try discriminate; intros _; now rewrite ?andb_false_r.
Qed.

Lemma clearAbortRef_eq (w : World) :
  match abortControllerRef w with
  | Some _ => setAbortRef None w
  | None => w
  end = setAbortRef None w.
Proof. destruct w as [? ? ? ? ? ? ? [r|] ? ?]; reflexivity. Qed.

(** The three ways a terminal update can go. *)
Lemma terminal_update_unfold
      (callId : option Z) (u : string) (f e c : bool) (w : World) :
  f || e || c = true ->
  updateAssistantTurn callId u f e c w =
  if isNull (completionGuard w) && negb (isNull callId)
     && alreadyFinalizedSignal u f e c
  then setChatStatus Idle (setLoading false w)
  else
    let w1 := setChatStatus (if e then Idle else if c then Idle else Done_)
                (setLoading false
                   (setTurns (turnsUpdater (clock w) u f e c) w)) in
    if optZ_eqb (completionGuard w) callId
    then setAbortRef None (setGuard None w1)
    else w1.
Proof.
  intros Ht. unfold updateAssistantTurn.
  rewrite not_skipped_when_terminal by assumption.
  destruct (isNull (completionGuard w) && negb (isNull callId)
            && alreadyFinalizedSignal u f e c); [reflexivity|].
  rewrite Ht.
  cbn [setTurns setLoading setChatStatus completionGuard].
  destruct (optZ_eqb (completionGuard w) callId); [|reflexivity].
  apply clearAbortRef_eq.
Qed.

Lemma terminal_update_stops_loading
      (callId : option Z) (u : string) (f e c : bool) (w : World) :
  f || e || c = true ->
  loading (updateAssistantTurn callId u f e c w) = false.
Proof.
  intros Ht. rewrite terminal_update_unfold by assumption.
  destruct (isNull (completionGuard w) && negb (isNull callId)
            && alreadyFinalizedSignal u f e c); [reflexivity|].
  cbv zeta. destruct (optZ_eqb (completionGuard w) callId); reflexivity.
Qed.

(** C10.  A terminal update always puts [loading] to false and the chat
    status to idle or done, and never aborts a controller.  It empties the
    guard slot and the abort controller ref exactly when its token is the
    one in the slot; with any other token, a superseded one included, both
    are left as they were. *)
Theorem terminal_update_clears_only_its_own_guard
        (callId : option Z) (u : string) (isFinished isError isCancelled : bool)
        (w : World) :
  isFinished || isError || isCancelled = true ->
  let w' := updateAssistantTurn callId u isFinished isError isCancelled w in
  loading w' = false
  /\ (chatStatus w' = Idle \/ chatStatus w' = Done_)
  /\ controllers w' = controllers w
  /\ (completionGuard w = callId ->
      completionGuard w' = None /\ abortControllerRef w' = None)
  /\ (completionGuard w <> callId ->
      completionGuard w' = completionGuard w
      /\ abortControllerRef w' = abortControllerRef w).
Proof.
  intros Ht w'. unfold w'. rewrite terminal_update_unfold by assumption.
  destruct (isNull (completionGuard w) && negb (isNull callId)
            && alreadyFinalizedSignal u isFinished isError isCancelled) eqn:Hedge.
  - (* the late signal after finalisation: the slot is empty, the token not *)
    assert (Hne : completionGuard w <> callId).
    { intros Heq. rewrite <- Heq in Hedge.
      destruct (completionGuard w); discriminate. }
    cbn. repeat split; auto; contradiction.
  - cbv zeta.
    destruct (optZ_eqb_spec (completionGuard w) callId) as [Heq|Hne]; cbn.
    + repeat split; auto; try contradiction.
      destruct isError, isCancelled; auto.
    + repeat split; auto; try contradiction.
      destruct isError, isCancelled; auto.
Qed.

Lemma terminal_update_clears_only_its_own_guard_witness :
  let w := mkWorld [mkTurn RoleAssistant "" StStreaming 2 None]
                   "" "" "" true Thinking (Some 2%Z) (Some 1) [true; false] 9 in
  let w' := updateAssistantTurn (Some 1%Z) "late" true false false w in
  loading w' = false
  /\ (chatStatus w' = Idle \/ chatStatus w' = Done_)
  /\ controllers w' = controllers w
  /\ (completionGuard w = Some 1%Z ->
      completionGuard w' = None /\ abortControllerRef w' = None)
  /\ (completionGuard w <> Some 1%Z ->
      completionGuard w' = completionGuard w
      /\ abortControllerRef w' = abortControllerRef w).
Proof.
  intros w.
  apply (@terminal_update_clears_only_its_own_guard (Some 1%Z) "late" true false false w).
  reflexivity.
Defined.

(** C8 as stated fails: with an empty guard slot a late finished update
    that carries text is applied; it rewrites the finalised turn and sets
    the chat status to done, not idle. *)
Lemma late_terminal_update_with_text_is_applied :
  let w := mkWorld [mkTurn RoleUser "hi" StComplete 1 None;
                    mkTurn RoleAssistant "final answer" StComplete 2 None]
                   "" "" "" false Done_ None None [false] 9 in
  let w' := updateAssistantTurn (Some 1%Z) "late text" true false false w in
  completionGuard w = None
  /\ map rawContent (turns w) = ["hi"; "final answer"]
  /\ map rawContent (turns w') = ["hi"; "late text"]
  /\ chatStatus w' = Done_.
Proof.
  cbn. repeat split.
Qed.

(** C8, amended.  With an empty guard slot and a non-null token, a terminal
    update is dropped when it is either an empty finished update with
    neither the error nor the cancelled flag, or an error update whose text
    contains one of the two cancellation notices: the world keeps its turns
    and everything else, except that [loading] is false and the chat status
    idle.  Every other terminal update that finds the slot empty is applied
    to the turns like any update. *)
Theorem late_signal_after_finalisation
        (t : Z) (u : string) (isFinished isError isCancelled : bool) (w : World) :
  completionGuard w = None ->
  isFinished || isError || isCancelled = true ->
  let w' := updateAssistantTurn (Some t) u isFinished isError isCancelled w in
  let dropped :=
    (String.eqb u "" && isFinished && negb isError && negb isCancelled)
    || (isError && (JS.includes u "Operation cancelled by user"
                    || JS.includes u "Streaming operation cancelled")) in
  (dropped = true ->
   w' = setChatStatus Idle (setLoading false w)
   /\ turns w' = turns w /\ loading w' = false /\ chatStatus w' = Idle)
  /\ (dropped = false ->
      turns w' = turnsUpdater (clock w) u isFinished isError isCancelled (turns w)
      /\ loading w' = false).
Proof.
  intros Hg Ht w' dropped. split; intros Hd.
  - assert (Hw : w' = setChatStatus Idle (setLoading false w)).
    { unfold w'. rewrite terminal_update_unfold by assumption.
      rewrite Hg. cbn [isNull negb andb].
      unfold alreadyFinalizedSignal. fold dropped. now rewrite Hd. }
    rewrite Hw. repeat split.
  - split.
    + apply updateAssistantTurn_turns_terminal; [assumption|].
      unfold alreadyFinalizedSignal. fold dropped. rewrite Hd.
      now rewrite andb_false_r.
    + now apply terminal_update_stops_loading.
Qed.

Lemma late_signal_after_finalisation_witness :
  let w := mkWorld [mkTurn RoleUser "hi" StComplete 1 None;
                    mkTurn RoleAssistant "final answer" StComplete 2 None]
                   "" "" "" true Thinking None None [false] 9 in
  let w' := updateAssistantTurn (Some 1%Z) "" true false false w in
  (true = true ->
   w' = setChatStatus Idle (setLoading false w)
   /\ turns w' = turns w /\ loading w' = false /\ chatStatus w' = Idle)
  /\ (true = false ->
      turns w' = turnsUpdater (clock w) "" true false false (turns w)
      /\ loading w' = false).
Proof.
  intros w.
  apply (@late_signal_after_finalisation 1%Z "" true false false w); reflexivity.
Defined.

(* ------------------------------------------------------------------ *)
(** ** Supersession and repeated delivery *)

(** An updater touches the trailing turn at most: the turns before it
    stay. *)
Lemma turnsUpdater_keeps_earlier_turns
      (now : Z) (u : string) (f e c : bool) (ts : list MessageTurn) :
  exists tail, turnsUpdater now u f e c ts = (removelast ts ++ tail)%list.
Proof.
  unfold turnsUpdater. destruct (lastTurnOf ts) as [t|] eqn:Hl.
  - pose proof (lastTurnOf_split _ Hl) as Hs.
    destruct (roleIsAssistant (role t)); cbn.
    + eexists; reflexivity.
    + destruct e.
      * exists [t; mkTurn RoleAssistant
                     ("Error: " ++ JS.orElse u "Unknown operation error")
                     StError now None].
        rewrite Hs at 1. now rewrite <- app_assoc.
      * exists [t]. exact Hs.
  - destruct ts; [|discriminate]. destruct e; eexists; reflexivity.
Qed.

(** C1 as stated fails: the transport of the superseded first send reports
    its end through the closure that send gave it; the update carries the
    stale token, yet it replaces the content of the second send's assistant
    turn.  It puts [loading] to false and leaves the second send's token in
    the guard slot. *)
Lemma stale_terminal_update_overwrites_successor :
  let w2 := exposedWorld secondSend in
  let w3 := streamCallbackOf firstSend "answer to the first" (Some true) None
              (setClock 300 w2) in
  completionGuard w2 = Some 200%Z
  /\ map rawContent (turns w2) = ["first question"; ""; "second question"; ""]
  /\ w3 = updateAssistantTurn (Some 100%Z) "answer to the first" true false false
            (setClock 300 w2)
  /\ map rawContent (turns w3)
     = ["first question"; ""; "second question"; "answer to the first"]
  /\ map status (turns w3) = [StComplete; StStreaming; StComplete; StComplete]
  /\ loading w3 = false
  /\ completionGuard w3 = Some 200%Z.
Proof.
  vm_compute. repeat split.
Qed.

(** C1, amended.  While the guard slot holds the token of a later send, an
    update tagged with another token is not applied at all when it is not
    terminal: the world stays as it is.  When it is terminal it is applied
    to the trailing turn by the usual content rule, so it can replace the
    content of the later send's assistant turn; it leaves every earlier turn,
    the guard slot and the abort controller ref as they were and puts
    [loading] to false. *)
Theorem stale_token_update
        (t1 t2 : Z) (u : string) (isFinished isError isCancelled : bool) (w : World) :
  completionGuard w = Some t2 ->
  t1 <> t2 ->
  let w' := updateAssistantTurn (Some t1) u isFinished isError isCancelled w in
  (isFinished || isError || isCancelled = false -> w' = w)
  /\ (isFinished || isError || isCancelled = true ->
      turns w' = turnsUpdater (clock w) u isFinished isError isCancelled (turns w)
      /\ (exists tail, turns w' = (removelast (turns w) ++ tail)%list)
      /\ loading w' = false
      /\ completionGuard w' = Some t2
      /\ abortControllerRef w' = abortControllerRef w).
Proof.
  intros Hg Hne w'.
  assert (Hneq : optZ_eqb (completionGuard w) (Some t1) = false).
  { rewrite Hg. cbn. apply Z.eqb_neq. congruence. }
  split; intros Ht.
  - unfold w', updateAssistantTurn. rewrite Hneq.
    destruct isFinished, isError, isCancelled; try discriminate. reflexivity.
  - assert (Hturns : turns w'
                     = turnsUpdater (clock w) u isFinished isError isCancelled (turns w)).
    { apply updateAssistantTurn_turns_terminal; [assumption|]. now rewrite Hg. }
    split; [exact Hturns|]. split.
    { rewrite Hturns. apply turnsUpdater_keeps_earlier_turns. }
    unfold w'. rewrite terminal_update_unfold by assumption.
    rewrite Hneq, Hg. cbn. rewrite ?Hg. repeat split.
Qed.

Lemma stale_token_update_witness :
  let w := setClock 300 (exposedWorld secondSend) in
  let w' := updateAssistantTurn (Some 100%Z) "answer to the first" true false false w in
  (true = false -> w' = w)
  /\ (true = true ->
      turns w' = turnsUpdater (clock w) "answer to the first" true false false (turns w)
      /\ (exists tail, turns w' = (removelast (turns w) ++ tail)%list)
      /\ loading w' = false
      /\ completionGuard w' = Some 200%Z
      /\ abortControllerRef w' = abortControllerRef w).
Proof.
  intros w.
  apply (@stale_token_update 100%Z 200%Z "answer to the first" true false false w).
  - reflexivity.
  - discriminate.
Defined.

Lemma orElse_nonempty (u d : string) : u <> "" -> JS.orElse u d = u.
Proof. destruct u; [congruence|reflexivity]. Qed.

Lemma turnsUpdater_twice
      (now1 now2 : Z) (u : string) (f e : bool) (ts : list MessageTurn) :
  endsWithAssistant ts = true \/ e = false \/ u <> "" ->
  map turnView (turnsUpdater now2 u f e false (turnsUpdater now1 u f e false ts))
  = map turnView (turnsUpdater now1 u f e false ts).
Proof.
  intros Hc. unfold endsWithAssistant in Hc.
  destruct (lastTurnOf ts) as [t|] eqn:Hl.
  - destruct (role t) eqn:Hr.
    + (* the store ends on a user turn *)
      destruct e.
      * assert (Hu : u <> "") by (destruct Hc as [H|[H|H]]; [discriminate.. | exact H]).
        assert (H1 : turnsUpdater now1 u f true false ts =
                     (ts ++ [mkTurn RoleAssistant
                                    ("Error: " ++ JS.orElse u "Unknown operation error")
                                    StError now1 None])%list)
          by (unfold turnsUpdater; now rewrite Hl, Hr).
        rewrite H1, turnsUpdater_trailing_assistant by reflexivity.
        rewrite !map_app. cbn. unfold turnView, finalContentForTurn. cbn.
        now rewrite !orElse_nonempty by assumption.
      * assert (H : forall now, turnsUpdater now u f false false ts = ts)
          by (intros now; apply turnsUpdater_no_assistant_no_error; now rewrite Hl).
        now rewrite !H.
    + rewrite (lastTurnOf_split _ Hl).
      rewrite !turnsUpdater_trailing_assistant by (assumption || reflexivity).
      now rewrite !map_app.
  - destruct ts; [|discriminate]. destruct e; [|reflexivity].
    assert (Hu : u <> "") by (destruct Hc as [H|[H|H]]; [discriminate.. | exact H]).
    cbn. unfold turnView, finalContentForTurn. cbn.
    now rewrite !orElse_nonempty by assumption.
Qed.

(** C4 as stated fails: a cancellation delivered twice with the token of
    the guard slot and the same arguments appends its notice twice. *)
Lemma repeated_cancellation_appends_again :
  let w := mkWorld [mkTurn RoleUser "hi" StComplete 1 None;
                    mkTurn RoleAssistant "Hello, I" StStreaming 2 None]
                   "" "" "" true Thinking (Some 7%Z) (Some 0) [false] 9 in
  let deliver := updateAssistantTurn (Some 7%Z) "[stopped]" true false true in
  map rawContent (turns (deliver w)) = ["hi"; "Hello, I [stopped]"]
  /\ map rawContent (turns (deliver (deliver w)))
     = ["hi"; "Hello, I [stopped] [stopped]"].
Proof.
  cbn. split; reflexivity.
Qed.

(** C4, amended.  A finished or error update that is no cancellation is
    delivered with the token of the guard slot and then once more with the
    same arguments, at any later time.  If the store ended on an assistant
    turn, or the update is no error, or its text is not empty, the second
    delivery leaves every turn as the first left it, the time stamp of the
    trailing turn apart; it finds the guard slot empty and leaves it so,
    puts [loading] to false and the chat status to idle or done. *)
Theorem repeated_terminal_update
        (t : Z) (u : string) (isFinished isError : bool) (later : Z) (w : World) :
  completionGuard w = Some t ->
  isFinished || isError = true ->
  endsWithAssistant (turns w) = true \/ isError = false \/ u <> "" ->
  let w1 := updateAssistantTurn (Some t) u isFinished isError false w in
  let w2 := updateAssistantTurn (Some t) u isFinished isError false (setClock later w1) in
  map turnView (turns w2) = map turnView (turns w1)
  /\ completionGuard w1 = None
  /\ completionGuard w2 = None
  /\ loading w2 = false
  /\ (chatStatus w2 = Idle \/ chatStatus w2 = Done_).
Proof.
  intros Hg Hfe Hc w1 w2.
  assert (Ht : isFinished || isError || false = true) by now rewrite orb_false_r.
  assert (H1 : w1 = setAbortRef None (setGuard None
                 (setChatStatus (if isError then Idle else Done_)
                    (setLoading false
                       (setTurns (turnsUpdater (clock w) u isFinished isError false) w))))).
  { unfold w1. rewrite terminal_update_unfold by assumption.
    rewrite Hg. cbn [isNull andb]. cbv zeta.
    now rewrite optZ_eqb_refl. }
  assert (Hg1 : completionGuard w1 = None) by (rewrite H1; reflexivity).
  assert (H2 : w2 =
               if alreadyFinalizedSignal u isFinished isError false
               then setChatStatus Idle (setLoading false (setClock later w1))
               else setChatStatus (if isError then Idle else Done_)
                      (setLoading false
                         (setTurns (turnsUpdater later u isFinished isError false)
                                   (setClock later w1)))).
  { unfold w2. rewrite terminal_update_unfold by assumption.
    cbn [setClock completionGuard clock]. rewrite Hg1. cbn [isNull negb andb optZ_eqb].
    reflexivity. }
  split; [| split; [exact Hg1|] ].
  - rewrite H2.
    destruct (alreadyFinalizedSignal u isFinished isError false); [reflexivity|].
    cbn [turns setChatStatus setLoading setTurns setClock].
    rewrite H1. cbn [turns setAbortRef setGuard setChatStatus setLoading setTurns].
    now apply turnsUpdater_twice.
  - rewrite H2.
    destruct (alreadyFinalizedSignal u isFinished isError false);
      cbn; rewrite Hg1; repeat split; auto.
    destruct isError; auto.
Qed.

Lemma repeated_terminal_update_witness :
  let w := mkWorld [mkTurn RoleUser "hi" StComplete 1 None;
                    mkTurn RoleAssistant "Hello, I" StStreaming 2 None]
                   "" "" "" true Thinking (Some 7%Z) (Some 0) [false] 9 in
  let w1 := updateAssistantTurn (Some 7%Z) "Hello, I am done." true false false w in
  let w2 := updateAssistantTurn (Some 7%Z) "Hello, I am done." true false false
              (setClock 12 w1) in
  map turnView (turns w2) = map turnView (turns w1)
  /\ completionGuard w1 = None
  /\ completionGuard w2 = None
  /\ loading w2 = false
  /\ (chatStatus w2 = Idle \/ chatStatus w2 = Done_).
Proof.
  intros w.
  apply (@repeated_terminal_update 7%Z "Hello, I am done." true false 12%Z w).
  - reflexivity.
  - reflexivity.
  - left. reflexivity.
Defined.

(* ------------------------------------------------------------------ *)
(** ** Truncation of the web and page fragments *)

Lemma length_substring_from_0 (m : nat) (s : string) :
  String.length (String.substring 0 m s) = Nat.min m (String.length s).
Proof.
  revert s. induction m as [|m IH]; intros s.
  - destruct s; reflexivity.
  - destruct s as [|a s]; cbn; [reflexivity|]. now rewrite IH.
Qed.

Lemma substring_from_0_is_prefix (m : nat) (s : string) :
  JS.startsWith s (String.substring 0 m s) = true.
Proof.
  revert s. induction m as [|m IH]; intros s.
  - destruct s; reflexivity.
  - destruct s as [|a s]; cbn; [reflexivity|].
    now rewrite Ascii.eqb_refl, IH.
Qed.

Lemma limitOrOne_nonzero (limit : option Z) : (1000 * limitOrOne limit =? 0)%Z = false.
Proof.
  apply Z.eqb_neq. destruct limit as [[|p|p]|]; cbn; lia.
Qed.

Lemma webContentForLlm_budget (cfg : Config) (s : string) :
  webContentForLlm cfg s = truncateTo (charBudget (webLimit cfg)) s.
Proof.
  unfold webContentForLlm. rewrite limitOrOne_nonzero. cbn [negb].
  destruct (webLimit cfg) as [n|]; cbn [optZ_eqb charBudget]; [|reflexivity].
  destruct (n =? 128)%Z; [reflexivity|].
  destruct n; reflexivity.
Qed.

Lemma pageContentForLlm_budget (cfg : Config) (s : string) :
  pageContentForLlm cfg s = truncateTo (charBudget (contextLimit cfg)) s.
Proof.
  unfold pageContentForLlm. rewrite limitOrOne_nonzero. cbn [negb andb].
  assert (Hs : forall b, (if JS.truthy s then JS.substring0 b s else s) = JS.substring0 b s).
  { intros b. destruct s; [|reflexivity].
    unfold JS.substring0. now destruct (Z.to_nat b). }
  rewrite Hs.
  destruct (contextLimit cfg) as [n|]; cbn [optZ_eqb charBudget]; [|reflexivity].
  destruct (n =? 128)%Z; [reflexivity|].
  destruct n; reflexivity.
Qed.

(** The two examples of the specification: a limit of 5 keeps 5,000 of
    10,000 characters, the limit 128 keeps them all. *)
Example truncation_examples :
  let res := repeatChar "a"%char (100 * 100) in
  String.length (webContentForLlm (withLimits (Some 5%Z) None (sampleConfig ModeWeb)) res)
    = (50 * 100)%nat
  /\ webContentForLlm (withLimits (Some 128%Z) None (sampleConfig ModeWeb)) res = res.
Proof.
  vm_compute. split; reflexivity.
Qed.

(** C5 as stated fails: with a web limit of 0 the fragment is not cut to
    0 * 1000 characters; 1,000 characters of the search result go to the
    model. *)
Lemma zero_limit_keeps_a_thousand_characters :
  let res := repeatChar "a"%char (100 * 100) in
  let fragment := webContentForLlm (withLimits (Some 0%Z) None (sampleConfig ModeWeb)) res in
  String.length fragment = 1000
  /\ fragment <> JS.substring0 (0 * 1000) res.
Proof.
  vm_compute. split; [reflexivity|discriminate].
Qed.

(** C5, amended.  The web fragment is the whole search result when the web
    limit is 128.  For any other limit that is set and not 0 it is the
    search result cut after [limit * 1000] characters: a prefix of the result
    whose length is the smaller of the length of the result and that budget.
    When the limit is 0 or not set the budget is 1,000 characters.  The page
    fragment follows the same rule with the context limit. *)
Theorem fragment_truncation (cfg : Config) (s : string) :
  let rule (limit : option Z) (fragment : string) :=
    (limit = Some 128%Z -> fragment = s)
    /\ (forall n, limit = Some n -> n <> 0%Z -> n <> 128%Z ->
        fragment = JS.substring0 (n * 1000) s
        /\ String.length fragment = Nat.min (Z.to_nat (n * 1000)) (String.length s)
        /\ JS.startsWith s fragment = true)
    /\ (limit = Some 0%Z \/ limit = None ->
        fragment = JS.substring0 1000 s) in
  rule (webLimit cfg) (webContentForLlm cfg s)
  /\ rule (contextLimit cfg) (pageContentForLlm cfg s).
Proof.
  assert (H : forall limit,
             (limit = Some 128%Z -> truncateTo (charBudget limit) s = s)
             /\ (forall n, limit = Some n -> n <> 0%Z -> n <> 128%Z ->
                 truncateTo (charBudget limit) s = JS.substring0 (n * 1000) s
                 /\ String.length (truncateTo (charBudget limit) s)
                    = Nat.min (Z.to_nat (n * 1000)) (String.length s)
                 /\ JS.startsWith s (truncateTo (charBudget limit) s) = true)
             /\ (limit = Some 0%Z \/ limit = None ->
                 truncateTo (charBudget limit) s = JS.substring0 1000 s)).
  { intros limit. split; [|split].
    - intros ->. reflexivity.
    - intros n -> Hn0 Hn128.
      assert (Hb : charBudget (Some n) = Some (n * 1000)%Z).
      { rewrite Z.mul_comm. unfold charBudget.
        destruct (Z.eqb_spec n 128); [contradiction|].
        destruct (Z.eqb_spec n 0); [contradiction|reflexivity]. }
      rewrite Hb. cbn [truncateTo]. unfold JS.substring0.
      repeat split.
      + apply length_substring_from_0.
      + apply substring_from_0_is_prefix.
    - intros [->| ->]; reflexivity. }
  cbv zeta. rewrite webContentForLlm_budget, pageContentForLlm_budget.
  split; apply H.
Qed.

(* ------------------------------------------------------------------ *)
(** ** Order of the fragments in the system prompt *)

Lemma pushIf_truthy (x : string) (parts : list string) :
  pushIf (JS.truthy x) x parts = (parts ++ filter JS.truthy [x])%list.
Proof.
  unfold pushIf. cbn. destruct (JS.truthy x); [reflexivity|].
  now rewrite app_nil_r.
Qed.

Lemma pushIf_scraped (sc : string) (parts : list string) :
  pushIf (JS.truthy sc) (scrapedContextString sc) parts
  = (parts ++ filter JS.truthy [scrapedFragment sc])%list.
Proof.
  unfold pushIf, scrapedFragment. destruct (JS.truthy sc); cbn; [reflexivity|].
  now rewrite app_nil_r.
Qed.

Lemma systemPromptParts_filter (p u n pg wb sc : string) :
  systemPromptParts p u n pg wb sc
  = filter JS.truthy [p; u; n; pg; wb; scrapedFragment sc].
Proof.
  unfold systemPromptParts. cbv zeta.
  rewrite pushIf_scraped, !pushIf_truthy.
  change [p; u; n; pg; wb; scrapedFragment sc]
    with ([p] ++ [u] ++ [n] ++ [pg] ++ [wb] ++ [scrapedFragment sc])%list.
  rewrite !filter_app, !app_assoc. reflexivity.
Qed.

(** C6 as stated fails: the prompt is not the bare concatenation of the
    fragments.  A persona that ends in a line break, with no other fragment,
    gives a prompt without that line break. *)
Lemma system_prompt_is_trimmed :
  let text := "You are a helpful assistant." ++ JS.newline in
  let cfg := withPersona text (sampleConfig ModeChat) in
  personaText cfg = text
  /\ systemPromptParts (personaText cfg) (userContextStatement cfg)
       (noteContextString cfg) (pageContextString cfg "")
       (webContextString cfg "") "" = [text]
  /\ systemContentOf cfg "" "" "" = "You are a helpful assistant."
  /\ systemContentOf cfg "" "" "" <> JS.join blankLine [text].
Proof.
  vm_compute. repeat split. discriminate.
Qed.

(** C6, amended.  The parts of the system prompt are exactly the non-empty
    ones among persona, user statement, note context, page context, web
    context and scraped-URL context, in this order; the system prompt is
    these parts joined by blank lines, with the white space at its two ends
    trimmed off. *)
Theorem system_prompt_order (p u n pg wb sc : string) :
  systemPromptParts p u n pg wb sc
    = filter JS.truthy [p; u; n; pg; wb; scrapedFragment sc]
  /\ systemContent p u n pg wb sc
     = JS.trim (JS.join blankLine
                  (filter JS.truthy [p; u; n; pg; wb; scrapedFragment sc])).
Proof.
  unfold systemContent. now rewrite systemPromptParts_filter.
Qed.

(* ------------------------------------------------------------------ *)
(** ** When the turn pair enters the store *)

Lemma terminal_update_turns
      (callId : option Z) (u : string) (f e c : bool) (w : World) :
  f || e || c = true ->
  turns (updateAssistantTurn callId u f e c w) =
  if isNull (completionGuard w) && negb (isNull callId)
     && alreadyFinalizedSignal u f e c
  then turns w
  else turnsUpdater (clock w) u f e c (turns w).
Proof.
  intros Ht. rewrite terminal_update_unfold by assumption.
  destruct (isNull (completionGuard w) && negb (isNull callId)
            && alreadyFinalizedSignal u f e c); [reflexivity|].
  cbv zeta. destruct (optZ_eqb (completionGuard w) callId); reflexivity.
Qed.

(** A terminal update that meets a trailing assistant turn leaves an
    assistant turn in its place. *)
Lemma terminal_update_on_trailing_assistant
      (callId : option Z) (u : string) (f e c : bool) (w : World)
      (init : list MessageTurn) (t : MessageTurn) :
  f || e || c = true ->
  turns w = (init ++ [t])%list ->
  role t = RoleAssistant ->
  exists a, role a = RoleAssistant
            /\ turns (updateAssistantTurn callId u f e c w) = (init ++ [a])%list.
Proof.
  intros Ht Hturns Hr. rewrite terminal_update_turns by assumption.
  destruct (isNull (completionGuard w) && negb (isNull callId)
            && alreadyFinalizedSignal u f e c).
  - exists t. now split.
  - rewrite Hturns, turnsUpdater_trailing_assistant by assumption.
    eexists; split; [|reflexivity]. reflexivity.
Qed.

Section PairInPlace.

Variable isLoading : bool.
Variable currentTurns : list MessageTurn.
Variable normalizeApiEndpoint : string -> string.
Variables (cfg : Config) (callId : Z) (controller : Controller) (msg : string).

Lemma dispatchStage_exposes
      (messageToUse : string) (m : Model) (auth : option string)
      (prompt : string) (w : World)
      (init : list MessageTurn) (t : MessageTurn) :
  turns w = (init ++ [t])%list ->
  role t = RoleAssistant ->
  match dispatchStage isLoading currentTurns normalizeApiEndpoint cfg callId
                      controller msg messageToUse m auth prompt w with
  | Await w' _ _ => turns w' = turns w
  | Return w' => exists a, role a = RoleAssistant /\ turns w' = (init ++ [a])%list
  end.
Proof.
  intros Hturns Hr. unfold dispatchStage.
  destruct (computeLevel cfg); try reflexivity.
  destruct (negb (JS.truthy (urlMap normalizeApiEndpoint cfg (textOf (model_host m)))));
    [|reflexivity].
  now apply terminal_update_on_trailing_assistant with (t := t).
Qed.

Lemma contextStage_exposes
      (messageToUse : string) (m : Model) (auth : option string)
      (scraped searchRes : string) (w : World)
      (init : list MessageTurn) (t : MessageTurn) :
  turns w = (init ++ [t])%list ->
  role t = RoleAssistant ->
  match contextStage isLoading currentTurns normalizeApiEndpoint cfg callId
                     controller msg messageToUse m auth scraped searchRes w with
  | Await w' _ _ => turns w' = turns w
  | Return w' => exists a, role a = RoleAssistant /\ turns w' = (init ++ [a])%list
  end.
Proof.
  intros Hturns Hr. unfold contextStage.
  destruct (modeIs cfg ModePage); [reflexivity|].
  apply (@dispatchStage_exposes messageToUse m auth _ (setPageContent "" w) init t);
    assumption.
Qed.

Lemma turnsStage_pairInPlace (scraped : string) (w : World) :
  pairInPlace msg w
    (turnsStage isLoading currentTurns normalizeApiEndpoint cfg callId
                controller msg scraped w).
Proof.
  unfold turnsStage.
  set (w2 := setTurns _ (setMessage "" (setTurns _ w))).
  assert (Hturns : turns w2 = ((turns w ++ [userTurnOf msg (clock w)])
                                 ++ [assistantTurnPlaceholder (clock w)])%list)
    by reflexivity.
  assert (Hflat : ((turns w ++ [userTurnOf msg (clock w)])
                     ++ [assistantTurnPlaceholder (clock w)])%list
                  = (turns w ++ [userTurnOf msg (clock w);
                                 assistantTurnPlaceholder (clock w)])%list)
    by now rewrite <- app_assoc.
  destruct (findModel cfg) as [m|].
  - destruct (modeIs cfg ModeWeb).
    + cbn. exact Hflat.
    + pose proof (@contextStage_exposes msg m (getAuthHeader cfg m) scraped ""
                    w2 _ _ Hturns eq_refl) as H.
      destruct (contextStage _ _ _ _ _ _ _ _ _ _ _ _ w2) as [w'|w' op k]; cbn.
      * destruct H as [a [Ha Hw']]. exists a. split; [exact Ha|].
        now rewrite Hw', <- app_assoc.
      * now rewrite H, Hturns.
  - cbn.
    destruct (@terminal_update_on_trailing_assistant
                (Some callId) "Configuration error: No model selected."
                true true false w2 _ _ eq_refl Hturns eq_refl) as [a [Ha Hw']].
    exists a. split; [exact Ha|]. now rewrite Hw', <- app_assoc.
Qed.

End PairInPlace.

(** C2 as stated fails: when the message holds a URL the send awaits the
    scrape of that URL first, and the store it leaves behind for the time
    of the scrape has neither the user turn nor the placeholder. *)
Lemma scrape_is_awaited_before_the_turn_pair :
  let t := onSend false [] (Some (sampleConfig ModeChat)) (fun s => s)
                  (Some "read http://a.io please") emptyWorld in
  match t with
  | Await w (ScrapeUrls urls _) _ => urls = ["http://a.io"] /\ turns w = []
  | _ => False
  end.
Proof.
  vm_compute. split; reflexivity.
Qed.

(** C2, amended.  A send with a config and a non-empty message whose text
    holds no URL has its user turn and its assistant placeholder in the
    store at its first [await]; when it ends without any [await] (no model,
    no endpoint) the pair is there too, the placeholder closed.  When the
    text holds URLs the first [await] is the scrape of these URLs, during
    which the store is as the send found it; whatever the scrape yields and
    whatever the world is by then, the pair is appended on resumption,
    before the next [await] (query optimisation, search, page read or
    dispatch). *)
Theorem turn_pair_enters_before_later_stages
        (isLoading : bool) (currentTurns : list MessageTurn)
        (normalizeApiEndpoint : string -> string)
        (cfg : Config) (msg : string) (w : World) :
  msg <> "" ->
  let t := onSend isLoading currentTurns (Some cfg) normalizeApiEndpoint (Some msg) w in
  (Url.matchUrls msg = [] -> pairInPlace msg w t)
  /\ (Url.matchUrls msg <> [] ->
      exists w1 controller k,
        t = Await w1 (ScrapeUrls (Url.matchUrls msg) controller) k
        /\ turns w1 = turns w
        /\ forall r w2, pairInPlace msg w2 (k r w2)).
Proof.
  intros Hmsg t.
  assert (Ht : JS.orElse (textOf (Some msg)) "" = msg) by now destruct msg.
  unfold t, onSend. rewrite Ht.
  replace (negb (JS.truthy msg)) with false by now destruct msg.
  set (w0 := if negb (isNull (completionGuard w)) then _ else w).
  assert (H0 : turns w0 = turns w /\ clock w0 = clock w).
  { unfold w0. destruct (negb (isNull (completionGuard w))); [|now split].
    destruct (abortControllerRef w); now split. }
  destruct H0 as [Hturns Hclock].
  cbn [newController].
  split.
  - intros Hurls. rewrite Hurls.
    match goal with
    | |- pairInPlace _ _ (turnsStage _ _ _ _ _ ?c _ _ ?wp) =>
        pose proof (@turnsStage_pairInPlace isLoading currentTurns normalizeApiEndpoint
                      cfg (clock w) c msg "" wp) as H
    end.
    unfold pairInPlace in *.
    cbn [turns clock setGuard setChatStatus setPageContent setWebContent
               setLoading setAbortRef setControllers] in H.
    rewrite Hturns, Hclock in H. exact H.
  - intros Hurls.
    destruct (Url.matchUrls msg) as [|url urls] eqn:Hm; [congruence|].
    do 3 eexists. split; [reflexivity|]. split.
    + cbn. exact Hturns.
    + intros r w2. cbv beta.
      match goal with
      | |- pairInPlace _ _ (turnsStage _ _ _ _ _ ?c _ ?sc ?wp) =>
          exact (@turnsStage_pairInPlace isLoading currentTurns normalizeApiEndpoint
                   cfg (clock w) c msg sc wp)
      end.
Qed.

Lemma turn_pair_enters_before_later_stages_witness :
  let msg := "read http://a.io please" in
  let t := onSend false [] (Some (sampleConfig ModeWeb)) (fun s => s) (Some msg) emptyWorld in
  (Url.matchUrls msg = [] -> pairInPlace msg emptyWorld t)
  /\ (Url.matchUrls msg <> [] ->
      exists w1 controller k,
        t = Await w1 (ScrapeUrls (Url.matchUrls msg) controller) k
        /\ turns w1 = turns emptyWorld
        /\ forall r w2, pairInPlace msg w2 (k r w2)).
Proof.
  intros msg.
  apply (@turn_pair_enters_before_later_stages false [] (fun s => s)
           (sampleConfig ModeWeb) msg emptyWorld).
  discriminate.
Defined.

(* ------------------------------------------------------------------ *)
(** ** A web search that fails *)

Section FailedSearch.

Variable isLoading : bool.
Variable currentTurns : list MessageTurn.
Variable normalizeApiEndpoint : string -> string.
Variables (cfg : Config) (callId : Z) (controller : Controller) (msg : string).
Variable respond : forall op, Resp op.
Variable searchError : Thrown.

Hypothesis search_fails : forall q c s, respond (WebSearch q c s) = Rejected searchError.

Lemma afterWebSearch_error
      (m : Model) (auth : option string) (scraped query display : string)
      (w : World) (init : list MessageTurn) (t : MessageTurn) :
  abortLike controller searchError w = false ->
  completionGuard w = Some callId ->
  turns w = (init ++ [t])%list ->
  role t = RoleAssistant ->
  exists w',
    afterWebSearch isLoading currentTurns normalizeApiEndpoint cfg callId controller
                   msg m auth scraped query display (Rejected searchError) w
    = Return w'
    /\ turns w' = (init ++ [searchErrorTurn searchError (clock w) t])%list
    /\ loading w' = false
    /\ completionGuard w' = None.
Proof.
  intros Hab Hg Hturns Hr. unfold afterWebSearch.
  fold (abortLike controller searchError w). rewrite Hab.
  eexists; split; [reflexivity|].
  rewrite terminal_update_unfold by reflexivity.
  cbn [completionGuard setChatStatus]. rewrite Hg. cbn [isNull andb].
  cbv zeta. rewrite optZ_eqb_refl. cbn. rewrite Hturns.
  rewrite turnsUpdater_trailing_assistant by assumption.
  repeat split.
Qed.

Lemma searchStage_error
      (m : Model) (auth : option string) (scraped query display : string)
      (w : World) (init : list MessageTurn) (t : MessageTurn) :
  abortLike controller searchError w = false ->
  completionGuard w = Some callId ->
  turns w = (init ++ [t])%list ->
  role t = RoleAssistant ->
  let w' := runUndisturbed respond
              (searchStage isLoading currentTurns normalizeApiEndpoint cfg callId
                           controller msg m auth scraped query display w) in
  turns w' = (init ++ [searchErrorTurn searchError (clock w) t])%list
  /\ loading w' = false /\ completionGuard w' = None.
Proof.
  intros Hab Hg Hturns Hr. unfold searchStage. cbn [runUndisturbed].
  rewrite search_fails.
  destruct (@afterWebSearch_error m auth scraped query display
              (setChatStatus Searching w) init t Hab Hg Hturns Hr)
    as [w' [Heq H]].
  cbn [Result]. rewrite Heq. exact H.
Qed.

Lemma optimizeStage_error
      (m : Model) (auth : option string) (scraped : string)
      (w : World) (init : list MessageTurn) (t : MessageTurn) :
  abortLike controller searchError w = false ->
  completionGuard w = Some callId ->
  turns w = (init ++ [t])%list ->
  role t = RoleAssistant ->
  let w' := runUndisturbed respond
              (optimizeStage isLoading currentTurns normalizeApiEndpoint cfg callId
                             controller msg m auth scraped w) in
  turns w' = (init ++ [searchErrorTurn searchError (clock w) t])%list
  /\ loading w' = false /\ completionGuard w' = None.
Proof.
  intros Hab Hg Hturns Hr. unfold optimizeStage. cbn [runUndisturbed].
  match goal with
  | |- context [respond ?op] => destruct (respond op) as [optimizedQuery|e]
  end.
  - destruct (JS.truthy optimizedQuery && JS.truthy (JS.trim optimizedQuery)
              && negb (String.eqb optimizedQuery msg));
      apply (@searchStage_error m auth scraped _ _ (setChatStatus Thinking w) init t);
      assumption.
  - apply (@searchStage_error m auth scraped _ _ (setChatStatus Thinking w) init t);
      assumption.
Qed.

Lemma turnsStage_error (m : Model) (scraped : string) (w : World) :
  modeIs cfg ModeWeb = true ->
  findModel cfg = Some m ->
  abortLike controller searchError w = false ->
  completionGuard w = Some callId ->
  let w' := runUndisturbed respond
              (turnsStage isLoading currentTurns normalizeApiEndpoint cfg callId
                          controller msg scraped w) in
  turns w' = (turns w ++ [userTurnOf msg (clock w);
                          searchErrorTurn searchError (clock w)
                            (assistantTurnPlaceholder (clock w))])%list
  /\ loading w' = false /\ completionGuard w' = None.
Proof.
  intros Hweb Hm Hab Hg. unfold turnsStage. rewrite Hm, Hweb.
  set (w2 := setTurns _ (setMessage "" (setTurns _ w))).
  destruct (@optimizeStage_error m (getAuthHeader cfg m) scraped w2
              (turns w ++ [userTurnOf msg (clock w)])%list
              (assistantTurnPlaceholder (clock w)) Hab Hg eq_refl eq_refl)
    as [H1 H2].
  split; [|exact H2]. rewrite H1. now rewrite <- app_assoc.
Qed.

End FailedSearch.

Lemma fresh_controller_not_aborted (cs : list bool) :
  nth (List.length cs) (cs ++ [false])%list false = false.
Proof. apply nth_middle. Qed.

(** C7.  A web-mode send (non-empty message, a model selected) that nothing
    interleaves with and whose search call is rejected with an error that is
    no [AbortError] ends with the store it found, followed by its user turn
    and by exactly one assistant turn, of status error and of content
    [Error: Web Search Failed: ] and the message; [loading] is false.  After
    a rejected search the send never awaits again.  When the rejection is an
    [AbortError], or the controller of the send has been aborted by then,
    the send returns the world as it is on resumption: no update reaches the
    store. *)
Theorem failed_web_search
        (isLoading : bool) (currentTurns : list MessageTurn)
        (normalizeApiEndpoint : string -> string)
        (cfg : Config) (m : Model) (msg : string)
        (respond : forall op, Resp op) (searchError : Thrown) (w0 : World) :
  msg <> "" ->
  modeIs cfg ModeWeb = true ->
  findModel cfg = Some m ->
  (forall q c s, respond (WebSearch q c s) = Rejected searchError) ->
  let send := onSend isLoading currentTurns (Some cfg) normalizeApiEndpoint (Some msg) w0 in
  (thrownName searchError <> Some "AbortError" ->
   exists errorTurn,
     turns (runUndisturbed respond send)
       = (turns w0 ++ [userTurnOf msg (clock w0); errorTurn])%list
     /\ role errorTurn = RoleAssistant
     /\ status errorTurn = StError
     /\ rawContent errorTurn = "Error: Web Search Failed: " ++ messageOrString searchError
     /\ JS.startsWith (rawContent errorTurn) "Error: " = true
     /\ loading (runUndisturbed respond send) = false)
  /\ (forall callId controller auth scraped query display e w,
        exists w',
          afterWebSearch isLoading currentTurns normalizeApiEndpoint cfg callId
                         controller msg m auth scraped query display (Rejected e) w
          = Return w'
          /\ (abortLike controller e w = true -> w' = w)).
Proof.
  intros Hmsg Hweb Hm Hfail send. split.
  - intros Hname.
    exists (searchErrorTurn searchError (clock w0) (assistantTurnPlaceholder (clock w0))).
    assert (Hgoal :
              turns (runUndisturbed respond send)
              = (turns w0 ++ [userTurnOf msg (clock w0);
                              searchErrorTurn searchError (clock w0)
                                (assistantTurnPlaceholder (clock w0))])%list
              /\ loading (runUndisturbed respond send) = false).
    { assert (Ht : JS.orElse (textOf (Some msg)) "" = msg) by now destruct msg.
      unfold send, onSend. rewrite Ht.
      replace (negb (JS.truthy msg)) with false by now destruct msg.
      set (w1 := if negb (isNull (completionGuard w0)) then _ else w0).
      assert (H1 : turns w1 = turns w0 /\ clock w1 = clock w0).
      { unfold w1. destruct (negb (isNull (completionGuard w0))); [|now split].
        destruct (abortControllerRef w0); now split. }
      destruct H1 as [Hturns Hclock].
      cbn [newController].
      assert (Hnot : forall w,
                 controllers w = (controllers w1 ++ [false])%list ->
                 abortLike (List.length (controllers w1)) searchError w = false).
      { intros w Hc. unfold abortLike, signalAborted.
        rewrite Hc, fresh_controller_not_aborted, orb_false_r.
        destruct (thrownName searchError) as [n|]; [|reflexivity].
        apply String.eqb_neq. congruence. }
      assert (Hrun : forall scraped wp,
                 turns wp = turns w1 ->
                 clock wp = clock w1 ->
                 completionGuard wp = Some (clock w0) ->
                 controllers wp = (controllers w1 ++ [false])%list ->
                 let w' := runUndisturbed respond
                             (turnsStage isLoading currentTurns normalizeApiEndpoint cfg
                                         (clock w0) (List.length (controllers w1))
                                         msg scraped wp) in
                 turns w'
                 = (turns w0 ++ [userTurnOf msg (clock w0);
                                 searchErrorTurn searchError (clock w0)
                                   (assistantTurnPlaceholder (clock w0))])%list
                 /\ loading w' = false).
      { intros scraped wp Hwt Hwc Hwg Hws w'.
        destruct (@turnsStage_error isLoading currentTurns normalizeApiEndpoint cfg
                    (clock w0) (List.length (controllers w1)) msg respond searchError
                    Hfail m scraped wp Hweb Hm (Hnot wp Hws) Hwg)
          as [Ha [Hb _]].
        split; [|exact Hb]. fold w' in Ha. rewrite Ha.
        now rewrite Hwt, Hwc, Hturns, Hclock. }
      destruct (Url.matchUrls msg) as [|url urls].
      - apply Hrun; reflexivity.
      - cbn [runUndisturbed]. apply Hrun; reflexivity. }
    destruct Hgoal as [Hturns Hload].
    repeat split; assumption.
  - intros callId controller auth scraped query display e w.
    unfold afterWebSearch. fold (abortLike controller e w).
    destruct (abortLike controller e w); eexists; split; try reflexivity.
    discriminate.
Qed.

Example failed_web_search_run :
  let e := ThrownError "TypeError" "Failed to fetch" in
  let w := runUndisturbed (searchRejects e)
             (onSend false [] (Some (sampleConfig ModeWeb)) (fun s => s)
                     (Some "weather today") (setClock 100 emptyWorld)) in
  turns w = [mkTurn RoleUser "weather today" StComplete 100 None;
             mkTurn RoleAssistant "Error: Web Search Failed: Failed to fetch"
                    StError 100 None]
  /\ loading w = false /\ chatStatus w = Idle /\ completionGuard w = None.
Proof.
  vm_compute. repeat split.
Qed.

Lemma failed_web_search_witness :
  let e := ThrownError "TypeError" "Failed to fetch" in
  let cfg := sampleConfig ModeWeb in
  let msg := "weather today" in
  let send := onSend false [] (Some cfg) (fun s => s) (Some msg) emptyWorld in
  (thrownName e <> Some "AbortError" ->
   exists errorTurn,
     turns (runUndisturbed (searchRejects e) send)
       = (turns emptyWorld ++ [userTurnOf msg (clock emptyWorld); errorTurn])%list
     /\ role errorTurn = RoleAssistant
     /\ status errorTurn = StError
     /\ rawContent errorTurn = "Error: Web Search Failed: " ++ messageOrString e
     /\ JS.startsWith (rawContent errorTurn) "Error: " = true
     /\ loading (runUndisturbed (searchRejects e) send) = false)
  /\ (forall callId controller auth scraped query display e' w,
        exists w',
          afterWebSearch false [] (fun s => s) cfg callId
                         controller msg sampleModel auth scraped query display
                         (Rejected e') w
          = Return w'
          /\ (abortLike controller e' w = true -> w' = w)).
Proof.
  intros e cfg msg.
  apply (@failed_web_search false [] (fun s => s) cfg sampleModel msg
           (searchRejects e) e emptyWorld).
  - discriminate.
  - reflexivity.
  - reflexivity.
  - intros q c s. reflexivity.
Defined.

(* ------------------------------------------------------------------ *)
(** ** The authorisation header *)

Lemma truthy_nonempty (s : string) : JS.truthy s = true <-> s <> "".
Proof. destruct s; cbn; split; congruence. Qed.

(** X1.  [getAuthHeader] yields a header exactly when the host of the model
    is one of groq, gemini, openai, openrouter and custom and the key the
    config holds for that very host is not empty; the header is then
    [Bearer ] followed by that key.  A model without host, or of another
    host (ollama, lmStudio), gets none. *)
Theorem auth_header_uses_the_key_of_the_host
        (config : Config) (currentModel : Model) (h : string) :
  getAuthHeader config currentModel = Some h
  <-> exists host key,
        model_host currentModel = Some host
        /\ In (host, key) (hostKeys config)
        /\ key <> ""
        /\ h = "Bearer " ++ key.
Proof.
  unfold getAuthHeader, hostIs, hostKeys.
  destruct (model_host currentModel) as [host|]; cbn [In].
  2:{ cbn. split; [discriminate|]. intros (x & k & H & _). discriminate. }
  split.
  - repeat match goal with
           | |- (if String.eqb host ?x && JS.truthy ?k then _ else _) = _ -> _ =>
               destruct (String.eqb_spec host x) as [->|?];
               [ destruct (JS.truthy k) eqn:Hk; cbn -[append];
                 [ intros H; injection H as <-; exists x, k;
                   split; [reflexivity|]; split; [cbn; tauto|];
                   split; [now apply truthy_nonempty | reflexivity]
                 | ]
               | cbn [andb] ]
           end;
      discriminate.
  - intros (x & k & Hx & Hin & Hk & ->). injection Hx as <-.
    apply truthy_nonempty in Hk.
    repeat destruct Hin as [Hin|Hin];
      try (injection Hin as <- <-; cbn; now rewrite Hk);
      contradiction.
Qed.

(* ------------------------------------------------------------------ *)
(** ** Sends that end before they start, and [onStop] *)

(** X2.  Without a config a send only puts [loading] to false.  With a
    config and an empty or missing message it returns the world as it found
    it: no controller is aborted or created, the guard slot and the store
    are untouched, a send in flight goes on. *)
Theorem send_without_config_or_message
        (isLoading : bool) (currentTurns : list MessageTurn)
        (normalizeApiEndpoint : string -> string) (w : World) :
  (forall overridedMessage,
      onSend isLoading currentTurns None normalizeApiEndpoint overridedMessage w
      = Return (setLoading false w))
  /\ (forall cfg,
        onSend isLoading currentTurns (Some cfg) normalizeApiEndpoint None w = Return w
        /\ onSend isLoading currentTurns (Some cfg) normalizeApiEndpoint (Some "") w
           = Return w).
Proof.
  split; [reflexivity|]. intros cfg. split; reflexivity.
Qed.

Lemma nonterminal_update_of_other_token
      (callId : option Z) (u : string) (w : World) :
  completionGuard w <> callId ->
  updateAssistantTurn callId u false false false w = w.
Proof.
  intros Hne. unfold updateAssistantTurn.
  destruct (optZ_eqb_spec (completionGuard w) callId); [contradiction|reflexivity].
Qed.

Lemma world_eta (w : World) :
  mkWorld (turns w) (message w) (webContent w) (pageContent w) (loading w)
          (chatStatus w) (completionGuard w) (abortControllerRef w)
          (controllers w) (clock w) = w.
Proof. destruct w; reflexivity. Qed.

Lemma onStop_unfold_in_progress (w : World) (t : Z) :
  completionGuard w = Some t ->
  let w0 := match abortControllerRef w with
            | Some c => setAbortRef None (abort c w)
            | None => w
            end in
  onStop w =
  setAbortRef None (setGuard None (setChatStatus Idle (setLoading false
    (setTurns (turnsUpdater (clock w) "[Operation cancelled by user]" true false true)
              w0)))).
Proof.
  intros Hg w0. unfold onStop. rewrite Hg. fold w0.
  assert (H0 : completionGuard w0 = Some t /\ clock w0 = clock w).
  { unfold w0. destruct (abortControllerRef w); cbn; now rewrite ?Hg. }
  destruct H0 as [Hg0 Hc0].
  rewrite terminal_update_unfold by reflexivity.
  rewrite Hg0, Hc0. cbn [isNull andb]. cbv zeta. now rewrite optZ_eqb_refl.
Qed.

(** X3.  [onStop] always leaves [loading] false, the chat status idle, the
    guard slot and the abort controller ref empty; a second [onStop] right
    after changes nothing at all, so the cancellation notice is appended at
    most once; and an unfinished part that the transport of the stopped send
    still reports is dropped. *)
Theorem onStop_settles_the_hook (w : World) :
  let w' := onStop w in
  loading w' = false
  /\ chatStatus w' = Idle
  /\ completionGuard w' = None
  /\ (completionGuard w <> None -> abortControllerRef w' = None)
  /\ (completionGuard w = None -> turns w' = turns w /\ controllers w' = controllers w)
  /\ onStop w' = w'
  /\ (forall callId part,
        updateAssistantTurn (Some callId) part false false false w' = w').
Proof.
  intros w'.
  assert (H : loading w' = false /\ chatStatus w' = Idle /\ completionGuard w' = None
              /\ (completionGuard w <> None -> abortControllerRef w' = None)
              /\ (completionGuard w = None ->
                  turns w' = turns w /\ controllers w' = controllers w)).
  { unfold w'. destruct (completionGuard w) as [t|] eqn:Hg.
    - rewrite (onStop_unfold_in_progress w Hg). cbn.
      repeat split; intros; congruence.
    - unfold onStop. rewrite Hg. cbn. rewrite Hg. repeat split; congruence. }
  destruct H as (Hl & Hs & Hg' & Hr & Hidle).
  repeat split; try assumption; try (now apply Hidle).
  - unfold onStop at 1. rewrite Hg'.
    rewrite <- (world_eta w') at 2. unfold setChatStatus, setLoading. cbn.
    now rewrite Hl, Hs.
  - intros callId part. apply nonterminal_update_of_other_token.
    rewrite Hg'. discriminate.
Qed.

(* ------------------------------------------------------------------ *)
(** ** Abort controllers *)

Lemma raiseFlag_length (c : nat) (cs : list bool) :
  List.length (raiseFlag c cs) = List.length cs.
Proof.
  revert c. induction cs as [|b cs IH]; intros [|c]; cbn; auto.
Qed.

Lemma raiseFlag_sets (c : nat) (cs : list bool) :
  (c < List.length cs)%nat -> nth c (raiseFlag c cs) false = true.
Proof.
  revert c. induction cs as [|b cs IH]; intros [|c] H; cbn in *; try lia; auto.
  apply IH. lia.
Qed.

Lemma raiseFlag_other (c i : nat) (cs : list bool) :
  i <> c -> nth i (raiseFlag c cs) false = nth i cs false.
Proof.
  revert c i. induction cs as [|b cs IH]; intros [|c] [|i] H; cbn; auto; try congruence.
Qed.

Lemma raiseFlag_keeps (c i : nat) (cs : list bool) :
  nth i cs false = true -> nth i (raiseFlag c cs) false = true.
Proof.
  intros H. destruct (Nat.eq_dec i c) as [->|Hne].
  - apply raiseFlag_sets. destruct (Nat.lt_ge_cases c (List.length cs)); [assumption|].
    rewrite nth_overflow in H by assumption. discriminate.
  - now rewrite raiseFlag_other.
Qed.

(** X4.  [onStop], called while a send is in flight whose controller is in
    the abort controller ref, aborts that controller and no other, creates
    none, and closes the trailing assistant turn as cancelled: its content
    keeps what was streamed and ends in the notice
    [[Operation cancelled by user]]. *)
Theorem onStop_aborts_the_send_in_flight
        (w : World) (t : Z) (c : Controller)
        (init : list MessageTurn) (lastTurn : MessageTurn) :
  completionGuard w = Some t ->
  abortControllerRef w = Some c ->
  (c < List.length (controllers w))%nat ->
  turns w = (init ++ [lastTurn])%list ->
  role lastTurn = RoleAssistant ->
  let w' := onStop w in
  signalAborted c w' = true
  /\ (forall i, i <> c -> signalAborted i w' = signalAborted i w)
  /\ List.length (controllers w') = List.length (controllers w)
  /\ turns w' =
     (init ++ [mkTurn RoleAssistant
                      (rawContent lastTurn
                         ++ (if JS.truthy (rawContent lastTurn) then " " else "")
                         ++ "[Operation cancelled by user]")
                      StCancelled (clock w) (webDisplayContent lastTurn)])%list.
Proof.
  intros Hg Hr Hc Hturns Hrole w'. unfold w'.
  rewrite (onStop_unfold_in_progress w Hg). rewrite Hr.
  unfold signalAborted. cbn. repeat split.
  - now apply raiseFlag_sets.
  - intros i Hi. now apply raiseFlag_other.
  - apply raiseFlag_length.
  - rewrite Hturns, turnsUpdater_trailing_assistant by assumption.
    unfold finalContentForTurn, JS.orElse. cbn.
    destruct (rawContent lastTurn); reflexivity.
Qed.

Lemma onStop_aborts_the_send_in_flight_witness :
  let w := mkWorld [mkTurn RoleUser "hi" StComplete 1 None;
                    mkTurn RoleAssistant "Hello, I" StStreaming 2 None]
                   "" "" "" true Thinking (Some 7%Z) (Some 1) [true; false] 9 in
  let w' := onStop w in
  signalAborted 1 w' = true
  /\ (forall i, i <> 1 -> signalAborted i w' = signalAborted i w)
  /\ List.length (controllers w') = List.length (controllers w)
  /\ turns w' =
     ([mkTurn RoleUser "hi" StComplete 1 None]
        ++ [mkTurn RoleAssistant
                   ("Hello, I" ++ " " ++ "[Operation cancelled by user]")
                   StCancelled 9 None])%list.
Proof.
  intros w.
  apply (@onStop_aborts_the_send_in_flight w 7%Z 1
           [mkTurn RoleUser "hi" StComplete 1 None]
           (mkTurn RoleAssistant "Hello, I" StStreaming 2 None));
    try reflexivity.
  cbn. lia.
Defined.

(* ------------------------------------------------------------------ *)
(** ** Which operations a send awaits, and in which order *)

Section StageWalk.

Variable isLoading : bool.
Variable currentTurns : list MessageTurn.
Variable normalizeApiEndpoint : string -> string.
Variables (cfg : Config) (callId : Z) (controller : Controller) (msg : string).

Variable P : AsyncOp -> Prop.
Hypothesis P_dispatch : forall op, isDispatchOp op = true -> P op.
Hypothesis P_page : modeIs cfg ModePage = true -> forall op, isPageOp op = true -> P op.
Hypothesis P_search : modeIs cfg ModeWeb = true -> forall op, isSearchOp op = true -> P op.

Lemma dispatchStage_every
      (messageToUse : string) (m : Model) (auth : option string)
      (prompt : string) (w : World) :
  everyAwait P (dispatchStage isLoading currentTurns normalizeApiEndpoint cfg callId
                              controller msg messageToUse m auth prompt w).
Proof.
  unfold dispatchStage.
  destruct (computeLevel cfg);
    [ destruct (negb (JS.truthy _)); [exact I|] | | ];
    (split; [now apply P_dispatch | intros [[]|e] w'; exact I]).
Qed.

Lemma contextStage_every
      (messageToUse : string) (m : Model) (auth : option string)
      (scraped searchRes : string) (w : World) :
  everyAwait P (contextStage isLoading currentTurns normalizeApiEndpoint cfg callId
                             controller msg messageToUse m auth scraped searchRes w).
Proof.
  unfold contextStage, finishPage.
  case_eq (modeIs cfg ModePage); intros Hpage; [|apply dispatchStage_every].
  split; [now apply P_page|].
  intros [tab|e] w1; [|apply dispatchStage_every].
  destruct (JS.truthy _ && negb _); [|apply dispatchStage_every].
  destruct (isPdfUrl _ _).
  - split; [now apply P_page|].
    intros [text|e] w2; apply dispatchStage_every.
  - split; [now apply P_page|].
    intros [stored|e] w2; apply dispatchStage_every.
Qed.

Lemma searchStage_every
      (m : Model) (auth : option string) (scraped query display : string) (w : World) :
  modeIs cfg ModeWeb = true ->
  everyAwait P (searchStage isLoading currentTurns normalizeApiEndpoint cfg callId
                            controller msg m auth scraped query display w).
Proof.
  intros Hweb. unfold searchStage. split; [now apply P_search|].
  intros [searchRes|e] w1; unfold afterWebSearch.
  - destruct (signalAborted controller _); [exact I|]. apply contextStage_every.
  - destruct (_ || _); exact I.
Qed.

Lemma turnsStage_every (scraped : string) (w : World) :
  everyAwait P (turnsStage isLoading currentTurns normalizeApiEndpoint cfg callId
                           controller msg scraped w).
Proof.
  unfold turnsStage. destruct (findModel cfg) as [m|]; [|exact I].
  case_eq (modeIs cfg ModeWeb); intros Hweb; [|apply contextStage_every].
  unfold optimizeStage. split; [now apply P_search|].
  intros [optimizedQuery|e] w1.
  - destruct (_ && _); now apply searchStage_every.
  - now apply searchStage_every.
Qed.

End StageWalk.

Lemma onSend_every
      (isLoading : bool) (currentTurns : list MessageTurn)
      (normalizeApiEndpoint : string -> string)
      (config : option Config) (overridedMessage : option string) (w : World)
      (P : AsyncOp -> Prop) :
  (forall op, isDispatchOp op = true -> P op) ->
  (forall op, isScrapeOp op = true -> P op) ->
  (forall cfg, config = Some cfg -> modeIs cfg ModePage = true ->
               forall op, isPageOp op = true -> P op) ->
  (forall cfg, config = Some cfg -> modeIs cfg ModeWeb = true ->
               forall op, isSearchOp op = true -> P op) ->
  everyAwait P (onSend isLoading currentTurns config normalizeApiEndpoint
                       overridedMessage w).
Proof.
  intros Hd Hs Hp Hw. unfold onSend.
  destruct config as [cfg|]; [|exact I].
  destruct (negb (JS.truthy _)); [exact I|].
  cbn [newController].
  destruct (Url.matchUrls _) as [|url urls].
  - apply turnsStage_every;
      [exact Hd | exact (Hp cfg eq_refl) | exact (Hw cfg eq_refl)].
  - split; [now apply Hs|]. intros r w1.
    apply turnsStage_every;
      [exact Hd | exact (Hp cfg eq_refl) | exact (Hw cfg eq_refl)].
Qed.

(** X5.  Whatever the awaited operations yield and whatever happens while
    the send is suspended: a send in another mode than web never awaits the
    query optimisation or the web search, and a send in another mode than
    page never awaits the tab query, the PDF extraction or the stored page
    text. *)
Theorem stages_are_gated_by_the_chat_mode
        (isLoading : bool) (currentTurns : list MessageTurn)
        (normalizeApiEndpoint : string -> string)
        (cfg : Config) (overridedMessage : option string) (w : World) :
  let send := onSend isLoading currentTurns (Some cfg) normalizeApiEndpoint
                     overridedMessage w in
  (modeIs cfg ModeWeb = false -> everyAwait (fun op => isSearchOp op = false) send)
  /\ (modeIs cfg ModePage = false -> everyAwait (fun op => isPageOp op = false) send).
Proof.
  split; intros Hmode; apply onSend_every;
    try (intros op; destruct op; cbn; congruence);
    intros cfg' Hc; injection Hc as <-; intros Hm; try congruence;
    intros op; destruct op; cbn; congruence.
Qed.

Section DispatchLast.

Variable isLoading : bool.
Variable currentTurns : list MessageTurn.
Variable normalizeApiEndpoint : string -> string.
Variables (cfg : Config) (callId : Z) (controller : Controller) (msg : string).

Lemma dispatchStage_last
      (messageToUse : string) (m : Model) (auth : option string)
      (prompt : string) (w : World) :
  dispatchIsLast (dispatchStage isLoading currentTurns normalizeApiEndpoint cfg callId
                                controller msg messageToUse m auth prompt w).
Proof.
  unfold dispatchStage.
  destruct (computeLevel cfg).
  - destruct (negb (JS.truthy _)); [exact I|].
    intros r w'. destruct r; (split; [intros _; eexists; reflexivity | exact I]).
  - intros r w'. destruct r; (split; [intros _; eexists; reflexivity | exact I]).
  - intros r w'. destruct r; (split; [intros _; eexists; reflexivity | exact I]).
Qed.

Lemma contextStage_last
      (messageToUse : string) (m : Model) (auth : option string)
      (scraped searchRes : string) (w : World) :
  dispatchIsLast (contextStage isLoading currentTurns normalizeApiEndpoint cfg callId
                               controller msg messageToUse m auth scraped searchRes w).
Proof.
  unfold contextStage, finishPage.
  destruct (modeIs cfg ModePage); [|apply dispatchStage_last].
  intros r w1. split; [discriminate|].
  destruct r as [tab|e]; [|apply dispatchStage_last].
  destruct (JS.truthy _ && negb _); [|apply dispatchStage_last].
  destruct (isPdfUrl _ _); intros r w2; (split; [discriminate|]);
    destruct r; apply dispatchStage_last.
Qed.

Lemma turnsStage_last (scraped : string) (w : World) :
  dispatchIsLast (turnsStage isLoading currentTurns normalizeApiEndpoint cfg callId
                             controller msg scraped w).
Proof.
  assert (Hsearch : forall m auth query display w0,
             dispatchIsLast (searchStage isLoading currentTurns normalizeApiEndpoint cfg
                                         callId controller msg m auth scraped
                                         query display w0)).
  { intros m auth query display w0 r w1. split; [discriminate|].
    destruct r as [searchRes|e]; unfold afterWebSearch.
    - destruct (signalAborted controller _); [exact I|]. apply contextStage_last.
    - destruct (_ || _); exact I. }
  unfold turnsStage. destruct (findModel cfg) as [m|]; [|exact I].
  destruct (modeIs cfg ModeWeb); [|apply contextStage_last].
  intros r w1. split; [discriminate|].
  destruct r as [optimizedQuery|e]; [destruct (_ && _)|]; apply Hsearch.
Qed.

End DispatchLast.

(** X6.  A send awaits at most one execution strategy (high compute, medium
    compute or the streaming transport), and once that strategy has settled,
    fulfilled or rejected, the send returns without any further [await]. *)
Theorem the_strategy_is_awaited_last
        (isLoading : bool) (currentTurns : list MessageTurn)
        (normalizeApiEndpoint : string -> string)
        (config : option Config) (overridedMessage : option string) (w : World) :
  dispatchIsLast (onSend isLoading currentTurns config normalizeApiEndpoint
                         overridedMessage w).
Proof.
  unfold onSend. destruct config as [cfg|]; [|exact I].
  destruct (negb (JS.truthy _)); [exact I|].
  cbn [newController].
  destruct (Url.matchUrls _) as [|url urls].
  - apply turnsStage_last.
  - intros r w1. split; [discriminate|]. apply turnsStage_last.
Qed.

(** X7.  A send whose message holds no URL never awaits a scrape.  A send
    whose message holds URLs awaits the scrape of exactly these URLs first,
    under its own controller, and no scrape after it. *)
Theorem urls_are_scraped_once
        (isLoading : bool) (currentTurns : list MessageTurn)
        (normalizeApiEndpoint : string -> string)
        (cfg : Config) (msg : string) (w : World) :
  let send := onSend isLoading currentTurns (Some cfg) normalizeApiEndpoint (Some msg) w in
  let noScrape := everyAwait (fun op => isScrapeOp op = false) in
  (Url.matchUrls msg = [] -> noScrape send)
  /\ (msg <> "" -> Url.matchUrls msg <> [] ->
      exists w1 k,
        send = Await w1 (ScrapeUrls (Url.matchUrls msg) (List.length (controllers w))) k
        /\ forall r w2, noScrape (k r w2)).
Proof.
  assert (Hstage : forall callId controller scraped w0,
             everyAwait (fun op => isScrapeOp op = false)
                        (turnsStage isLoading currentTurns normalizeApiEndpoint cfg
                                    callId controller msg scraped w0)).
  { intros. apply turnsStage_every; intros; destruct op; cbn in *; congruence. }
  cbv zeta. split.
  - intros Hurls. unfold onSend.
    replace (JS.orElse (textOf (Some msg)) "") with msg by now destruct msg.
    destruct (negb (JS.truthy msg)); [exact I|].
    cbn [newController]. rewrite Hurls. apply Hstage.
  - intros Hmsg Hurls. unfold onSend.
    replace (JS.orElse (textOf (Some msg)) "") with msg by now destruct msg.
    replace (negb (JS.truthy msg)) with false by now destruct msg.
    set (w0 := if negb (isNull (completionGuard w)) then _ else w).
    assert (Hlen : List.length (controllers w0) = List.length (controllers w)).
    { unfold w0. destruct (negb (isNull (completionGuard w))); [|reflexivity].
      destruct (abortControllerRef w); [|reflexivity].
      cbn. apply raiseFlag_length. }
    cbn [newController]. rewrite Hlen.
    destruct (Url.matchUrls msg) as [|url urls]; [congruence|].
    do 2 eexists. split; [reflexivity|].
    intros r w2. apply Hstage.
Qed.

(* ------------------------------------------------------------------ *)
(** ** What a new send does to the hook before its first [await] *)

Lemma own_terminal_update (callId : Z) (u : string) (f e c : bool) (w : World) :
  completionGuard w = Some callId ->
  f || e || c = true ->
  let w' := updateAssistantTurn (Some callId) u f e c w in
  controllers w' = controllers w
  /\ completionGuard w' = None
  /\ abortControllerRef w' = None
  /\ loading w' = false
  /\ turns w' = turnsUpdater (clock w) u f e c (turns w)
  /\ chatStatus w' = (if e then Idle else if c then Idle else Done_).
Proof.
  intros Hg Ht. cbv zeta. rewrite terminal_update_unfold by assumption.
  rewrite Hg. cbn [isNull andb]. cbv zeta. rewrite optZ_eqb_refl. cbn.
  repeat split.
Qed.

Section FirstExposure.

Variable isLoading : bool.
Variable currentTurns : list MessageTurn.
Variable normalizeApiEndpoint : string -> string.
Variables (cfg : Config) (callId : Z) (controller : Controller) (msg : string).

Lemma turnsStage_first_exposure (scraped : string) (w : World) :
  completionGuard w = Some callId ->
  match turnsStage isLoading currentTurns normalizeApiEndpoint cfg callId
                   controller msg scraped w with
  | Await w' _ _ => sameControl w w'
  | Return w' =>
      controllers w' = controllers w
      /\ completionGuard w' = None
      /\ abortControllerRef w' = None
      /\ loading w' = false
  end.
Proof.
  intros Hg. unfold turnsStage.
  destruct (findModel cfg) as [m|].
  - destruct (modeIs cfg ModeWeb); [repeat split|].
    unfold contextStage.
    destruct (modeIs cfg ModePage); [repeat split|].
    unfold dispatchStage.
    destruct (computeLevel cfg); try (repeat split).
    destruct (negb (JS.truthy _)); [|repeat split].
    match goal with
    | |- context [updateAssistantTurn _ ?u _ _ _ ?w0] =>
        destruct (@own_terminal_update callId u true true false w0 Hg eq_refl)
          as (H1 & H2 & H3 & H4 & _)
    end.
    repeat split; assumption.
  - match goal with
    | |- context [updateAssistantTurn _ ?u _ _ _ ?w0] =>
        destruct (@own_terminal_update callId u true true false w0 Hg eq_refl)
          as (H1 & H2 & H3 & H4 & _)
    end.
    repeat split; assumption.
Qed.

End FirstExposure.

(** X8.  A send with a config and a non-empty message creates one new
    controller and aborts none but the one in the abort controller ref, and
    that one only when the guard slot is occupied; a controller once aborted
    stays aborted.  At its first [await] the guard slot holds the token of
    the send (the time of the call), the abort controller ref holds the new
    controller, which is not aborted, and [loading] is true.  If the send
    ends without any [await], it leaves the guard slot and the ref empty and
    [loading] false. *)
Theorem a_new_send_takes_over
        (isLoading : bool) (currentTurns : list MessageTurn)
        (normalizeApiEndpoint : string -> string)
        (cfg : Config) (msg : string) (w : World) :
  msg <> "" ->
  let send := onSend isLoading currentTurns (Some cfg) normalizeApiEndpoint (Some msg) w in
  let w' := exposedWorld send in
  let fresh := List.length (controllers w) in
  List.length (controllers w') = S fresh
  /\ signalAborted fresh w' = false
  /\ (forall c, completionGuard w <> None -> abortControllerRef w = Some c ->
                (c < fresh)%nat -> signalAborted c w' = true)
  /\ (forall i, signalAborted i w = true -> signalAborted i w' = true)
  /\ (forall i, signalAborted i w' = true ->
                signalAborted i w = true
                \/ (completionGuard w <> None /\ abortControllerRef w = Some i))
  /\ match send with
     | Await _ _ _ =>
         completionGuard w' = Some (clock w)
         /\ abortControllerRef w' = Some fresh
         /\ loading w' = true
     | Return _ =>
         completionGuard w' = None
         /\ abortControllerRef w' = None
         /\ loading w' = false
     end.
Proof.
  intros Hmsg send w' fresh.
  (* the world after the previous send has been aborted *)
  set (w0 := if negb (isNull (completionGuard w))
             then match abortControllerRef w with
                  | Some previous => abort previous w
                  | None => w
                  end
             else w).
  assert (H0 : List.length (controllers w0) = fresh
               /\ (forall c, completionGuard w <> None -> abortControllerRef w = Some c ->
                             (c < fresh)%nat -> nth c (controllers w0) false = true)
               /\ (forall i, nth i (controllers w) false = true ->
                             nth i (controllers w0) false = true)
               /\ (forall i, nth i (controllers w0) false = true ->
                             nth i (controllers w) false = true
                             \/ (completionGuard w <> None
                                 /\ abortControllerRef w = Some i))).
  { unfold w0, fresh.
    destruct (completionGuard w) as [g|]; cbn [isNull negb].
    - destruct (abortControllerRef w) as [p|]; cbn.
      + repeat split.
        * apply raiseFlag_length.
        * intros c _ Hc Hlt. injection Hc as <-. now apply raiseFlag_sets.
        * intros i. apply raiseFlag_keeps.
        * intros i Hi. destruct (Nat.eq_dec i p) as [->|Hne].
          -- right. split; [discriminate|reflexivity].
          -- left. now rewrite raiseFlag_other in Hi.
      + repeat split; auto; discriminate.
    - repeat split; auto; congruence. }
  destruct H0 as (Hlen & Hab & Hkeep & Honly).
  (* the world the stages start from *)
  assert (Hprep : exists wp,
             (send = turnsStage isLoading currentTurns normalizeApiEndpoint cfg (clock w)
                                fresh msg "" wp
              \/ exists k, send = Await (setChatStatus Searching wp)
                                        (ScrapeUrls (Url.matchUrls msg) fresh) k)
             /\ controllers wp = (controllers w0 ++ [false])%list
             /\ completionGuard wp = Some (clock w)
             /\ abortControllerRef wp = Some fresh
             /\ loading wp = true).
  { unfold send, onSend.
    replace (JS.orElse (textOf (Some msg)) "") with msg by now destruct msg.
    replace (negb (JS.truthy msg)) with false by now destruct msg.
    fold w0. cbn [newController]. rewrite Hlen.
    eexists. split.
    - destruct (Url.matchUrls msg) as [|url urls].
      + left. reflexivity.
      + right. eexists. reflexivity.
    - cbn. repeat split. }
  destruct Hprep as (wp & Hsend & Hcs & Hg & Hr & Hl).
  assert (Hflags : forall wx, controllers wx = controllers wp ->
             List.length (controllers wx) = S fresh
             /\ signalAborted fresh wx = false
             /\ (forall c, completionGuard w <> None -> abortControllerRef w = Some c ->
                           (c < fresh)%nat -> signalAborted c wx = true)
             /\ (forall i, signalAborted i w = true -> signalAborted i wx = true)
             /\ (forall i, signalAborted i wx = true ->
                           signalAborted i w = true
                           \/ (completionGuard w <> None /\ abortControllerRef w = Some i))).
  { intros wx Hx. unfold signalAborted. rewrite Hx, Hcs. repeat split.
    - rewrite length_app, Hlen. cbn. lia.
    - rewrite <- Hlen. apply fresh_controller_not_aborted.
    - intros c Hgn Hc Hlt. rewrite app_nth1 by lia. now apply Hab.
    - intros i Hi.
      assert (i < fresh)%nat.
      { destruct (Nat.lt_ge_cases i fresh); [assumption|].
        unfold fresh in *. rewrite nth_overflow in Hi by assumption. discriminate. }
      rewrite app_nth1 by lia. now apply Hkeep.
    - intros i Hi.
      destruct (Nat.lt_ge_cases i fresh) as [Hlt|Hge].
      + rewrite app_nth1 in Hi by lia. now apply Honly.
      + destruct (Nat.eq_dec i fresh) as [->|Hne].
        * rewrite <- Hlen in Hi. rewrite fresh_controller_not_aborted in Hi. discriminate.
        * rewrite nth_overflow in Hi; [discriminate|].
          rewrite length_app, Hlen. cbn. lia. }
  destruct Hsend as [Hsend | [k Hsend]].
  - pose proof (@turnsStage_first_exposure isLoading currentTurns normalizeApiEndpoint
                  cfg (clock w) fresh msg "" wp Hg) as Hexp.
    unfold w'. rewrite Hsend.
    destruct (turnsStage _ _ _ _ _ _ _ _ wp) as [wr|wa op k]; cbn [exposedWorld].
    + destruct Hexp as (Hc & Hg' & Hr' & Hl').
      destruct (Hflags wr Hc) as (F1 & F2 & F3 & F4 & F5).
      repeat split; assumption.
    + destruct Hexp as (Hg' & Hr' & Hc & Hl' & _).
      destruct (Hflags wa Hc) as (F1 & F2 & F3 & F4 & F5).
      repeat split; try assumption; congruence.
  - unfold w'. rewrite Hsend. cbn [exposedWorld].
    destruct (Hflags (setChatStatus Searching wp) eq_refl) as (F1 & F2 & F3 & F4 & F5).
    repeat split; assumption.
Qed.

Lemma a_new_send_takes_over_witness :
  let w := exposedWorld firstSend in
  let send := onSend true [] (Some (sampleConfig ModeChat)) (fun s => s)
                     (Some "second question") w in
  let w' := exposedWorld send in
  let fresh := List.length (controllers w) in
  List.length (controllers w') = S fresh
  /\ signalAborted fresh w' = false
  /\ (forall c, completionGuard w <> None -> abortControllerRef w = Some c ->
                (c < fresh)%nat -> signalAborted c w' = true)
  /\ (forall i, signalAborted i w = true -> signalAborted i w' = true)
  /\ (forall i, signalAborted i w' = true ->
                signalAborted i w = true
                \/ (completionGuard w <> None /\ abortControllerRef w = Some i))
  /\ match send with
     | Await _ _ _ =>
         completionGuard w' = Some (clock w)
         /\ abortControllerRef w' = Some fresh
         /\ loading w' = true
     | Return _ =>
         completionGuard w' = None
         /\ abortControllerRef w' = None
         /\ loading w' = false
     end.
Proof.
  intros w.
  apply (@a_new_send_takes_over true [] (fun s => s) (sampleConfig ModeChat)
           "second question" w).
  discriminate.
Defined.

(* ------------------------------------------------------------------ *)
(** ** Configuration errors *)

Lemma onSend_to_turnsStage
      (isLoading : bool) (currentTurns : list MessageTurn)
      (normalizeApiEndpoint : string -> string)
      (cfg : Config) (msg : string) (w : World) :
  msg <> "" ->
  exists controller wp,
    turns wp = turns w /\ clock wp = clock w
    /\ completionGuard wp = Some (clock w)
    /\ match Url.matchUrls msg with
       | [] =>
           onSend isLoading currentTurns (Some cfg) normalizeApiEndpoint (Some msg) w
           = turnsStage isLoading currentTurns normalizeApiEndpoint cfg (clock w)
                        controller msg "" wp
       | urls =>
           exists k,
           onSend isLoading currentTurns (Some cfg) normalizeApiEndpoint (Some msg) w
           = Await (setChatStatus Searching wp) (ScrapeUrls urls controller) k
           /\ forall r w2, exists scraped,
                k r w2 = turnsStage isLoading currentTurns normalizeApiEndpoint cfg
                                    (clock w) controller msg scraped
                                    (setChatStatus Thinking w2)
       end.
Proof.
  intros Hmsg. unfold onSend.
  replace (JS.orElse (textOf (Some msg)) "") with msg by now destruct msg.
  replace (negb (JS.truthy msg)) with false by now destruct msg.
  set (w0 := if negb (isNull (completionGuard w)) then _ else w).
  assert (H0 : turns w0 = turns w /\ clock w0 = clock w).
  { unfold w0. destruct (negb (isNull (completionGuard w))); [|now split].
    destruct (abortControllerRef w); now split. }
  destruct H0 as [Ht Hc].
  cbn [newController].
  do 2 eexists. split; [|split; [|split]].
  4:{ destruct (Url.matchUrls msg) as [|url urls].
      - reflexivity.
      - eexists. split; [reflexivity|]. intros r w2. eexists. reflexivity. }
  all: cbn; auto.
Qed.

(** X9.  A send with a non-empty message whose config selects no model
    (no model list, no selection, or a selection that is not in the list)
    never awaits anything but the scrape of its URLs: no search, no page
    read, no strategy, in any chat mode.  When its message holds no URL it
    returns at once, the store extended by the user turn and one assistant
    turn of status error that reads
    [Error: Configuration error: No model selected.], with [loading] false,
    the chat status idle, the guard slot and the abort controller ref
    empty. *)
Theorem send_without_model
        (isLoading : bool) (currentTurns : list MessageTurn)
        (normalizeApiEndpoint : string -> string)
        (cfg : Config) (msg : string) (w : World) :
  msg <> "" ->
  findModel cfg = None ->
  let send := onSend isLoading currentTurns (Some cfg) normalizeApiEndpoint (Some msg) w in
  everyAwait (fun op => isScrapeOp op = true) send
  /\ (Url.matchUrls msg = [] ->
      exists w',
        send = Return w'
        /\ turns w' =
           (turns w ++ [userTurnOf msg (clock w);
                        mkTurn RoleAssistant
                               "Error: Configuration error: No model selected."
                               StError (clock w) None])%list
        /\ loading w' = false
        /\ chatStatus w' = Idle
        /\ completionGuard w' = None
        /\ abortControllerRef w' = None).
Proof.
  intros Hmsg Hm send.
  destruct (@onSend_to_turnsStage isLoading currentTurns normalizeApiEndpoint cfg msg w Hmsg)
    as (controller & wp & Ht & Hc & Hg & Hsend).
  fold send in Hsend.
  assert (Hstage : forall scraped w0,
             everyAwait (fun op => isScrapeOp op = true)
                        (turnsStage isLoading currentTurns normalizeApiEndpoint cfg
                                    (clock w) controller msg scraped w0)).
  { intros. unfold turnsStage. rewrite Hm. exact I. }
  split.
  - destruct (Url.matchUrls msg) as [|url urls].
    + rewrite Hsend. apply Hstage.
    + destruct Hsend as (k & -> & Hk). split; [reflexivity|].
      intros r w2. destruct (Hk r w2) as [scraped ->]. apply Hstage.
  - intros Hurls. rewrite Hurls in Hsend. rewrite Hsend.
    unfold turnsStage. rewrite Hm. eexists. split; [reflexivity|].
    match goal with
    | |- context [updateAssistantTurn _ ?u _ _ _ ?w0] =>
        destruct (@own_terminal_update (clock w) u true true false w0 Hg eq_refl)
          as (H1 & H2 & H3 & H4 & H5 & H6)
    end.
    repeat split; try assumption.
    rewrite H5. cbn [turns setTurns setMessage clock].
    rewrite turnsUpdater_trailing_assistant by reflexivity.
    rewrite Ht, Hc, <- app_assoc. reflexivity.
Qed.

Lemma send_without_model_witness :
  let cfg := mkConfig (Some ModeWeb) LevelLow (Some [sampleModel]) (Some "other")
                      (Some 5%Z) (Some 5%Z) [] "" false "" None None
                      "" "" "" "" "" "" "" "" in
  let send := onSend false [] (Some cfg) (fun s => s) (Some "hello") emptyWorld in
  everyAwait (fun op => isScrapeOp op = true) send
  /\ (Url.matchUrls "hello" = [] ->
      exists w',
        send = Return w'
        /\ turns w' =
           (turns emptyWorld
              ++ [userTurnOf "hello" (clock emptyWorld);
                  mkTurn RoleAssistant
                         "Error: Configuration error: No model selected."
                         StError (clock emptyWorld) None])%list
        /\ loading w' = false
        /\ chatStatus w' = Idle
        /\ completionGuard w' = None
        /\ abortControllerRef w' = None).
Proof.
  intros cfg.
  apply (@send_without_model false [] (fun s => s) cfg "hello" emptyWorld).
  - discriminate.
  - reflexivity.
Defined.

Lemma truthy_app_r (a b : string) : JS.truthy b = true -> JS.truthy (a ++ b) = true.
Proof. destruct a; cbn; auto. Qed.

Lemma urlMap_resolves
      (normalizeApiEndpoint : string -> string) (cfg : Config) (host : string) :
  JS.truthy (urlMap normalizeApiEndpoint cfg host) = true <-> hostResolves cfg host.
Proof.
  unfold urlMap, hostResolves, fixedHosts.
  repeat match goal with
         | |- context [String.eqb host ?x] =>
             destruct (String.eqb_spec host x) as [->|?]
         end;
    try (split; [intros _; cbn; tauto | intros _; try reflexivity;
                                        now apply truthy_app_r]).
  - destruct (customEndpoint cfg) eqn:Hc; cbn [JS.truthy].
    + split; [discriminate|]. intros [H|[_ H]]; [|congruence].
      cbn in H. repeat destruct H as [H|H]; try discriminate; contradiction.
    + split; [intros _; right; split; [reflexivity|discriminate]|].
      intros _. now apply truthy_app_r.
  - split; [discriminate|]. intros [H|[H _]]; [|congruence].
    cbn in H. repeat destruct H as [H|H]; try congruence; contradiction.
Qed.

Lemma orElse_empty (s : string) : JS.orElse s "" = s.
Proof. destruct s; reflexivity. Qed.

Lemma chat_mode_prompt (cfg : Config) (pageText webText : string) :
  modeIs cfg ModeWeb = false ->
  modeIs cfg ModePage = false ->
  systemContentOf cfg pageText webText "" = chatPrompt cfg.
Proof.
  intros Hw Hp. unfold systemContentOf, chatPrompt, pageContextString, webContextString.
  now rewrite Hw, Hp.
Qed.

Lemma chatMessages_eq (cfg : Config) (currentTurns : list MessageTurn) (msg : string) :
  ((if negb (String.eqb (JS.trim (chatPrompt cfg)) "")
    then [mkApiMessage ApiSystem (chatPrompt cfg)] else [])
     ++ (map (fun turn => mkApiMessage (turnRoleToApi (role turn))
                                       (JS.orElse (rawContent turn) ""))
             currentTurns
           ++ [mkApiMessage ApiUser msg]))%list
  = chatMessages cfg currentTurns msg.
Proof.
  unfold chatMessages. f_equal.
  - now destruct (String.eqb (JS.trim (chatPrompt cfg)) "").
  - f_equal. apply map_ext. intros turn. now rewrite orElse_empty.
Qed.

Section ChatSend.

Variable isLoading : bool.
Variable currentTurns : list MessageTurn.
Variable normalizeApiEndpoint : string -> string.
Variables (cfg : Config) (m : Model) (msg : string).

Hypothesis msg_nonempty : msg <> "".
Hypothesis no_urls : Url.matchUrls msg = [].
Hypothesis model_found : findModel cfg = Some m.
Hypothesis not_web : modeIs cfg ModeWeb = false.
Hypothesis not_page : modeIs cfg ModePage = false.
Hypothesis low_compute : computeLevel cfg = LevelLow.

(** A chat-mode send on the streaming path, up to the test of the URL. *)
Lemma chat_send_shape (w : World) :
  exists controller wp,
    turns wp = (turns w ++ [userTurnOf msg (clock w);
                            assistantTurnPlaceholder (clock w)])%list
    /\ clock wp = clock w
    /\ completionGuard wp = Some (clock w)
    /\ chatStatus wp = Thinking
    /\ onSend isLoading currentTurns (Some cfg) normalizeApiEndpoint (Some msg) w
       = let host := textOf (model_host m) in
         let url := urlMap normalizeApiEndpoint cfg host in
         if negb (JS.truthy url) then
           Return (updateAssistantTurn (Some (clock w))
                     ("Configuration error: Could not determine API URL for host '"
                        ++ host ++ "'.")
                     true true false wp)
         else
           Await wp (FetchDataAsStream url (textOf (selectedModel cfg))
                                       (chatMessages cfg currentTurns msg)
                                       (streamOnChunk (clock w))
                                       (getAuthHeader cfg m) host controller)
                 (afterDispatch isLoading (clock w) controller).
Proof.
  destruct (@onSend_to_turnsStage isLoading currentTurns normalizeApiEndpoint cfg msg w
              msg_nonempty) as (controller & wp & Ht & Hc & Hg & Hsend).
  rewrite no_urls in Hsend. rewrite Hsend.
  unfold turnsStage. rewrite model_found, not_web.
  unfold contextStage. rewrite not_page.
  unfold dispatchStage. rewrite low_compute. cbv zeta.
  rewrite chat_mode_prompt by assumption.
  rewrite chatMessages_eq.
  exists controller. eexists. split; [|split; [|split; [|split; [|reflexivity]]]].
  - cbn. rewrite Ht, Hc, <- app_assoc. reflexivity.
  - cbn. exact Hc.
  - cbn. exact Hg.
  - reflexivity.
Qed.

End ChatSend.



(* ------------------------------------------------------------------ *)
(** ** Streaming into the trailing turn *)

Lemma own_part_update (callId : Z) (u : string) (w : World) :
  completionGuard w = Some callId ->
  updateAssistantTurn (Some callId) u false false false w
  = setTurns (turnsUpdater (clock w) u false false false) w.
Proof.
  intros Hg. unfold updateAssistantTurn. rewrite Hg. cbn [isNull andb].
  now rewrite optZ_eqb_refl.
Qed.

Lemma lastChunk_cons (c : Z * string) (cs : list (Z * string)) :
  exists chunk, lastChunk (c :: cs) = Some chunk.
Proof.
  revert c. induction cs as [|c' cs IH]; intros c.
  - exists c. reflexivity.
  - destruct (IH c') as [x Hx]. exists x. exact Hx.
Qed.

Lemma deliverParts_active
      (callId : Z) (chunks : list (Z * string)) (w : World)
      (init : list MessageTurn) (t : MessageTurn) :
  completionGuard w = Some callId ->
  turns w = (init ++ [t])%list ->
  role t = RoleAssistant ->
  let w' := deliverParts (streamOnChunk callId) chunks w in
  completionGuard w' = Some callId
  /\ abortControllerRef w' = abortControllerRef w
  /\ controllers w' = controllers w
  /\ loading w' = loading w
  /\ chatStatus w' = chatStatus w
  /\ turns w' =
     (init ++ [match lastChunk chunks with
               | None => t
               | Some chunk =>
                   mkTurn RoleAssistant (snd chunk) StStreaming (fst chunk)
                          (webDisplayContent t)
               end])%list.
Proof.
  revert w t. induction chunks as [|c cs IH]; intros w t Hg Hturns Hr.
  - cbn. repeat split; assumption.
  - cbn [deliverParts fold_left].
    set (w1 := streamOnChunk callId (snd c) (Some false) None (setClock (fst c) w)).
    assert (H1 : w1 = setTurns (turnsUpdater (fst c) (snd c) false false false)
                               (setClock (fst c) w)).
    { unfold w1, streamOnChunk. cbn [jsBoolean]. now rewrite own_part_update. }
    assert (Ht1 : turns w1 = (init ++ [mkTurn RoleAssistant (snd c) StStreaming (fst c)
                                              (webDisplayContent t)])%list).
    { rewrite H1. cbn [turns setTurns setClock].
      rewrite Hturns. now rewrite turnsUpdater_trailing_assistant. }
    assert (Hg1 : completionGuard w1 = Some callId) by (rewrite H1; exact Hg).
    destruct (IH w1 _ Hg1 Ht1 eq_refl) as (G & R & C & L & S & T).
    change (fold_left _ cs _) with (deliverParts (streamOnChunk callId) cs w1).
    assert (Hsame : abortControllerRef w1 = abortControllerRef w
                    /\ controllers w1 = controllers w
                    /\ loading w1 = loading w
                    /\ chatStatus w1 = chatStatus w)
      by (rewrite H1; repeat split).
    destruct Hsame as (R1 & C1 & L1 & S1).
    rewrite G, R, C, L, S, T, R1, C1, L1, S1. repeat split.
    destruct cs as [|c' cs']; [reflexivity|].
    destruct (lastChunk_cons c' cs') as [x Hx].
    change (lastChunk (c :: c' :: cs')) with (lastChunk (c' :: cs')).
    now rewrite Hx.
Qed.

(** X11.  While a send holds the guard slot and the store ends on its
    assistant turn, the unfinished parts its transport reports each replace
    the content of that turn and touch nothing else: the earlier turns, the
    guard slot, the controllers, [loading] and the chat status stay.  A
    finished part after them leaves the turn complete with that part as its
    content, whatever was streamed before; an error after them leaves the
    turn in error with the error text behind [Error: ] and discards what
    was streamed.  Either end empties the guard slot and the abort
    controller ref and puts [loading] to false. *)
Theorem streamed_parts_then_the_end
        (callId : Z) (chunks : list (Z * string)) (endTime : Z) (text : string)
        (w : World) (init : list MessageTurn) (t : MessageTurn) :
  completionGuard w = Some callId ->
  turns w = (init ++ [t])%list ->
  role t = RoleAssistant ->
  let streamed := deliverParts (streamOnChunk callId) chunks w in
  let finished := streamOnChunk callId text (Some true) None (setClock endTime streamed) in
  let failed := streamOnChunk callId text None (Some true) (setClock endTime streamed) in
  (completionGuard streamed = Some callId
   /\ loading streamed = loading w
   /\ chatStatus streamed = chatStatus w
   /\ controllers streamed = controllers w
   /\ exists t', turns streamed = (init ++ [t'])%list
                 /\ (forall chunk, lastChunk chunks = Some chunk ->
                                   rawContent t' = snd chunk /\ status t' = StStreaming))
  /\ (turns finished =
        (init ++ [mkTurn RoleAssistant text StComplete endTime (webDisplayContent t)])%list
      /\ chatStatus finished = Done_
      /\ loading finished = false
      /\ completionGuard finished = None
      /\ abortControllerRef finished = None)
  /\ (turns failed =
        (init ++ [mkTurn RoleAssistant
                         ("Error: " ++ (if JS.truthy text then text
                                        else "Unknown stream/handler error"))
                         StError endTime (webDisplayContent t)])%list
      /\ chatStatus failed = Idle
      /\ loading failed = false
      /\ completionGuard failed = None
      /\ abortControllerRef failed = None).
Proof.
  intros Hg Hturns Hr streamed finished failed.
  destruct (@deliverParts_active callId chunks w init t Hg Hturns Hr)
    as (G & R & C & L & S & T).
  fold streamed in G, R, C, L, S, T.
  set (tl := match lastChunk chunks with
             | Some chunk => mkTurn RoleAssistant (snd chunk) StStreaming (fst chunk)
                                    (webDisplayContent t)
             | None => t
             end) in T.
  assert (Htl : role tl = RoleAssistant /\ webDisplayContent tl = webDisplayContent t)
    by (unfold tl; destruct (lastChunk chunks); split; auto).
  destruct Htl as [Hrl Hwl].
  split; [|split].
  - repeat split; try assumption.
    exists tl. split; [exact T|]. intros chunk Hc. unfold tl. rewrite Hc.
    split; reflexivity.
  - destruct (@own_terminal_update callId text true false false
                (setClock endTime streamed) G eq_refl)
      as (H1 & H2 & H3 & H4 & H5 & H6).
    unfold finished, streamOnChunk. cbn [jsBoolean].
    repeat split; try assumption.
    rewrite H5. cbn [turns clock setClock]. rewrite T.
    rewrite turnsUpdater_trailing_assistant by exact Hrl.
    now rewrite Hwl.
  - destruct (@own_terminal_update callId text false true false
                (setClock endTime streamed) G eq_refl)
      as (H1 & H2 & H3 & H4 & H5 & H6).
    unfold failed, streamOnChunk. cbn [jsBoolean].
    repeat split; try assumption.
    rewrite H5. cbn [turns clock setClock]. rewrite T.
    rewrite turnsUpdater_trailing_assistant by exact Hrl.
    now rewrite Hwl.
Qed.

Lemma streamed_parts_then_the_end_witness :
  let w := exposedWorld firstSend in
  let init := [mkTurn RoleUser "first question" StComplete 100 None] in
  let t := mkTurn RoleAssistant "" StStreaming 101 None in
  let chunks := [(110, "He"); (120, "Hello")]%Z in
  let streamed := deliverParts (streamOnChunk 100) chunks w in
  let finished := streamOnChunk 100 "Hello!" (Some true) None (setClock 130 streamed) in
  let failed := streamOnChunk 100 "Hello!" None (Some true) (setClock 130 streamed) in
  (completionGuard streamed = Some 100%Z
   /\ loading streamed = loading w
   /\ chatStatus streamed = chatStatus w
   /\ controllers streamed = controllers w
   /\ exists t', turns streamed = (init ++ [t'])%list
                 /\ (forall chunk, lastChunk chunks = Some chunk ->
                                   rawContent t' = snd chunk /\ status t' = StStreaming))
  /\ (turns finished =
        (init ++ [mkTurn RoleAssistant "Hello!" StComplete 130 (webDisplayContent t)])%list
      /\ chatStatus finished = Done_
      /\ loading finished = false
      /\ completionGuard finished = None
      /\ abortControllerRef finished = None)
  /\ (turns failed =
        (init ++ [mkTurn RoleAssistant
                         ("Error: " ++ (if JS.truthy "Hello!" then "Hello!"
                                        else "Unknown stream/handler error"))
                         StError 130 (webDisplayContent t)])%list
      /\ chatStatus failed = Idle
      /\ loading failed = false
      /\ completionGuard failed = None
      /\ abortControllerRef failed = None).
Proof.
  intros w init t chunks.
  apply (@streamed_parts_then_the_end 100%Z chunks 130%Z "Hello!" w init t);
    reflexivity.
Defined.

(** X12.  A chat-mode send on the streaming path whose host has an endpoint,
    followed by the parts its transport reports through the closure the send
    gave it and by a finished part, leaves the store it found extended by
    the user turn and one complete assistant turn whose content is the
    finished part; [loading] is false, the chat status done, the guard slot
    and the abort controller ref empty, and when the transport call is then
    fulfilled the send returns without changing anything. *)
Theorem chat_send_streams_to_completion
        (isLoading : bool) (currentTurns : list MessageTurn)
        (normalizeApiEndpoint : string -> string)
        (cfg : Config) (m : Model) (host : string) (msg : string) (w : World)
        (chunks : list (Z * string)) (endTime : Z) (final : string) :
  msg <> "" ->
  Url.matchUrls msg = [] ->
  findModel cfg = Some m ->
  model_host m = Some host ->
  modeIs cfg ModeWeb = false ->
  modeIs cfg ModePage = false ->
  computeLevel cfg = LevelLow ->
  hostResolves cfg host ->
  let send := onSend isLoading currentTurns (Some cfg) normalizeApiEndpoint (Some msg) w in
  let onChunk := streamCallbackOf send in
  let w' := onChunk final (Some true) None
              (setClock endTime (deliverParts onChunk chunks (exposedWorld send))) in
  turns w' = (turns w ++ [userTurnOf msg (clock w);
                          mkTurn RoleAssistant final StComplete endTime None])%list
  /\ loading w' = false
  /\ chatStatus w' = Done_
  /\ completionGuard w' = None
  /\ abortControllerRef w' = None
  /\ resumeWith allFulfilled send w' = Return w'.
Proof.
  intros Hmsg Hurls Hm Hhost Hweb Hpage Hlow Hres send onChunk w'.
  destruct (@chat_send_shape isLoading currentTurns normalizeApiEndpoint cfg m msg
              Hmsg Hurls Hm Hweb Hpage Hlow w)
    as (controller & wp & Ht & Hc & Hg & Hs & Hsend).
  fold send in Hsend. cbv zeta in Hsend.
  rewrite Hhost in Hsend. cbn [textOf] in Hsend.
  apply (urlMap_resolves normalizeApiEndpoint) in Hres.
  rewrite Hres in Hsend. cbn [negb] in Hsend.
  unfold w', onChunk. rewrite Hsend. cbn [streamCallbackOf exposedWorld resumeWith].
  assert (Hturns : turns wp = ((turns w ++ [userTurnOf msg (clock w)])
                                 ++ [assistantTurnPlaceholder (clock w)])%list)
    by (rewrite Ht; now rewrite <- app_assoc).
  destruct (@deliverParts_active (clock w) chunks wp _ _ Hg Hturns eq_refl)
    as (G & R & C & L & S & T).
  set (streamed := deliverParts (streamOnChunk (clock w)) chunks wp) in *.
  set (tl := match lastChunk chunks with
             | Some chunk => _
             | None => assistantTurnPlaceholder (clock w)
             end) in T.
  assert (Htl : role tl = RoleAssistant /\ webDisplayContent tl = None)
    by (unfold tl; destruct (lastChunk chunks); split; auto).
  destruct Htl as [Hrl Hwl].
  destruct (@own_terminal_update (clock w) final true false false
              (setClock endTime streamed) G eq_refl)
    as (H1 & H2 & H3 & H4 & H5 & H6).
  unfold streamOnChunk at 1. cbn [jsBoolean].
  repeat split; try assumption.
  rewrite H5. cbn [turns clock setClock]. rewrite T.
  rewrite turnsUpdater_trailing_assistant by exact Hrl.
  rewrite Hwl, <- app_assoc. reflexivity.
Qed.

Lemma chat_send_streams_to_completion_witness :
  let send := onSend false [] (Some (sampleConfig ModeChat)) (fun s => s)
                     (Some "first question") (setClock 100 emptyWorld) in
  let onChunk := streamCallbackOf send in
  let w' := onChunk "Hello!" (Some true) None
              (setClock 130 (deliverParts onChunk [(110, "He"); (120, "Hello")]%Z
                                          (exposedWorld send))) in
  turns w' = (turns (setClock 100 emptyWorld)
                ++ [userTurnOf "first question" 100;
                    mkTurn RoleAssistant "Hello!" StComplete 130 None])%list
  /\ loading w' = false
  /\ chatStatus w' = Done_
  /\ completionGuard w' = None
  /\ abortControllerRef w' = None
  /\ resumeWith allFulfilled send w' = Return w'.
Proof.
  apply (@chat_send_streams_to_completion false [] (fun s => s) (sampleConfig ModeChat)
           sampleModel "openai" "first question" (setClock 100 emptyWorld)
           [(110, "He"); (120, "Hello")]%Z 130%Z "Hello!");
    try reflexivity.
  - discriminate.
  - left. cbn. tauto.
Defined.

(* ------------------------------------------------------------------ *)
(** ** A send whose controller was aborted, and a strategy that fails *)

(** X13.  A send that is resumed after its controller was aborted (by
    [onStop] or by a later send) goes quiet.  Resumed from the web search,
    fulfilled or rejected, it returns at once and leaves the turns, the
    guard slot, the abort controller ref, the controllers and [loading] as
    they are.  Resumed from a rejected strategy it returns too; it leaves
    the turns and the controllers, puts the chat status to idle, empties the
    guard slot only if the slot still holds its own token and the ref only
    if the ref still holds its own controller, and puts [loading] to false
    only if the hook was created in a render that was loading. *)
Theorem an_aborted_send_goes_quiet
        (isLoading : bool) (currentTurns : list MessageTurn)
        (normalizeApiEndpoint : string -> string)
        (cfg : Config) (callId : Z) (controller : Controller) (w : World) :
  signalAborted controller w = true ->
  (forall msg m auth scraped query display r,
      exists w',
        afterWebSearch isLoading currentTurns normalizeApiEndpoint cfg callId
                       controller msg m auth scraped query display r w
        = Return w'
        /\ turns w' = turns w
        /\ sameControl w w')
  /\ (forall e,
        let w' := dispatchCatch isLoading callId controller e w in
        afterDispatch isLoading callId controller (Rejected e) w = Return w'
        /\ turns w' = turns w
        /\ controllers w' = controllers w
        /\ chatStatus w' = Idle
        /\ completionGuard w' =
           (if optZ_eqb (completionGuard w) (Some callId) then None
            else completionGuard w)
        /\ abortControllerRef w' =
           (match abortControllerRef w with
            | Some c => if Nat.eqb c controller then None else Some c
            | None => None
            end)
        /\ loading w' = (if isLoading then false else loading w)).
Proof.
  intros Hab. split.
  - intros msg m auth scraped query display r. unfold afterWebSearch.
    destruct r as [searchRes|e].
    + replace (signalAborted controller (setChatStatus Thinking w)) with true
        by (symmetry; exact Hab).
      eexists. split; [reflexivity|]. repeat split.
    + rewrite Hab, orb_true_r. eexists. split; [reflexivity|]. repeat split.
  - intros e. cbv zeta. unfold afterDispatch, dispatchCatch. rewrite Hab.
    split; [reflexivity|].
    destruct isLoading; cbn [completionGuard setChatStatus setLoading];
      destruct (optZ_eqb (completionGuard w) (Some callId));
      cbn [abortControllerRef setGuard setChatStatus setLoading];
      (destruct (abortControllerRef w) as [c|] eqn:Href;
       [destruct (Nat.eqb c controller)|]);
      cbn; rewrite ?Href; repeat split.
Qed.

Lemma an_aborted_send_goes_quiet_witness :
  let w := exposedWorld secondSend in
  let cfg := sampleConfig ModeWeb in
  (forall msg m auth scraped query display r,
      exists w',
        afterWebSearch false [] (fun s => s) cfg 100 0 msg m auth scraped query display r w
        = Return w'
        /\ turns w' = turns w
        /\ sameControl w w')
  /\ (forall e,
        let w' := dispatchCatch false 100 0 e w in
        afterDispatch false 100 0 (Rejected e) w = Return w'
        /\ turns w' = turns w
        /\ controllers w' = controllers w
        /\ chatStatus w' = Idle
        /\ completionGuard w' =
           (if optZ_eqb (completionGuard w) (Some 100%Z) then None
            else completionGuard w)
        /\ abortControllerRef w' =
           (match abortControllerRef w with
            | Some c => if Nat.eqb c 0 then None else Some c
            | None => None
            end)
        /\ loading w' = (if false then false else loading w)).
Proof.
  intros w cfg.
  apply (@an_aborted_send_goes_quiet false [] (fun s => s) cfg 100%Z 0 w).
  reflexivity.
Defined.

(** X14.  When the strategy of a send is rejected and the controller of the
    send has not been aborted, the send closes the trailing assistant turn
    as an error: if the send still holds the guard slot, the content of the
    turn becomes [Error: ] followed by the message of the error (or by
    [Unknown stream/handler error] when that message is empty), whatever
    had been streamed; the earlier turns stay, [loading] is false, the chat
    status idle, the guard slot and the abort controller ref empty. *)
Theorem a_rejected_strategy_closes_the_turn
        (isLoading : bool) (callId : Z) (controller : Controller) (e : Thrown)
        (w : World) (init : list MessageTurn) (t : MessageTurn) :
  signalAborted controller w = false ->
  completionGuard w = Some callId ->
  turns w = (init ++ [t])%list ->
  role t = RoleAssistant ->
  exists w',
    afterDispatch isLoading callId controller (Rejected e) w = Return w'
    /\ turns w' =
       (init ++ [mkTurn RoleAssistant
                        ("Error: " ++ (if JS.truthy (messageOrString e)
                                       then messageOrString e
                                       else "Unknown stream/handler error"))
                        StError (clock w) (webDisplayContent t)])%list
    /\ loading w' = false
    /\ chatStatus w' = Idle
    /\ completionGuard w' = None
    /\ abortControllerRef w' = None.
Proof.
  intros Hab Hg Hturns Hr. unfold afterDispatch, dispatchCatch. rewrite Hab.
  eexists. split; [reflexivity|].
  destruct (@own_terminal_update callId (messageOrString e) true true false w Hg eq_refl)
    as (H1 & H2 & H3 & H4 & H5 & H6).
  repeat split; try assumption.
  rewrite H5, Hturns. now rewrite turnsUpdater_trailing_assistant.
Qed.

Lemma a_rejected_strategy_closes_the_turn_witness :
  let w := exposedWorld firstSend in
  let e := ThrownError "TypeError" "Failed to fetch" in
  exists w',
    afterDispatch false 100 0 (Rejected e) w = Return w'
    /\ turns w' =
       ([mkTurn RoleUser "first question" StComplete 100 None]
          ++ [mkTurn RoleAssistant
                     ("Error: " ++ (if JS.truthy (messageOrString e)
                                    then messageOrString e
                                    else "Unknown stream/handler error"))
                     StError (clock w) None])%list
    /\ loading w' = false
    /\ chatStatus w' = Idle
    /\ completionGuard w' = None
    /\ abortControllerRef w' = None.
Proof.
  intros w e.
  apply (@a_rejected_strategy_closes_the_turn false 100%Z 0 e w
           [mkTurn RoleUser "first question" StComplete 100 None]
           (mkTurn RoleAssistant "" StStreaming 101 None));
    reflexivity.
Defined.

(* ------------------------------------------------------------------ *)
(** ** The URLs found in a message *)

Lemma startsWith_split (s p : string) :
  JS.startsWith s p = true -> s = p ++ Url.drop (String.length p) s.
Proof.
  revert s. induction p as [|a p IH]; intros s H.
  - reflexivity.
  - destruct s as [|b s]; [discriminate|]. cbn in H.
    apply andb_prop in H. destruct H as [Hab Hs].
    apply Ascii.eqb_eq in Hab. subst b. cbn. f_equal. now apply IH.
Qed.

Lemma startsWith_app_same (p r t : string) :
  JS.startsWith (p ++ r) (p ++ t) = JS.startsWith r t.
Proof.
  induction p as [|a p IH]; cbn; [reflexivity|].
  now rewrite Ascii.eqb_refl.
Qed.

Lemma startsWith_app_l (p t : string) : JS.startsWith (p ++ t) p = true.
Proof. apply startsWith_refl_app. Qed.

Lemma takeNonSpace_prefix (s : string) : JS.startsWith s (Url.takeNonSpace s) = true.
Proof.
  induction s as [|c s IH]; cbn; [reflexivity|].
  destruct (JS.isWhiteSpace c); cbn; [reflexivity|].
  now rewrite Ascii.eqb_refl.
Qed.

Lemma takeNonSpace_clean (s : string) : noWhiteSpace (Url.takeNonSpace s) = true.
Proof.
  induction s as [|c s IH]; cbn; [reflexivity|].
  destruct (JS.isWhiteSpace c) eqn:Hc; cbn; [reflexivity|].
  unfold noWhiteSpace in IH. now rewrite Hc, IH.
Qed.

Lemma allChars_app (p : ascii -> bool) (a b : string) :
  allChars p (a ++ b) = allChars p a && allChars p b.
Proof.
  induction a as [|c a IH]; cbn; [reflexivity|].
  now rewrite IH, andb_assoc.
Qed.

Lemma length_append (a b : string) :
  String.length (a ++ b) = (String.length a + String.length b)%nat.
Proof. induction a as [|c a IH]; cbn; [reflexivity|]. now rewrite IH. Qed.

Lemma includes_of_prefix (s u : string) :
  JS.startsWith s u = true -> JS.includes s u = true.
Proof. intros H. destruct s; cbn in *; now rewrite H. Qed.

Lemma includes_tail (c : ascii) (s u : string) :
  JS.includes s u = true -> JS.includes (String c s) u = true.
Proof. intros H. cbn. rewrite H. apply orb_true_r. Qed.

Lemma urlAt_sound (s u : string) :
  Url.urlAt s = Some u -> JS.startsWith s u = true /\ wellFormedUrl u.
Proof.
  unfold Url.urlAt.
  destruct (JS.startsWith s "https://") eqn:H1;
    [|destruct (JS.startsWith s "http://") eqn:H2; [|discriminate]].
  - destruct (Url.takeNonSpace (Url.drop (String.length "https://") s)) as [|c b] eqn:Hb;
      [discriminate|].
    intros H. injection H as <-.
    pose proof (startsWith_split _ _ H1) as Hs.
    pose proof (takeNonSpace_prefix (Url.drop (String.length "https://") s)) as Hp.
    pose proof (takeNonSpace_clean (Url.drop (String.length "https://") s)) as Hc.
    rewrite Hb in Hp, Hc. split.
    + rewrite Hs at 1.
      change (JS.startsWith ("https://" ++ Url.drop (String.length "https://") s)
                            ("https://" ++ String c b) = true).
      now rewrite startsWith_app_same.
    + split.
      * exists (String c b). split; [discriminate|]. now right.
      * unfold noWhiteSpace in *. cbn. exact Hc.
  - destruct (Url.takeNonSpace (Url.drop (String.length "http://") s)) as [|c b] eqn:Hb;
      [discriminate|].
    intros H. injection H as <-.
    pose proof (startsWith_split _ _ H2) as Hs.
    pose proof (takeNonSpace_prefix (Url.drop (String.length "http://") s)) as Hp.
    pose proof (takeNonSpace_clean (Url.drop (String.length "http://") s)) as Hc.
    rewrite Hb in Hp, Hc. split.
    + rewrite Hs at 1.
      change (JS.startsWith ("http://" ++ Url.drop (String.length "http://") s)
                            ("http://" ++ String c b) = true).
      now rewrite startsWith_app_same.
    + split.
      * exists (String c b). split; [discriminate|]. now left.
      * unfold noWhiteSpace in *. cbn. exact Hc.
Qed.

Lemma scan_sound (s : string) (skip : nat) :
  Forall (fun u => JS.includes s u = true /\ wellFormedUrl u) (Url.scan s skip).
Proof.
  revert skip. induction s as [|c s IH]; intros skip; cbn [Url.scan].
  - constructor.
  - assert (Hweak : forall k,
               Forall (fun u => JS.includes (String c s) u = true /\ wellFormedUrl u)
                      (Url.scan s k)).
    { intros k. eapply Forall_impl; [|apply IH].
      intros u [Hi Hw]. split; [now apply includes_tail | exact Hw]. }
    destruct skip as [|k]; [|apply Hweak].
    destruct (Url.urlAt (String c s)) as [u|] eqn:Hu; [|apply Hweak].
    destruct (urlAt_sound _ Hu) as [Hp Hw].
    constructor; [|apply Hweak].
    split; [now apply includes_of_prefix | exact Hw].
Qed.

Lemma startsWith_longer (s p q : string) :
  JS.startsWith s (p ++ q) = true -> JS.startsWith s p = true.
Proof.
  revert s. induction p as [|a p IH]; intros s H; [now destruct s|].
  destruct s as [|b s]; [discriminate|]. cbn in *.
  apply andb_prop in H. destruct H as [H1 H2]. rewrite H1. now apply IH.
Qed.

Lemma scan_without_scheme (s : string) (skip : nat) :
  JS.includes s "http" = false -> Url.scan s skip = [].
Proof.
  revert skip. induction s as [|c s IH]; intros skip H; [reflexivity|].
  cbn [JS.includes] in H. apply orb_false_elim in H. destruct H as [Hp Hi].
  cbn [Url.scan]. destruct skip as [|k]; [|now apply IH].
  assert (Hn : Url.urlAt (String c s) = None).
  { unfold Url.urlAt.
    destruct (JS.startsWith (String c s) "https://") eqn:H1.
    - apply (startsWith_longer _ "http" "s://") in H1. congruence.
    - destruct (JS.startsWith (String c s) "http://") eqn:H2; [|reflexivity].
      apply (startsWith_longer _ "http" "://") in H2. congruence. }
  rewrite Hn. now apply IH.
Qed.

(** X15.  Every URL that [onSend] finds in a message is a piece of the
    message, begins with [http://] or [https://] followed by at least one
    more character, and holds no white space; a message in which [http]
    does not occur has no URL, and a message that is itself one well-formed
    URL is found whole. *)
Theorem matched_urls_are_well_formed (msg : string) :
  Forall (fun u => JS.includes msg u = true /\ wellFormedUrl u) (Url.matchUrls msg)
  /\ (JS.includes msg "http" = false -> Url.matchUrls msg = [])
  /\ (wellFormedUrl msg -> Url.matchUrls msg = [msg]).
Proof.
  split; [apply scan_sound|]. split; [apply scan_without_scheme|].
  intros [(body & Hb & Hu) Hclean].
  (* a string without white space is consumed whole *)
  assert (Htake : forall s, noWhiteSpace s = true -> Url.takeNonSpace s = s).
  { induction s as [|c s IH]; cbn; [reflexivity|]. unfold noWhiteSpace. cbn.
    intros H. apply andb_prop in H. destruct H as [Hc Hs].
    destruct (JS.isWhiteSpace c); [discriminate|]. f_equal. now apply IH. }
  (* nothing is left to scan after the match *)
  assert (Hskip : forall s k, (String.length s <= k)%nat -> Url.scan s k = []).
  { induction s as [|c s IH]; intros k Hk; [reflexivity|].
    cbn in Hk. destruct k as [|k]; [lia|]. cbn. apply IH. lia. }
  assert (Hbody : noWhiteSpace body = true).
  { unfold noWhiteSpace in *.
    destruct Hu as [-> | ->]; rewrite allChars_app in Hclean;
      apply andb_prop in Hclean; tauto. }
  assert (Hat : Url.urlAt msg = Some msg).
  { unfold Url.urlAt. destruct body as [|c b]; [congruence|].
    destruct Hu as [-> | ->];
      cbn -[Url.takeNonSpace]; now rewrite (Htake (String c b) Hbody). }
  unfold Url.matchUrls.
  destruct msg as [|c s]; [destruct Hu as [Hu|Hu]; discriminate|].
  cbn [Url.scan]. rewrite Hat. f_equal. apply Hskip. cbn. lia.
Qed.

(* ------------------------------------------------------------------ *)
(** ** The statement about the user *)

Lemma append_nonempty_l (a b : string) : a <> "" -> a ++ b <> "".
Proof. destruct a; cbn; congruence. Qed.

Lemma truthy_eqb_empty (s : string) : JS.truthy s = negb (String.eqb s "").
Proof. destruct s; reflexivity. Qed.

(** X16.  The statement about the user leaves out a user name that is
    missing, blank or the word [user] in any letter case: the statement is
    then the same as with no name at all.  The statement is empty, and so
    missing from the system prompt, exactly when the name is of that kind
    and the profile is missing or blank. *)
Theorem user_statement_ignores_the_name_user (cfg : Config) :
  (anonymousName (userName cfg) = true ->
   userContextStatement cfg = userContextStatement (withUser None (userProfile cfg) cfg))
  /\ (userContextStatement cfg = ""
      <-> anonymousName (userName cfg) = true
           /\ JS.trim (textOf (userProfile cfg)) = "").
Proof.
  unfold userContextStatement, anonymousName, withUser. cbn [userName userProfile].
  assert (Hname : forall o : option string,
             truthyOpt (option_map JS.trim o)
             = negb (String.eqb (JS.trim (textOf o)) "")
             /\ textOf (option_map JS.trim o)
                = JS.trim (textOf o)).
  { intros [s|]; cbn; [|split; reflexivity]. split; [apply truthy_eqb_empty|reflexivity]. }
  destruct (Hname (userName cfg)) as [Hn1 Hn2].
  destruct (Hname (userProfile cfg)) as [Hp1 Hp2].
  rewrite Hn1, Hn2, Hp1, Hp2. cbn [option_map truthyOpt andb].
  set (n := JS.trim (textOf (userName cfg))).
  set (p := JS.trim (textOf (userProfile cfg))).
  destruct (String.eqb_spec n "") as [Hn|Hn]; cbn [negb andb orb].
  - split; [reflexivity|].
    destruct (String.eqb_spec p "") as [Hp|Hp]; cbn [negb].
    + tauto.
    + split; [discriminate|]. tauto.
  - rewrite andb_true_r.
    destruct (String.eqb (JS.toLowerCase n) "user"); cbn [negb].
    + split; [reflexivity|].
      destruct (String.eqb_spec p "") as [Hp|Hp]; cbn [negb].
      * tauto.
      * split; [discriminate|]. tauto.
    + split; [discriminate|]. split; [|intros [H _]; discriminate].
      destruct (negb (String.eqb p "")); discriminate.
Qed.

(* ------------------------------------------------------------------ *)
(** ** The stages of a web-mode send *)

Lemma trim_empty : JS.trim "" = "".
Proof. reflexivity. Qed.



(** X17.  A web-mode send with a model, once its turn pair is in the store,
    awaits the query optimizer with the message and the history, then the
    web search.  The query it searches for is the answer of the optimizer
    when that answer is not blank, and the message itself when the answer
    is blank or the optimizer fails; so a message that is not blank is
    never searched for with a blank query. *)
Theorem web_send_optimizes_then_searches
        (isLoading : bool) (currentTurns : list MessageTurn)
        (normalizeApiEndpoint : string -> string)
        (cfg : Config) (m : Model) (msg : string) (w : World) :
  msg <> "" ->
  Url.matchUrls msg = [] ->
  modeIs cfg ModeWeb = true ->
  findModel cfg = Some m ->
  exists controller w1 k1,
    onSend isLoading currentTurns (Some cfg) normalizeApiEndpoint (Some msg) w
    = Await w1
        (ProcessQueryWithAI msg cfg m (getAuthHeader cfg m) controller
           (map (fun turn => mkApiMessage (turnRoleToApi (role turn)) (rawContent turn))
                currentTurns))
        k1
    /\ turns w1 = (turns w ++ [userTurnOf msg (clock w);
                               assistantTurnPlaceholder (clock w)])%list
    /\ forall r w2,
         (exists k2,
             k1 r w2 = Await (setChatStatus Searching w2)
                             (WebSearch (searchedQuery msg r) cfg controller) k2)
         /\ (JS.trim msg <> "" -> JS.trim (searchedQuery msg r) <> "").
Proof.
  intros Hmsg Hurls Hweb Hm.
  destruct (@onSend_to_turnsStage isLoading currentTurns normalizeApiEndpoint cfg msg w Hmsg)
    as (controller & wp & Ht & Hc & Hg & Hsend).
  rewrite Hurls in Hsend. rewrite Hsend.
  unfold turnsStage. rewrite Hm, Hweb. unfold optimizeStage.
  exists controller. do 2 eexists. split; [reflexivity|]. split.
  - cbn. rewrite Ht, Hc, <- app_assoc. reflexivity.
  - intros r w2. split.
    + destruct r as [o|e]; cbn [searchedQuery]; [|eexists; reflexivity].
      destruct (String.eqb_spec (JS.trim o) "") as [Hblank|Hfull].
      * rewrite Hblank. cbn [JS.truthy andb].
        rewrite andb_false_r. cbn [andb]. eexists. reflexivity.
      * assert (Ho : JS.truthy o = true) by (destruct o; [contradiction|reflexivity]).
        assert (Hto : JS.truthy (JS.trim o) = true) by now apply truthy_nonempty.
        rewrite Ho, Hto. cbn [andb].
        destruct (String.eqb_spec o msg) as [->|Hne]; cbn [negb];
          eexists; reflexivity.
    + intros Hnb. destruct r as [o|e]; cbn [searchedQuery]; [|exact Hnb].
      destruct (String.eqb_spec (JS.trim o) "") as [Hblank|Hfull]; assumption.
Qed.

Lemma web_send_optimizes_then_searches_witness :
  exists controller w1 k1,
    onSend false [] (Some (sampleConfig ModeWeb)) (fun s => s) (Some "weather today")
           emptyWorld
    = Await w1
        (ProcessQueryWithAI "weather today" (sampleConfig ModeWeb) sampleModel
           (getAuthHeader (sampleConfig ModeWeb) sampleModel) controller
           (map (fun turn => mkApiMessage (turnRoleToApi (role turn)) (rawContent turn))
                []))
        k1
    /\ turns w1 = (turns emptyWorld
                     ++ [userTurnOf "weather today" (clock emptyWorld);
                         assistantTurnPlaceholder (clock emptyWorld)])%list
    /\ forall r w2,
         (exists k2,
             k1 r w2 = Await (setChatStatus Searching w2)
                             (WebSearch (searchedQuery "weather today" r)
                                        (sampleConfig ModeWeb) controller) k2)
         /\ (JS.trim "weather today" <> "" ->
             JS.trim (searchedQuery "weather today" r) <> "").
Proof.
  apply (@web_send_optimizes_then_searches false [] (fun s => s) (sampleConfig ModeWeb)
           sampleModel "weather today" emptyWorld);
    try reflexivity.
  discriminate.
Defined.



(* ------------------------------------------------------------------ *)
(** ** Failures of the stages before the strategy *)

Section ReachesStrategy.

Variable isLoading : bool.
Variable currentTurns : list MessageTurn.
Variable normalizeApiEndpoint : string -> string.
Variables (cfg : Config) (m : Model) (callId : Z) (controller : Controller) (msg : string).

Hypothesis can_dispatch : canDispatch cfg m.

Lemma dispatchStage_reaches
      (messageToUse : string) (auth : option string) (prompt : string) (w : World) :
  reachesStrategy (dispatchStage isLoading currentTurns normalizeApiEndpoint cfg callId
                                 controller msg messageToUse m auth prompt w).
Proof.
  unfold dispatchStage. unfold canDispatch, computeLevelIsLow in can_dispatch.
  destruct (computeLevel cfg); try exact I.
  destruct can_dispatch as [H|H]; [discriminate|].
  apply (urlMap_resolves normalizeApiEndpoint) in H. rewrite H. exact I.
Qed.

Lemma contextStage_reaches
      (messageToUse : string) (auth : option string)
      (scraped searchRes : string) (w : World) :
  reachesStrategy (contextStage isLoading currentTurns normalizeApiEndpoint cfg callId
                                controller msg messageToUse m auth scraped searchRes w).
Proof.
  unfold contextStage, finishPage.
  destruct (modeIs cfg ModePage); [|apply dispatchStage_reaches].
  intros [tab|e] w1; [|apply dispatchStage_reaches].
  destruct (JS.truthy _ && negb _); [|apply dispatchStage_reaches].
  destruct (isPdfUrl _ _); intros [x|e] w2; apply dispatchStage_reaches.
Qed.

End ReachesStrategy.

(** X19.  In chat mode and in page mode no failure of an early stage ends a
    send: if a model is selected and the send has a strategy to run (high or
    medium compute, or a host with an endpoint), then whatever the URL
    scrape, the tab query, the PDF extraction and the storage read yield,
    fulfilled or rejected, and whatever happens while the send is suspended,
    the send comes to await its strategy. *)
Theorem stage_failures_do_not_end_the_send
        (isLoading : bool) (currentTurns : list MessageTurn)
        (normalizeApiEndpoint : string -> string)
        (cfg : Config) (m : Model) (msg : string) (w : World) :
  msg <> "" ->
  findModel cfg = Some m ->
  modeIs cfg ModeWeb = false ->
  canDispatch cfg m ->
  reachesStrategy
    (onSend isLoading currentTurns (Some cfg) normalizeApiEndpoint (Some msg) w).
Proof.
  intros Hmsg Hm Hweb Hcan.
  destruct (@onSend_to_turnsStage isLoading currentTurns normalizeApiEndpoint cfg msg w Hmsg)
    as (controller & wp & _ & _ & _ & Hsend).
  assert (Hstage : forall scraped w0,
             reachesStrategy
               (turnsStage isLoading currentTurns normalizeApiEndpoint cfg (clock w)
                           controller msg scraped w0)).
  { intros scraped w0. unfold turnsStage. rewrite Hm, Hweb.
    now apply contextStage_reaches. }
  destruct (Url.matchUrls msg) as [|url urls].
  - rewrite Hsend. apply Hstage.
  - destruct Hsend as (k & -> & Hk). cbn.
    intros r w2. destruct (Hk r w2) as [scraped ->]. apply Hstage.
Qed.

Lemma stage_failures_do_not_end_the_send_witness :
  reachesStrategy
    (onSend false [] (Some (sampleConfig ModePage)) (fun s => s)
            (Some "read http://a.io please") emptyWorld).
Proof.
  apply (@stage_failures_do_not_end_the_send false [] (fun s => s)
           (sampleConfig ModePage) sampleModel "read http://a.io please" emptyWorld).
  - discriminate.
  - reflexivity.
  - reflexivity.
  - right. left. cbn. tauto.
Defined.

(** X20.  With the compute level high or medium, outside page mode, what a
    send has gathered does not reach its strategy and leaves no trace in the
    hook: the send continues in exactly the same way whatever the web search
    returned, and, outside web mode, whatever the scrape of its URLs
    returned.  (The strategies receive the query, the history, the config,
    the model and the header, not the system prompt.) *)
Theorem multi_step_strategies_ignore_the_gathered_context
        (isLoading : bool) (currentTurns : list MessageTurn)
        (normalizeApiEndpoint : string -> string)
        (cfg : Config) (callId : Z) (controller : Controller)
        (msg : string) (m : Model) (auth : option string) (w : World) :
  computeLevelIsLow cfg = false ->
  modeIs cfg ModePage = false ->
  (forall scraped query display searchRes1 searchRes2,
      afterWebSearch isLoading currentTurns normalizeApiEndpoint cfg callId controller
                     msg m auth scraped query display (Fulfilled searchRes1) w
      = afterWebSearch isLoading currentTurns normalizeApiEndpoint cfg callId controller
                       msg m auth scraped query display (Fulfilled searchRes2) w)
  /\ (modeIs cfg ModeWeb = false ->
      forall scraped1 scraped2,
        turnsStage isLoading currentTurns normalizeApiEndpoint cfg callId controller
                   msg scraped1 w
        = turnsStage isLoading currentTurns normalizeApiEndpoint cfg callId controller
                     msg scraped2 w).
Proof.
  intros Hlevel Hpage. unfold computeLevelIsLow in Hlevel. split.
  - intros scraped query display r1 r2. unfold afterWebSearch.
    destruct (signalAborted controller _); [reflexivity|].
    unfold contextStage, dispatchStage. rewrite Hpage.
    destruct (computeLevel cfg); [discriminate| |]; reflexivity.
  - intros Hweb s1 s2. unfold turnsStage.
    destruct (findModel cfg) as [m'|]; [|reflexivity]. rewrite Hweb.
    unfold contextStage, dispatchStage. rewrite Hpage.
    destruct (computeLevel cfg); [discriminate| |]; reflexivity.
Qed.

Lemma multi_step_strategies_ignore_the_gathered_context_witness :
  let cfg := mkConfig (Some ModeWeb) LevelHigh (Some [sampleModel]) (Some "m1")
                      (Some 5%Z) (Some 5%Z) [] "" false "" None None
                      "" "" "" "" "" "" "" "" in
  let w := exposedWorld firstSend in
  (forall scraped query display searchRes1 searchRes2,
      afterWebSearch false [] (fun s => s) cfg 100 0
                     "weather" sampleModel None scraped query display
                     (Fulfilled searchRes1) w
      = afterWebSearch false [] (fun s => s) cfg 100 0
                       "weather" sampleModel None scraped query display
                       (Fulfilled searchRes2) w)
  /\ (modeIs cfg ModeWeb = false ->
      forall scraped1 scraped2,
        turnsStage false [] (fun s => s) cfg 100 0 "weather" scraped1 w
        = turnsStage false [] (fun s => s) cfg 100 0 "weather" scraped2 w).
Proof.
  intros cfg w.
  apply (@multi_step_strategies_ignore_the_gathered_context false [] (fun s => s) cfg
           100%Z 0 "weather" sampleModel None w);
    reflexivity.
Defined.

(* ------------------------------------------------------------------ *)
(** ** The input box *)

(** X21.  The input box never sends a blank message and never sends while a
    reply is loading: a click on the send button or a key calls [onSend]
    only when nothing is loading and the message has more than white space,
    and a key does so only when it is Enter without Alt, Meta or Shift.
    While loading a click requests a stop and a key does nothing.  The send
    button is disabled exactly when a click on it would do nothing. *)
Theorem input_box_sends_only_real_messages
        (isLoading : bool) (message : string) (event : InputBox.KeyboardEvent) :
  (In InputBox.CallOnSend (InputBox.handleSendClick isLoading message)
   <-> isLoading = false /\ JS.trim message <> "")
  /\ (In InputBox.CallOnSend (InputBox.handleTextareaKeyDown isLoading message event)
      <-> isLoading = false /\ JS.trim message <> ""
          /\ InputBox.key event = "Enter"
          /\ InputBox.altKey event = false
          /\ InputBox.metaKey event = false
          /\ InputBox.shiftKey event = false)
  /\ (In InputBox.CallOnStopRequest (InputBox.handleSendClick isLoading message)
      <-> isLoading = true)
  /\ ~ In InputBox.CallOnStopRequest
          (InputBox.handleTextareaKeyDown isLoading message event)
  /\ (InputBox.sendButtonDisabled isLoading message = true
      <-> InputBox.handleSendClick isLoading message = []).
Proof.
  unfold InputBox.handleSendClick, InputBox.handleTextareaKeyDown,
    InputBox.sendButtonDisabled.
  rewrite truthy_eqb_empty.
  destruct (String.eqb_spec (JS.trim message) "") as [Ht|Ht];
    destruct (String.eqb_spec (InputBox.key event) "Enter") as [Hk|Hk];
    destruct isLoading, (InputBox.altKey event), (InputBox.metaKey event),
      (InputBox.shiftKey event);
    cbn; repeat split; try tauto; try discriminate; try congruence;
    intros; intuition (try discriminate; try congruence).
Qed.

(* ------------------------------------------------------------------ *)
(** ** Connecting to Ollama *)

Section ConnectedModels.

Variable Entry : Type.
Variable idOf : Entry -> string.
Variable generic : Entry.
Hypothesis generic_id : idOf generic = "ollama_generic".

Let isGeneric (m : Entry) : bool := String.eqb (idOf m) "ollama_generic".

Lemma filter_filter_neg (ms : list Entry) :
  filter isGeneric (filter (fun m => negb (isGeneric m)) ms) = [].
Proof.
  induction ms as [|a ms IH]; cbn; [reflexivity|].
  destruct (isGeneric a) eqn:Ha; cbn; [exact IH|]. now rewrite Ha.
Qed.

Lemma filter_idem (ms : list Entry) :
  filter (fun m => negb (isGeneric m)) (filter (fun m => negb (isGeneric m)) ms)
  = filter (fun m => negb (isGeneric m)) ms.
Proof.
  induction ms as [|a ms IH]; cbn; [reflexivity|].
  destruct (isGeneric a) eqn:Ha; cbn; [exact IH|]. rewrite Ha. cbn. now rewrite IH.
Qed.

Lemma find_filtered_out (ms : list Entry) :
  find isGeneric (filter (fun m => negb (isGeneric m)) ms ++ [generic]) = Some generic.
Proof.
  induction ms as [|a ms IH]; cbn.
  - unfold isGeneric. now rewrite generic_id.
  - destruct (isGeneric a) eqn:Ha; cbn; [exact IH|]. now rewrite Ha.
Qed.

(** X22.  The model list that a successful connection to Ollama puts in the
    config holds exactly one entry with the id [ollama_generic], namely the
    generic entry, in last place; the entries with another id are kept, in
    their order; an earlier generic entry is dropped, so connecting again
    yields the same list; and looking up the id [ollama_generic] finds the
    generic entry. *)
Theorem connected_models_hold_one_generic_entry (models : option (list Entry)) :
  let before := match models with Some ms => ms | None => [] end in
  let after := Ollama.connectedModels idOf generic models in
  filter (fun m => String.eqb (idOf m) "ollama_generic") after = [generic]
  /\ (exists others, after = (others ++ [generic])%list
                     /\ Forall (fun m => idOf m <> "ollama_generic") others)
  /\ filter (fun m => negb (String.eqb (idOf m) "ollama_generic")) after
     = filter (fun m => negb (String.eqb (idOf m) "ollama_generic")) before
  /\ Ollama.connectedModels idOf generic (Some after) = after
  /\ find (fun m => String.eqb (idOf m) "ollama_generic") after = Some generic.
Proof.
  intros before after. unfold after, Ollama.connectedModels. fold before.
  assert (Hg : isGeneric generic = true) by (unfold isGeneric; now rewrite generic_id).
  change (fun m => String.eqb (idOf m) "ollama_generic") with isGeneric.
  change (fun m => negb (String.eqb (idOf m) "ollama_generic"))
    with (fun m => negb (isGeneric m)).
  repeat split.
  - rewrite filter_app, filter_filter_neg. cbn. now rewrite Hg.
  - eexists. split; [reflexivity|].
    apply Forall_forall. intros m Hm. apply filter_In in Hm. destruct Hm as [_ Hm].
    unfold isGeneric in Hm. intros Heq. rewrite Heq in Hm. discriminate.
  - rewrite filter_app, filter_idem. cbn. rewrite Hg. cbn. apply app_nil_r.
  - rewrite filter_app, filter_idem. cbn. rewrite Hg. cbn. now rewrite app_nil_r.
  - apply find_filtered_out.
Qed.

End ConnectedModels.

Lemma connected_models_hold_one_generic_entry_witness :
  let models := Some [mkModel "m1" (Some "openai"); mkModel "ollama_generic" None] in
  let before := match models with Some ms => ms | None => [] end in
  let after := Ollama.connectedModels model_id Ollama.genericModel models in
  filter (fun m => String.eqb (model_id m) "ollama_generic") after = [Ollama.genericModel]
  /\ (exists others, after = (others ++ [Ollama.genericModel])%list
                     /\ Forall (fun m => model_id m <> "ollama_generic") others)
  /\ filter (fun m => negb (String.eqb (model_id m) "ollama_generic")) after
     = filter (fun m => negb (String.eqb (model_id m) "ollama_generic")) before
  /\ Ollama.connectedModels model_id Ollama.genericModel (Some after) = after
  /\ find (fun m => String.eqb (model_id m) "ollama_generic") after
     = Some Ollama.genericModel.
Proof.
  intros models.
  apply (@connected_models_hold_one_generic_entry Model model_id Ollama.genericModel
           eq_refl models).
Defined.

(** X23.  When the server answers the connection request of [onConnect]
    with a status that is not OK, the error shown and the error recorded are
    always [Connection failed: ] with the status and its text, whatever the
    body of the answer says or fails to say.  The config is marked connected
    exactly when the answer is OK and its body holds an array of models. *)
Theorem connection_outcome
        (nullDereference : Thrown) (url : string) (outcome : Ollama.FetchOutcome) :
  (forall status statusText body,
      outcome = Ollama.FetchResponse false status statusText body ->
      Ollama.onConnectSettled nullDereference url outcome
      = ([Ollama.ToastDismiss;
          Ollama.ToastError ("Connection failed: " ++ status ++ " " ++ statusText)],
         Ollama.UpdateFailed
           (Ollama.ErrorText ("Connection failed: " ++ status ++ " " ++ statusText))))
  /\ (snd (Ollama.onConnectSettled nullDereference url outcome)
      = Ollama.UpdateConnected url
      <-> exists status statusText error,
            outcome = Ollama.FetchResponse true status statusText
                        (Fulfilled (Ollama.JsonValue true error)))
  /\ (forall u, snd (Ollama.onConnectSettled nullDereference url outcome)
                = Ollama.UpdateConnected u ->
                fst (Ollama.onConnectSettled nullDereference url outcome)
                = [Ollama.ToastDismiss; Ollama.ToastSuccess "Connected to ollama"]).
Proof.
  split; [|split].
  - intros status statusText body ->. cbn. unfold Ollama.onConnectCatch. cbn.
    reflexivity.
  - split.
    + destruct outcome as [err|[|] status statusText [[|[|] error]|err]]; cbn;
        try (unfold Ollama.onConnectCatch; cbn; discriminate).
      * intros _. now exists status, statusText, error.
      * destruct (Ollama.errorIsTruthy error); [destruct error|]; discriminate.
    + intros (status & statusText & error & ->). reflexivity.
  - intros u.
    destruct outcome as [err|[|] status statusText [[|[|] error]|err]]; cbn;
      try (unfold Ollama.onConnectCatch; cbn; discriminate); try reflexivity.
    destruct (Ollama.errorIsTruthy error); [destruct error|]; discriminate.
Qed.

(* ------------------------------------------------------------------ *)
(** ** Speech output *)

Section SpeechFacts.

Variable Rate : Type.

Lemma calls_command (c : Speech.Command Rate) (s : Speech.State Rate) :
  Speech.calls (Speech.command c s)
  = (Speech.calls s ++ match c with Speech.Call cb => [cb] | _ => [] end)%list.
Proof.
  unfold Speech.calls, Speech.command. cbn.
  rewrite flat_map_app. cbn. now rewrite app_nil_r.
Qed.

Lemma handle_without_callbacks (e : Speech.Event Rate) (s : Speech.State Rate) :
  Speech.callbacks s = Speech.noCallbacks ->
  Speech.callbacks (Speech.handle e s) = Speech.noCallbacks
  /\ Speech.log (Speech.handle e s) = Speech.log s.
Proof.
  intros Hc.
  destruct e as [u|u|u|u|u]; cbn;
    unfold Speech.utteranceOnStart, Speech.utteranceOnEnd, Speech.utteranceOnPause,
      Speech.utteranceOnResume, Speech.utteranceOnError, Speech.utteranceOnEnd;
    try destruct (Speech.isCurrent _ s); cbn; rewrite ?Hc; cbn; auto.
Qed.

Lemma handleAll_without_callbacks (events : list (Speech.Event Rate)) (s : Speech.State Rate) :
  Speech.callbacks s = Speech.noCallbacks ->
  Speech.log (Speech.handleAll events s) = Speech.log s.
Proof.
  revert s. induction events as [|e events IH]; intros s Hc; [reflexivity|].
  cbn. destruct (@handle_without_callbacks e s Hc) as [Hc' Hl].
  change (fold_left _ events _) with (Speech.handleAll events (Speech.handle e s)).
  now rewrite IH.
Qed.

(** X24.  [stopSpeech] does nothing at all when there is no current
    utterance and the synthesizer is neither speaking nor pending.
    Otherwise it asks the synthesizer to cancel, then calls the end callback
    that was registered, once; it forgets the utterance and all four
    callbacks and is no longer paused.  After that, whatever events the
    synthesizer still raises on whatever utterance, no callback is called
    and nothing is asked of the synthesizer. *)
Theorem stopSpeech_ends_the_speech_once (synth : Speech.Synth) (s : Speech.State Rate) :
  let idle := isNull (Speech.currentUtterance s)
              && negb (Speech.speaking synth) && negb (Speech.pending synth) in
  let s' := Speech.stopSpeech synth s in
  (idle = true -> s' = s)
  /\ (idle = false ->
      Speech.log s'
      = (Speech.log s
           ++ Speech.Cancel
           :: match Speech.onEnd (Speech.callbacks s) with
              | Some cb => [Speech.Call cb]
              | None => []
              end)%list
      /\ Speech.currentUtterance s' = None
      /\ Speech.callbacks s' = Speech.noCallbacks
      /\ Speech.isSpeechPaused s' = false
      /\ forall events, Speech.log (Speech.handleAll events s') = Speech.log s').
Proof.
  cbv zeta. unfold Speech.stopSpeech.
  destruct (isNull (Speech.currentUtterance s)
            && negb (Speech.speaking synth) && negb (Speech.pending synth)).
  - split; [reflexivity|discriminate].
  - split; [discriminate|]. intros _.
    assert (H : forall t : Speech.State Rate,
               Speech.callbacks t = Speech.noCallbacks ->
               forall events, Speech.log (Speech.handleAll events t) = Speech.log t)
      by (intros t Ht events; now apply handleAll_without_callbacks).
    destruct (Speech.onEnd (Speech.callbacks s)) as [cb|]; cbn;
      repeat split; try (apply H; reflexivity).
    now rewrite <- app_assoc.
Qed.

(** X25.  An event that the synthesizer raises on an utterance whose
    handlers belong to another utterance than the current one (a superseded
    or cancelled one) changes nothing, whether it is an end, an error, a
    pause or a resume: it calls no callback of the current speech.  The end
    of the current utterance calls the end callback and forgets it, so a
    second end or an error after it changes nothing more. *)
Theorem stale_speech_events_are_ignored (s : Speech.State Rate) (u v : Speech.Utterance Rate) :
  Speech.currentUtterance s = Some u ->
  Speech.uid (Speech.object (Speech.handlerOwner v)) <> Speech.uid (Speech.object u) ->
  Speech.utteranceOnEnd v s = s
  /\ Speech.utteranceOnError v s = s
  /\ Speech.utteranceOnPause v s = s
  /\ Speech.utteranceOnResume v s = s
  /\ (forall w : Speech.Utterance Rate,
        let ended := Speech.utteranceOnEnd w s in
        Speech.utteranceOnEnd w ended = ended
        /\ Speech.utteranceOnError w ended = ended).
Proof.
  intros Hcur Hne.
  assert (Hv : Speech.isCurrent (Speech.handlerOwner v) s = false).
  { unfold Speech.isCurrent. rewrite Hcur. apply Nat.eqb_neq. congruence. }
  unfold Speech.utteranceOnError, Speech.utteranceOnEnd, Speech.utteranceOnPause,
    Speech.utteranceOnResume.
  rewrite Hv. repeat split.
  all: destruct (Speech.isCurrent (Speech.handlerOwner w) s) eqn:Hw; cbn.
  all: try (unfold Speech.isCurrent;
            destruct (Speech.onEnd (Speech.callbacks s)); cbn; reflexivity).
  all: now rewrite Hw.
Qed.

(** X26.  [pauseSpeech] acts only when there is a current utterance, the
    synthesizer is speaking and the module is not yet paused: it then asks
    the synthesizer to pause, calls the pause callback and counts as paused,
    so a second [pauseSpeech] does nothing.  [resumeSpeech] does nothing
    when the module is not paused; after a pause it asks the synthesizer to
    resume, calls the resume callback and leaves the module as it was before
    the pause, the log apart. *)
Theorem pause_and_resume
        (synth : Speech.Synth) (s : Speech.State Rate) (u : Speech.Utterance Rate) :
  Speech.currentUtterance s = Some u ->
  Speech.speaking synth = true ->
  Speech.isSpeechPaused s = false ->
  let p := Speech.pauseSpeech false synth s in
  let r := Speech.resumeSpeech false p in
  (forall throws, Speech.resumeSpeech throws s = s)
  /\ Speech.isSpeechPaused p = true
  /\ Speech.log p
     = (Speech.log s
          ++ Speech.Pause
          :: match Speech.onPause (Speech.callbacks s) with
             | Some cb => [Speech.Call cb]
             | None => []
             end)%list
  /\ (forall throws synth', Speech.pauseSpeech throws synth' p = p)
  /\ (forall synth', Speech.isCurrentlyPaused p synth' = true)
  /\ Speech.log r
     = (Speech.log p
          ++ Speech.Resume
          :: match Speech.onResume (Speech.callbacks s) with
             | Some cb => [Speech.Call cb]
             | None => []
             end)%list
  /\ r = Speech.mkState (Speech.currentUtterance s) (Speech.callbacks s)
                        (Speech.isSpeechPaused s) (Speech.currentText s)
                        (Speech.currentVoice s) (Speech.currentRate s)
                        (Speech.created s) (Speech.log r).
Proof.
  intros Hcur Hsp Hp.
  set (paused := match Speech.onPause (Speech.callbacks s) with
                 | Some cb => [Speech.Call cb]
                 | None => []
                 end).
  assert (Hpause : Speech.pauseSpeech false synth s
                   = Speech.mkState (Speech.currentUtterance s) (Speech.callbacks s) true
                       (Speech.currentText s) (Speech.currentVoice s)
                       (Speech.currentRate s) (Speech.created s)
                       (Speech.log s ++ Speech.Pause :: paused)).
  { unfold Speech.pauseSpeech, Speech.isCurrentlySpeaking, paused.
    rewrite Hsp, Hp. rewrite Hcur at 1. cbn.
    unfold Speech.call, Speech.command, Speech.setPaused. cbn.
    destruct (Speech.onPause (Speech.callbacks s)); cbn; [|reflexivity].
    now rewrite <- app_assoc. }
  cbv zeta. rewrite Hpause.
  split.
  { intros throws. unfold Speech.resumeSpeech. now rewrite Hp. }
  split; [reflexivity|].
  split; [reflexivity|].
  split.
  { intros throws synth'. unfold Speech.pauseSpeech. cbn.
    now rewrite andb_false_r. }
  split; [reflexivity|].
  unfold Speech.resumeSpeech, Speech.call, Speech.command, Speech.setPaused. cbn.
  destruct (Speech.onResume (Speech.callbacks s)); cbn; rewrite Hp;
    rewrite <- ?app_assoc; split; reflexivity.
Qed.

(** X27.  [speakMessage] registers the callbacks it is given and asks the
    synthesizer to speak one new utterance, with the text and the rate it
    is given, its own handlers, and the voice of the given name if the
    synthesizer has one (else the default voice, with a warning when a name
    was given).  If the synthesizer is speaking or has speech pending, the
    module first stops: it asks to cancel and calls the end callback of the
    earlier speech, before the new utterance is spoken. *)
Theorem speakMessage_replaces_the_speech
        (text : string) (voiceName : option string) (rate : Rate)
        (cbs : Speech.Callbacks) (synth : Speech.Synth) (s : Speech.State Rate) :
  let s' := Speech.speakMessage text voiceName rate cbs synth s in
  let voice :=
    if truthyOpt voiceName
    then find (fun v => String.eqb (Speech.voice_name v) (textOf voiceName))
              (Speech.voices synth)
    else None in
  let utterance :=
    Speech.mkUtterance (Speech.mkObject (Speech.created s) text voice rate) None in
  let stopped :=
    if Speech.speaking synth || Speech.pending synth
    then Speech.Cancel
         :: match Speech.onEnd (Speech.callbacks s) with
            | Some cb => [Speech.Call cb]
            | None => []
            end
    else [] in
  let warned :=
    if truthyOpt voiceName && isNull voice
    then [Speech.Warn ("Voice " ++ dquote ++ textOf voiceName ++ dquote
                         ++ " not found. Using default.")]
    else [] in
  Speech.log s' = (Speech.log s ++ stopped ++ warned ++ [Speech.Speak utterance])%list
  /\ Speech.callbacks s' = cbs
  /\ Speech.created s' = S (Speech.created s)
  /\ Speech.currentUtterance s'
     = (if Speech.speaking synth || Speech.pending synth then None
        else Speech.currentUtterance s)
  /\ (Speech.speaking synth || Speech.pending synth = true ->
      Speech.isSpeechPaused s' = false).
Proof.
  cbv zeta. unfold Speech.speakMessage, Speech.isCurrentlySpeaking, Speech.stopSpeech.
  destruct (Speech.speaking synth) eqn:Hs, (Speech.pending synth) eqn:Hp;
    cbn [orb negb andb]; rewrite ?andb_false_r; cbn [andb];
    destruct (truthyOpt voiceName);
    cbn [andb];
    try destruct (find _ (Speech.voices synth));
    destruct (Speech.onEnd (Speech.callbacks s));
    cbn; rewrite <- ?app_assoc; cbn; repeat split; try discriminate.
Qed.

End SpeechFacts.

Lemma stale_speech_events_are_ignored_witness :
  let cbs := Speech.mkCallbacks (Some 1) (Some 2) (Some 3) (Some 4) in
  let u := Speech.mkUtterance (Speech.mkObject 1 "second" None 1%nat) None in
  let v := Speech.mkUtterance (Speech.mkObject 0 "first" None 1%nat) None in
  let s := Speech.mkState (Some u) cbs false "" None 1%nat 2 [Speech.Speak v; Speech.Speak u] in
  Speech.utteranceOnEnd v s = s
  /\ Speech.utteranceOnError v s = s
  /\ Speech.utteranceOnPause v s = s
  /\ Speech.utteranceOnResume v s = s
  /\ (forall w : Speech.Utterance nat,
        let ended := Speech.utteranceOnEnd w s in
        Speech.utteranceOnEnd w ended = ended
        /\ Speech.utteranceOnError w ended = ended).
Proof.
  cbv zeta.
  apply (@stale_speech_events_are_ignored nat
           (Speech.mkState
              (Some (Speech.mkUtterance (Speech.mkObject 1 "second" None 1%nat) None))
              (Speech.mkCallbacks (Some 1) (Some 2) (Some 3) (Some 4))
              false "" None 1%nat 2
              [Speech.Speak (Speech.mkUtterance (Speech.mkObject 0 "first" None 1%nat) None);
               Speech.Speak (Speech.mkUtterance (Speech.mkObject 1 "second" None 1%nat) None)])
           (Speech.mkUtterance (Speech.mkObject 1 "second" None 1%nat) None)
           (Speech.mkUtterance (Speech.mkObject 0 "first" None 1%nat) None)).
  - reflexivity.
  - cbn. lia.
Defined.

Lemma pause_and_resume_witness :
  let cbs := Speech.mkCallbacks (Some 1) (Some 2) (Some 3) (Some 4) in
  let u := Speech.mkUtterance (Speech.mkObject 0 "text" None 1%nat) None in
  let s := Speech.mkState (Some u) cbs false "" None 1%nat 1 [Speech.Speak u; Speech.Call 1] in
  let synth := Speech.mkSynth true false false [] in
  let p := Speech.pauseSpeech false synth s in
  let r := Speech.resumeSpeech false p in
  Speech.log r
  = [Speech.Speak u; Speech.Call 1; Speech.Pause; Speech.Call 3;
     Speech.Resume; Speech.Call 4]
  /\ Speech.isSpeechPaused p = true
  /\ Speech.isSpeechPaused r = false.
Proof.
  cbv zeta.
  pose proof (@pause_and_resume nat
                (Speech.mkSynth true false false [])
                (Speech.mkState
                   (Some (Speech.mkUtterance (Speech.mkObject 0 "text" None 1%nat) None))
                   (Speech.mkCallbacks (Some 1) (Some 2) (Some 3) (Some 4))
                   false "" None 1%nat 1
                   [Speech.Speak (Speech.mkUtterance (Speech.mkObject 0 "text" None 1%nat) None);
                    Speech.Call 1])
                (Speech.mkUtterance (Speech.mkObject 0 "text" None 1%nat) None)
                eq_refl eq_refl eq_refl) as H.
  cbv zeta in H.
  destruct H as (_ & Hpaused & Hlogp & _ & _ & Hlogr & Hr).
  split; [|split].
  - rewrite Hlogr, Hlogp. reflexivity.
  - exact Hpaused.
  - rewrite Hr. reflexivity.
Defined.
